(** * London bicycle hires dashboard (app.py): the analytics core

    A shallow embedding of the computations of [app.py]: the SQL text the
    script sends to the warehouse is read as list functions over the two
    tables, and the pandas / Python code around it as functions that
    return either a value or the exception the interpreter would raise.

    Conventions.
    - A BigQuery [TIMESTAMP] is an integer count of microseconds since the
      epoch (UTC); a Python [datetime.date] is an integer count of days
      since the epoch, so [(end_date - start_date).days] is a subtraction.
    - [INT64] columns are [Z].  [FLOAT64] columns and Python floats are
      exact rationals [Q]: rounding of the machine format is not modelled.
    - A table is a list of records; the order of the list stands for the
      physical order of the rows, which SQL leaves to the engine. *)

From Stdlib Require Import ZArith QArith List Ascii String Bool Lia Permutation Sorted.
Import ListNotations.
Open Scope Z_scope.

Set Implicit Arguments.

(** ** Python results *)

Inductive PyError : Type :=
| ValueError (msg : string)
| IndexError (msg : string)
| KeyError (msg : string)
| NameError (msg : string)
| ZeroDivisionError (msg : string).

Inductive Py (A : Type) : Type :=
| Ret (a : A)
| Raise (e : PyError).
Arguments Ret {A} a.
Arguments Raise {A} e.

Definition py_bind {A B : Type} (m : Py A) (k : A -> Py B) : Py B :=
  match m with
  | Ret a => k a
  | Raise e => Raise e
  end.

Notation "x <- m ;; k" := (py_bind m (fun x => k))
  (at level 61, m at next level, right associativity).

(** [a / b] on Python numbers. *)
Definition truediv (a b : Q) : Py Q :=
  if Qeq_bool b 0 then Raise (ZeroDivisionError "division by zero")
  else Ret (a / b)%Q.

(** ** Sidebar: the analysis parameters (lines 97-136) *)

Inductive Interval : Type := Daily | Weekly | Monthly | Quarterly | Annual.

Definition interval_days (selected_interval : Interval) : Z :=
  match selected_interval with
  | Daily => 1
  | Weekly => 7
  | Monthly => 30
  | Quarterly => 90
  | Annual => 365
  end.

(** [(end_date - start_date).days] *)
Definition total_days (start_date end_date : Z) : Z := end_date - start_date.

(** line 134: [max(1, total_days // interval_days_count)] *)
Definition num_intervals (start_date end_date : Z) (iv : Interval) : Z :=
  Z.max 1 (total_days start_date end_date / interval_days iv).

(** lines 330-331, the same expression computed again in region 2 *)
Definition days_in_period (start_date end_date : Z) : Z := end_date - start_date.

Definition intervals_in_period (start_date end_date : Z) (iv : Interval) : Z :=
  Z.max 1 (days_in_period start_date end_date / interval_days iv).

(** The per-interval rates of the script, each a true division by
    [intervals_in_period] (lines 333, 339, 437, 550, 757). *)
Definition per_interval (raw_total : Q) (start_date end_date : Z) (iv : Interval) : Py Q :=
  truediv raw_total (inject_Z (intervals_in_period start_date end_date iv)).

(** ** The query boundary (lines 77-90) *)

Section RunQuery.

(** What the BigQuery client library hands back is opaque to the script. *)
Variables Client QueryJob Row : Type.

(** A Python exception instance caught by [except Exception as e];
    [str_of] is its [f"{e}"]. *)
Variable PyException : Type.
Variable str_of : PyException -> string.

Inductive Outcome (A : Type) : Type :=
| Returned (a : A)
| Raised (e : PyException).
Arguments Returned {A} a.
Arguments Raised {A} e.

Definition outcome_bind {A B : Type} (m : Outcome A) (k : A -> Outcome B) : Outcome B :=
  match m with
  | Returned a => k a
  | Raised e => Raised e
  end.

(** A pandas frame: its column labels and its rows. *)
Record DataFrame : Type := mkDataFrame {
  columns : list string;
  records : list Row
}.

(** [pd.DataFrame()] *)
Definition pd_DataFrame : DataFrame := mkDataFrame [] [].

(** [df.empty]: some axis has length zero. *)
Definition df_empty (df : DataFrame) : bool :=
  match columns df, records df with
  | _ :: _, _ :: _ => false
  | _, _ => true
  end.

(** The three calls inside the [try]. *)
Variable get_bigquery_client : Outcome Client.
Variable client_query : Client -> string -> Outcome QueryJob.
Variable to_dataframe : QueryJob -> Outcome DataFrame.

Definition try_body (query : string) : Outcome DataFrame :=
  outcome_bind get_bigquery_client (fun client =>
  outcome_bind (client_query client query) (fun query_job =>
  to_dataframe query_job)).

(** Elements written to the page. *)
Inductive Element : Type :=
| st_error (body : string).

(** [run_query]: the frame returned and what was written to the page.
    The [st.cache_data] decorator replays this result for an hour when the
    same query text comes again; it does not change what a call returns. *)
Definition run_query (query : string) : DataFrame * list Element :=
  match try_body query with
  | Returned df => (df, [])
  | Raised e =>
      (pd_DataFrame, [st_error ("Error executing query: " ++ str_of e)])
  end.

(** The only thing every caller asks of the frame first (lines 265, 423,
    645): [if not df.empty]. *)
Definition caller_sees_data (query : string) : bool :=
  negb (df_empty (fst (run_query query))).

End RunQuery.

Arguments Returned {PyException A} a.
Arguments Raised {PyException A} e.
Arguments pd_DataFrame {Row}.

(** ** SQL building blocks *)

(** Equality test on the values of a grouping or join key. *)
Class SqlKey (K : Type) : Type := key_eqb : K -> K -> bool.

#[export] Instance SqlKey_Z : SqlKey Z := Z.eqb.
#[export] Instance SqlKey_string : SqlKey string := String.eqb.
#[export] Instance SqlKey_prod {A B : Type} `{SqlKey A} `{SqlKey B} : SqlKey (A * B) :=
  fun x y => key_eqb (fst x) (fst y) && key_eqb (snd x) (snd y).

Section GroupBy.
Variables R K : Type.
Context `{SqlKey K}.
Variable key : R -> K.

(** The distinct key values, each at its first occurrence. *)
Fixpoint distinct (ks : list K) : list K :=
  match ks with
  | [] => []
  | k :: ks' => k :: filter (fun k' => negb (key_eqb k k')) (distinct ks')
  end.

(** [GROUP BY key]: one group per distinct key value, holding the rows
    that have it. *)
Definition group_by (rows : list R) : list (K * list R) :=
  map (fun k => (k, filter (fun r => key_eqb (key r) k) rows))
      (distinct (map key rows)).
End GroupBy.

(** Rows produced block by block, every row of a block carrying the key
    of its block. *)
Definition keyed_by {R K A : Type} (key : R -> K) (block : A -> list R)
  (block_key : A -> K) (l : list A) : Prop :=
  forall a, In a l -> forall r, In r (block a) -> key r = block_key a.

(** [COUNT( * )] and [COUNTIF(cond)] over the rows of a group. *)
Definition COUNT {R : Type} (rows : list R) : Z := Z.of_nat (List.length rows).
Definition COUNTIF {R : Type} (cond : R -> bool) (rows : list R) : Z :=
  COUNT (filter cond rows).

Definition Qsum (xs : list Q) : Q := fold_right Qplus 0%Q xs.

(** [AVG(x)] over a group (a group is never empty). *)
Definition AVG (xs : list Q) : Q := (Qsum xs / inject_Z (COUNT xs))%Q.

Definition Qlt_bool (x y : Q) : bool := negb (Qle_bool y x).

Definition Qmax (x y : Q) : Q := if Qle_bool x y then y else x.

(** [MAX(x)] over a group. *)
Definition MAXQ (xs : list Q) : Q :=
  match xs with
  | [] => 0%Q
  | x :: xs' => fold_left Qmax xs' x
  end.

Definition MAXZ (xs : list Z) : Z :=
  match xs with
  | [] => 0
  | x :: xs' => fold_left Z.max xs' x
  end.

(** [ROUND(x, 1)]: to one decimal, halfway cases away from zero. *)
Definition ROUND1 (x : Q) : Q :=
  let y := (x * 10)%Q in
  let n := Qnum y in
  let d := Zpos (Qden y) in
  ((Z.sgn n * ((2 * Z.abs n + d) / (2 * d))) # 10)%Q.

(** [a / b] on [INT64]: a [FLOAT64], and a query error when [b] is zero. *)
Definition bq_div (a b : Z) : option Q :=
  if b =? 0 then None else Some (inject_Z a / inject_Z b)%Q.

(** Evaluation of a select list over every group: the query fails as soon
    as one expression does. *)
Fixpoint select_all {A B : Type} (f : A -> option B) (l : list A) : option (list B) :=
  match l with
  | [] => Some []
  | a :: l' =>
      match f a, select_all f l' with
      | Some b, Some bs => Some (b :: bs)
      | _, _ => None
      end
  end.

(** [ORDER BY]: a stable insertion sort; [before a b] holds when the sort
    keys put [a] strictly ahead of [b].  Rows with equal keys keep their
    physical order here, where the engine is free to return any. *)
Section OrderBy.
Variable R : Type.
Variable before : R -> R -> bool.

Fixpoint insert_row (x : R) (l : list R) : list R :=
  match l with
  | [] => [x]
  | y :: l' => if before y x then y :: insert_row x l' else x :: y :: l'
  end.

Definition order_by (rows : list R) : list R := fold_right insert_row [] rows.

(** The rows that an [ORDER BY] may put first: none is strictly ahead. *)
Definition may_be_first (rows : list R) (r : R) : bool :=
  forallb (fun r' => negb (before r' r)) rows.
End OrderBy.

Definition LIMIT {R : Type} (n : nat) (rows : list R) : list R := firstn n rows.

(** ** The two warehouse tables *)

(** [bigquery-public-data.london_bicycles.cycle_hire], alias [h] *)
Record cycle_hire : Type := mk_hire {
  h_rental_id : Z;
  h_start_station_id : Z;
  h_end_station_id : Z;
  h_start_date : Z;
  h_end_date : Z
}.

(** [bigquery-public-data.london_bicycles.cycle_stations], alias [s] *)
Record cycle_stations : Type := mk_station {
  s_id : Z;
  s_name : string;
  s_docks_count : Z
}.

Definition usec_per_hour : Z := 3600000000.
Definition usec_per_day : Z := 24 * usec_per_hour.

(** [TIMESTAMP('YYYY-MM-DD')]: midnight UTC of that day. *)
Definition TIMESTAMP (day : Z) : Z := day * usec_per_day.

Definition EXTRACT_DATE (ts : Z) : Z := ts / usec_per_day.
Definition EXTRACT_HOUR (ts : Z) : Z := (ts mod usec_per_day) / usec_per_hour.
(** 1 = Sunday ... 7 = Saturday; day 0 of the epoch was a Thursday. *)
Definition EXTRACT_DAYOFWEEK (ts : Z) : Z := (EXTRACT_DATE ts + 4) mod 7 + 1.

Definition BETWEEN (x lo hi : Z) : bool := (lo <=? x) && (x <=? hi).

(** ** Region 2: capacity hotspots *)

(** *** CTE [hourly_station_status] (lines 184-205) *)

Record HourlyStationSlot : Type := mk_slot {
  hss_end_station_id : Z;
  hss_station_name : string;
  hss_total_docks : Z;
  hss_date : Z;
  hss_hour : Z;
  hss_day_of_week : Z;
  hss_arrivals_in_hour : Z;
  hss_utilisation_pct : Q
}.

(** [cycle_hire AS h JOIN cycle_stations AS s ON h.end_station_id = s.id] *)
Definition hourly_join (trips : list cycle_hire) (stations : list cycle_stations)
  : list (cycle_hire * cycle_stations) :=
  flat_map (fun h =>
    map (fun s => (h, s))
        (filter (fun s => h_end_station_id h =? s_id s) stations)) trips.

(** [WHERE h.end_date BETWEEN TIMESTAMP(start) AND TIMESTAMP(end)
      AND s.docks_count > 0] *)
Definition hourly_where (start_date end_date : Z) (hs : cycle_hire * cycle_stations) : bool :=
  BETWEEN (h_end_date (fst hs)) (TIMESTAMP start_date) (TIMESTAMP end_date)
  && (0 <? s_docks_count (snd hs)).

Definition HourlyKey : Type := (Z * string * Z * Z * Z * Z)%type.

(** [GROUP BY h.end_station_id, s.name, s.docks_count, date, hour, day_of_week] *)
Definition hourly_key (hs : cycle_hire * cycle_stations) : HourlyKey :=
  (h_end_station_id (fst hs), s_name (snd hs), s_docks_count (snd hs),
   EXTRACT_DATE (h_end_date (fst hs)),
   EXTRACT_HOUR (h_end_date (fst hs)),
   EXTRACT_DAYOFWEEK (h_end_date (fst hs))).

(** The select list over one group; [COUNT( * ) / s.docks_count * 100]. *)
Definition hourly_select (g : HourlyKey * list (cycle_hire * cycle_stations))
  : option HourlyStationSlot :=
  let '(id, name, docks, date, hour, dow, rows) := g in
  match bq_div (COUNT rows) docks with
  | Some q => Some (mk_slot id name docks date hour dow (COUNT rows) (q * 100)%Q)
  | None => None
  end.

Definition hourly_station_status
  (trips : list cycle_hire) (stations : list cycle_stations)
  (start_date end_date : Z) : option (list HourlyStationSlot) :=
  select_all hourly_select
    (group_by hourly_key
       (filter (hourly_where start_date end_date) (hourly_join trips stations))).

(** *** CTE [peak_hours] (lines 206-220) *)

Record PeakRow : Type := mk_peak {
  p_station_name : string;
  p_hour : Z;
  p_day_of_week : Z;
  p_num_occurrences : Z;
  p_avg_util_at_hour : Q
}.

(** [WHERE utilisation_pct >= 95] *)
Definition peak_where (r : HourlyStationSlot) : bool :=
  Qle_bool 95 (hss_utilisation_pct r).

(** [GROUP BY station_name, hour, day_of_week] *)
Definition peak_key (r : HourlyStationSlot) : string * Z * Z :=
  (hss_station_name r, hss_hour r, hss_day_of_week r).

Definition peak_select (g : string * Z * Z * list HourlyStationSlot) : PeakRow :=
  let '(name, hour, dow, rows) := g in
  mk_peak name hour dow (COUNT rows) (AVG (map hss_utilisation_pct rows)).

(** The grouped rows, before [QUALIFY]. *)
Definition peak_groups (hss : list HourlyStationSlot) : list PeakRow :=
  map peak_select (group_by peak_key (filter peak_where hss)).

(** [ORDER BY num_occurrences DESC, avg_util_at_hour DESC]: there is no
    third key. *)
Definition peak_before (a b : PeakRow) : bool :=
  (p_num_occurrences b <? p_num_occurrences a)
  || ((p_num_occurrences a =? p_num_occurrences b)
      && Qlt_bool (p_avg_util_at_hour b) (p_avg_util_at_hour a)).

(** [PARTITION BY station_name] *)
Definition peak_partition (name : string) (groups : list PeakRow) : list PeakRow :=
  filter (fun r => String.eqb (p_station_name r) name) groups.

(** [QUALIFY ROW_NUMBER() OVER (PARTITION BY ... ORDER BY ...) = 1]: the
    rows of [groups] that some numbering allowed by the [ORDER BY] keeps. *)
Definition row_number_1 (groups : list PeakRow) (r : PeakRow) : bool :=
  may_be_first peak_before (peak_partition (p_station_name r) groups) r.

Definition qualifies (groups : list PeakRow) (r : PeakRow) : Prop :=
  In r groups /\ row_number_1 groups r = true.

(** One run of the clause: the numbering that breaks ties by physical order. *)
Definition peak_hours (hss : list HourlyStationSlot) : list PeakRow :=
  let groups := peak_groups hss in
  flat_map (fun name => firstn 1 (order_by peak_before (peak_partition name groups)))
           (distinct (map p_station_name groups)).

(** *** The per-station subquery [s] (lines 236-252) *)

Record StationSummary : Type := mk_summary {
  ss_station_name : string;
  ss_total_docks : Z;
  ss_instances_near_capacity : Z;
  ss_instances_at_capacity : Z;
  ss_avg_hourly_arrivals : Q;
  ss_avg_utilisation_pct : Q;
  ss_max_hourly_arrivals : Z;
  ss_max_utilisation_pct : Q
}.

(** [WHERE utilisation_pct >= 80 AND total_docks > 0] *)
Definition summary_where (r : HourlyStationSlot) : bool :=
  Qle_bool 80 (hss_utilisation_pct r) && (0 <? hss_total_docks r).

(** [GROUP BY station_name, total_docks] *)
Definition summary_key (r : HourlyStationSlot) : string * Z :=
  (hss_station_name r, hss_total_docks r).

(** [utilisation_pct >= 100] *)
Definition at_capacity (r : HourlyStationSlot) : bool :=
  Qle_bool 100 (hss_utilisation_pct r).

Definition summary_select (g : string * Z * list HourlyStationSlot) : StationSummary :=
  let '(name, docks, rows) := g in
  mk_summary name docks
    (COUNT rows)
    (COUNTIF at_capacity rows)
    (ROUND1 (AVG (map (fun r => inject_Z (hss_arrivals_in_hour r)) rows)))
    (ROUND1 (AVG (map hss_utilisation_pct rows)))
    (MAXZ (map hss_arrivals_in_hour rows))
    (ROUND1 (MAXQ (map hss_utilisation_pct rows))).

Definition station_summaries (hss : list HourlyStationSlot) : list StationSummary :=
  map summary_select (group_by summary_key (filter summary_where hss)).

(** *** [full_stations_query] (lines 221-259) *)

Record FullStationsRow : Type := mk_full {
  fs_station_name : string;
  fs_total_docks : Z;
  fs_instances_near_capacity : Z;
  fs_instances_at_capacity : Z;
  fs_avg_hourly_arrivals : Q;
  fs_avg_utilisation_pct : Q;
  fs_max_hourly_arrivals : Z;
  fs_max_utilisation_pct : Q;
  fs_peak_hour : option Z;
  fs_peak_day_of_week : option Z;
  fs_peak_hour_occurrences : option Z;
  fs_peak_hour_avg_util : option Q
}.

Definition full_row (s : StationSummary) (p : option PeakRow) : FullStationsRow :=
  mk_full (ss_station_name s) (ss_total_docks s)
    (ss_instances_near_capacity s) (ss_instances_at_capacity s)
    (ss_avg_hourly_arrivals s) (ss_avg_utilisation_pct s)
    (ss_max_hourly_arrivals s) (ss_max_utilisation_pct s)
    (option_map p_hour p) (option_map p_day_of_week p)
    (option_map p_num_occurrences p) (option_map p_avg_util_at_hour p).

(** [s LEFT JOIN peak_hours p ON s.station_name = p.station_name] *)
Definition left_join_peak (peaks : list PeakRow) (s : StationSummary) : list FullStationsRow :=
  match filter (fun p => String.eqb (ss_station_name s) (p_station_name p)) peaks with
  | [] => [full_row s None]
  | ms => map (fun p => full_row s (Some p)) ms
  end.

(** [ORDER BY s.instances_at_capacity DESC, s.instances_near_capacity DESC] *)
Definition full_before (a b : FullStationsRow) : bool :=
  (fs_instances_at_capacity b <? fs_instances_at_capacity a)
  || ((fs_instances_at_capacity a =? fs_instances_at_capacity b)
      && (fs_instances_near_capacity b <? fs_instances_near_capacity a)).

(** The ranked table, for the peak rows [peaks] that the [QUALIFY] clause
    kept in this run. *)
Definition ranked_stations (hss : list HourlyStationSlot) (peaks : list PeakRow)
  : list FullStationsRow :=
  LIMIT 10 (order_by full_before
              (flat_map (left_join_peak peaks) (station_summaries hss))).

Definition full_stations_query
  (trips : list cycle_hire) (stations : list cycle_stations)
  (start_date end_date : Z) : option (list FullStationsRow) :=
  match hourly_station_status trips stations start_date end_date with
  | Some hss => Some (ranked_stations hss (peak_hours hss))
  | None => None
  end.

(** *** pandas accessors *)

(** [df.iloc[i]] *)
Definition iloc {R : Type} (rows : list R) (i : nat) : Py R :=
  match nth_error rows i with
  | Some r => Ret r
  | None => Raise (IndexError "single positional indexer is out-of-bounds")
  end.

(** A frame cut out of another by a boolean mask keeps the index labels of
    the rows it retains. *)
Definition with_index {R : Type} (rows : list R) : list (nat * R) :=
  combine (seq 0 (List.length rows)) rows.

(** [series.idxmax()]: the label of the first occurrence of the maximum;
    [ValueError] on an empty series. *)
Definition idxmax (series : list (nat * Q)) : Py nat :=
  match series with
  | [] => Raise (ValueError "attempt to get argmax of an empty sequence")
  | c :: rest =>
      Ret (fst (fold_left
                  (fun best c' => if Qlt_bool (snd best) (snd c') then c' else best)
                  rest c))
  end.

(** [frame.loc[label]] *)
Definition loc {R : Type} (frame : list (nat * R)) (label : nat) : Py R :=
  match find (fun c => Nat.eqb (fst c) label) frame with
  | Some c => Ret (snd c)
  | None => Raise (KeyError "label not in index")
  end.

(** *** Key station capacity insights (lines 265-351) *)

Inductive PeakLabel : Type :=
| PeakRange (from_hour to_hour : Z)
| Unknown.

Record CapacityInsights : Type := mk_insights {
  most_at_capacity : string;
  most_at_capacity_count : Z;
  most_at_capacity_peak : PeakLabel;
  capacity_instances_per_interval : Q;
  lost_rentals_estimate : Z;
  revenue_impact : Q;
  revenue_impact_per_interval : Q;
  station_names : list string
}.

(** £1.65 for the first 30 minutes *)
Definition avg_bike_rental_fee : Q := 165 # 100.

(** The block under [if not full_stations_df.empty]; [None] is the
    [else] branch, which only prints a warning. *)
Definition capacity_insights (full_stations_df : DataFrame FullStationsRow)
  (start_date end_date : Z) (iv : Interval) : Py (option CapacityInsights) :=
  if negb (df_empty full_stations_df) then
    row0 <- iloc (records full_stations_df) 0 ;;
    let name := fs_station_name row0 in
    let count := fs_instances_at_capacity row0 in
    let peak :=
      match fs_peak_hour row0 with
      | Some hour => PeakRange hour (hour + 1)
      | None => Unknown
      end in
    let intervals := intervals_in_period start_date end_date iv in
    per_interval_count <- truediv (inject_Z count) (inject_Z intervals) ;;
    let lost := count * 5 in
    let revenue := (inject_Z lost * avg_bike_rental_fee)%Q in
    revenue_per_interval <- truediv revenue (inject_Z intervals) ;;
    Ret (Some (mk_insights name count peak per_interval_count lost revenue
                 revenue_per_interval
                 (map fs_station_name (records full_stations_df))))
  else Ret None.

(** ** Region 2.1: station-specific hourly capacity *)

(** *** [hourly_capacity_query] (lines 372-418) *)

(** Line 391 writes the selected name between single quotes as it is,
    with no escaping.  BigQuery reads what stands between the quotes as the
    string literal of that very name when the name has no single quote
    (code 39), no backslash (92) and no line break (10, 13).  With any other
    name the text sent is another query, which this development does not
    interpret ([None]); with a lone quote, as in King's Cross, it is
    malformed and [run_query] answers with the empty frame. *)
Definition literal_character (c : ascii) : bool :=
  let n := nat_of_ascii c in
  negb ((n =? 39) || (n =? 92) || (n =? 10) || (n =? 13))%nat.

Fixpoint literal_text (name : string) : bool :=
  match name with
  | EmptyString => true
  | String c rest => literal_character c && literal_text rest
  end.

Definition station_literal (selected_station : string) : option string :=
  if literal_text selected_station then Some selected_station else None.

(** CTE [hourly_data]: [hourly_station_status] restricted to
    [s.name = '...'], where [literal] is the value of the string literal
    between the quotes (see [station_literal]).  Its select list divides by
    [NULLIF(s.docks_count, 0)], which is [s.docks_count] on every row that
    passed [s.docks_count > 0]; the division is therefore the total [Qdiv]. *)
Definition hourly_data_where (start_date end_date : Z) (literal : string)
  (hs : cycle_hire * cycle_stations) : bool :=
  BETWEEN (h_end_date (fst hs)) (TIMESTAMP start_date) (TIMESTAMP end_date)
  && String.eqb (s_name (snd hs)) literal
  && (0 <? s_docks_count (snd hs)).

Definition hourly_data_select (g : HourlyKey * list (cycle_hire * cycle_stations))
  : HourlyStationSlot :=
  let '(id, name, docks, date, hour, dow, rows) := g in
  mk_slot id name docks date hour dow (COUNT rows)
          (inject_Z (COUNT rows) / inject_Z docks * 100)%Q.

Definition hourly_data
  (trips : list cycle_hire) (stations : list cycle_stations)
  (start_date end_date : Z) (literal : string) : list HourlyStationSlot :=
  map hourly_data_select
    (group_by hourly_key
       (filter (hourly_data_where start_date end_date literal)
               (hourly_join trips stations))).

Record HourlyCapacityRow : Type := mk_capacity {
  hc_hour : Z;
  hc_day_name : option string;
  hc_avg_arrivals : Q;
  hc_avg_utilisation_pct : Q;
  hc_max_utilisation_pct : Q;
  hc_near_capacity_count : Z;
  hc_at_capacity_count : Z
}.

(** [CASE WHEN day_of_week = 1 THEN 'Sunday' ... END], no [ELSE] *)
Definition day_name_of (day_of_week : Z) : option string :=
  match day_of_week with
  | 1 => Some "Sunday"%string
  | 2 => Some "Monday"%string
  | 3 => Some "Tuesday"%string
  | 4 => Some "Wednesday"%string
  | 5 => Some "Thursday"%string
  | 6 => Some "Friday"%string
  | 7 => Some "Saturday"%string
  | _ => None
  end.

#[export] Instance SqlKey_option {A : Type} `{SqlKey A} : SqlKey (option A) :=
  fun x y =>
    match x, y with
    | Some a, Some b => key_eqb a b
    | None, None => true
    | _, _ => false
    end.

(** [GROUP BY hour, day_name, day_of_week] *)
Definition capacity_key (r : HourlyStationSlot) : Z * option string * Z :=
  (hss_hour r, day_name_of (hss_day_of_week r), hss_day_of_week r).

(** [utilisation_pct >= 80 AND utilisation_pct < 100] *)
Definition near_capacity (r : HourlyStationSlot) : bool :=
  Qle_bool 80 (hss_utilisation_pct r) && Qlt_bool (hss_utilisation_pct r) 100.

Definition capacity_select (g : Z * option string * Z * list HourlyStationSlot)
  : HourlyCapacityRow :=
  let '(hour, day_name, _, rows) := g in
  mk_capacity hour day_name
    (AVG (map (fun r => inject_Z (hss_arrivals_in_hour r)) rows))
    (AVG (map hss_utilisation_pct rows))
    (MAXQ (map hss_utilisation_pct rows))
    (COUNTIF near_capacity rows)
    (COUNTIF at_capacity rows).

(** [ORDER BY day_of_week, hour], on the groups *)
Definition capacity_before (a b : Z * option string * Z * list HourlyStationSlot) : bool :=
  let '(hour_a, _, dow_a, _) := a in
  let '(hour_b, _, dow_b, _) := b in
  (dow_a <? dow_b) || ((dow_a =? dow_b) && (hour_a <? hour_b)).

(** The result of the query whose station literal has the value
    [literal]. *)
Definition hourly_capacity_query
  (trips : list cycle_hire) (stations : list cycle_stations)
  (start_date end_date : Z) (literal : string) : list HourlyCapacityRow :=
  map capacity_select
    (order_by capacity_before
       (group_by capacity_key
          (hourly_data trips stations start_date end_date literal))).

(** The rows of the frame the script calls [hourly_capacity_df] (line 421)
    for the station picked in the dropdown, when the name makes a literal. *)
Definition hourly_capacity_df_of
  (trips : list cycle_hire) (stations : list cycle_stations)
  (start_date end_date : Z) (selected_station : string)
  : option (list HourlyCapacityRow) :=
  match station_literal selected_station with
  | Some literal =>
      Some (hourly_capacity_query trips stations start_date end_date literal)
  | None => None
  end.

(** *** Station-specific insights (lines 423-555) *)

(** [lambda x: 'Weekend' if x in ['Saturday', 'Sunday'] else 'Weekday'] *)
Definition is_weekend (day_name : option string) : bool :=
  match day_name with
  | Some x => String.eqb x "Saturday" || String.eqb x "Sunday"
  | None => false
  end.

Definition Zsum (xs : list Z) : Z := fold_right Z.add 0 xs.

Record StationInsights : Type := mk_station_insights {
  avg_near_capacity : Z;
  avg_at_capacity : Z;
  issues_per_interval : Q;
  max_util : Q;
  peak_hour_weekday : HourlyCapacityRow;
  peak_hour_weekend : HourlyCapacityRow;
  at_capacity_per_interval : Q
}.

(** The block under [if not hourly_capacity_df.empty]; [intervals] is the
    value region 2 bound to [intervals_in_period]. *)
Definition station_insights (hourly_capacity_df : DataFrame HourlyCapacityRow)
  (intervals : Z) : Py (option StationInsights) :=
  if negb (df_empty hourly_capacity_df) then
    let frame := with_index (records hourly_capacity_df) in
    let weekday_data := filter (fun c => negb (is_weekend (hc_day_name (snd c)))) frame in
    let weekend_data := filter (fun c => is_weekend (hc_day_name (snd c))) frame in
    let near := Zsum (map hc_near_capacity_count (records hourly_capacity_df)) in
    let at_ := Zsum (map hc_at_capacity_count (records hourly_capacity_df)) in
    let total_capacity_issues := near + at_ in
    issues <- truediv (inject_Z total_capacity_issues) (inject_Z intervals) ;;
    let max_weekday_util :=
      match weekday_data with
      | [] => 150%Q
      | _ => MAXQ (map (fun c => hc_max_utilisation_pct (snd c)) weekday_data)
      end in
    let max_weekend_util :=
      match weekend_data with
      | [] => 150%Q
      | _ => MAXQ (map (fun c => hc_max_utilisation_pct (snd c)) weekend_data)
      end in
    let max_u := Qmax (Qmax max_weekday_util max_weekend_util) 150 in
    weekday_label <-
      idxmax (map (fun c => (fst c, hc_avg_utilisation_pct (snd c))) weekday_data) ;;
    weekday_peak <- loc weekday_data weekday_label ;;
    weekend_label <-
      idxmax (map (fun c => (fst c, hc_avg_utilisation_pct (snd c))) weekend_data) ;;
    weekend_peak <- loc weekend_data weekend_label ;;
    at_per_interval <- truediv (inject_Z at_) (inject_Z intervals) ;;
    Ret (Some (mk_station_insights near at_ issues max_u weekday_peak weekend_peak
                 at_per_interval))
  else Ret None.

(** ** Region 3: usage patterns and system imbalance *)

(** *** CTE [peak_times] (lines 568-582) *)

Record PeakTime : Type := mk_peak_time {
  pt_hour_of_day : Z;
  pt_day_type : string;
  pt_arrivals : Z
}.

(** [GROUP BY hour_of_day, day_type] *)
Definition peak_time_key (h : cycle_hire) : Z * string :=
  (EXTRACT_HOUR (h_end_date h),
   if (EXTRACT_DAYOFWEEK (h_end_date h) =? 1) || (EXTRACT_DAYOFWEEK (h_end_date h) =? 7)
   then "Weekend"%string else "Weekday"%string).

Definition peak_times (trips : list cycle_hire) (start_date end_date : Z) : list PeakTime :=
  map (fun g : Z * string * list cycle_hire =>
         let '(hour, day_type, rows) := g in mk_peak_time hour day_type (COUNT rows))
      (group_by peak_time_key
         (filter (fun h => BETWEEN (h_end_date h) (TIMESTAMP start_date) (TIMESTAMP end_date))
                 trips)).

(** *** CTE [station_flows] (lines 584-604) *)

Record StationFlow : Type := mk_flow {
  sf_station_id : Z;
  sf_station_name : string;
  sf_total_docks : Z;
  sf_outflows : Z;
  sf_inflows : Z;
  sf_net_flow : Z
}.

(** The [ON] condition of the join. *)
Definition flows_on (start_date end_date : Z) (s : cycle_stations) (h : cycle_hire) : bool :=
  ((s_id s =? h_start_station_id h) || (s_id s =? h_end_station_id h))
  && BETWEEN (h_start_date h) (TIMESTAMP start_date) (TIMESTAMP end_date).

(** [cycle_stations s LEFT JOIN cycle_hire h ON ...]: a station without a
    matching trip keeps one row, with [h] all [NULL]. *)
Definition flows_join (trips : list cycle_hire) (stations : list cycle_stations)
  (start_date end_date : Z) : list (cycle_stations * option cycle_hire) :=
  flat_map (fun s =>
    match filter (flows_on start_date end_date s) trips with
    | [] => [(s, None)]
    | ms => map (fun h => (s, Some h)) ms
    end) stations.

(** [WHERE s.docks_count > 0] *)
Definition flows_where (sh : cycle_stations * option cycle_hire) : bool :=
  0 <? s_docks_count (fst sh).

(** [GROUP BY s.id, s.name, s.docks_count] *)
Definition flows_key (sh : cycle_stations * option cycle_hire) : Z * string * Z :=
  (s_id (fst sh), s_name (fst sh), s_docks_count (fst sh)).

(** [CASE WHEN h.start_station_id = s.id THEN 1 END] is not [NULL] *)
Definition is_outflow (sh : cycle_stations * option cycle_hire) : bool :=
  match snd sh with
  | Some h => h_start_station_id h =? s_id (fst sh)
  | None => false
  end.

(** [CASE WHEN h.end_station_id = s.id THEN 1 END] is not [NULL] *)
Definition is_inflow (sh : cycle_stations * option cycle_hire) : bool :=
  match snd sh with
  | Some h => h_end_station_id h =? s_id (fst sh)
  | None => false
  end.

Definition flows_select (g : Z * string * Z * list (cycle_stations * option cycle_hire))
  : StationFlow :=
  let '(id, name, docks, rows) := g in
  mk_flow id name docks
    (COUNTIF is_outflow rows)
    (COUNTIF is_inflow rows)
    (COUNTIF is_inflow rows - COUNTIF is_outflow rows).

Definition station_flows (trips : list cycle_hire) (stations : list cycle_stations)
  (start_date end_date : Z) : list StationFlow :=
  map flows_select
    (group_by flows_key
       (filter flows_where (flows_join trips stations start_date end_date))).

(** *** [combined_analysis_query] (lines 606-640) *)

Inductive StationType : Type := Accumulator | Generator | Balanced.

Inductive DataType : Type := data_peak_times | data_station_flows.

(** A row of the [UNION ALL].  [id] is [CAST(... AS STRING)] of a number
    and is kept as that number. *)
Record CombinedRow : Type := mk_combined {
  data_type : DataType;
  c_id : Z;
  c_name : string;
  c_total_docks : option Z;
  c_outflows : option Z;
  c_inflows : option Z;
  c_net_flow : option Z;
  c_imbalance_pct : option Q;
  c_station_type : option StationType
}.

Definition peak_time_row (r : PeakTime) : CombinedRow :=
  mk_combined data_peak_times (pt_hour_of_day r) (pt_day_type r)
    None None (Some (pt_arrivals r)) None None None.

(** [CASE WHEN net_flow > 0 THEN 'Accumulator (Fills Up)'
         WHEN net_flow < 0 THEN 'Generator (Empties Out)'
         ELSE 'Balanced' END] *)
Definition station_type (net_flow : Z) : StationType :=
  if 0 <? net_flow then Accumulator
  else if net_flow <? 0 then Generator
  else Balanced.

(** [WHERE (outflows > 0 OR inflows > 0) AND ABS(net_flow) > 20] *)
Definition significant (r : StationFlow) : bool :=
  ((0 <? sf_outflows r) || (0 <? sf_inflows r)) && (20 <? Z.abs (sf_net_flow r)).

(** [(net_flow / NULLIF(total_docks, 0)) * 100]: [NULL] on a zero dock count. *)
Definition imbalance_pct_of (net_flow total_docks : Z) : option Q :=
  if total_docks =? 0 then None
  else Some (inject_Z net_flow / inject_Z total_docks * 100)%Q.

Definition station_flow_row (r : StationFlow) : CombinedRow :=
  mk_combined data_station_flows (sf_station_id r) (sf_station_name r)
    (Some (sf_total_docks r)) (Some (sf_outflows r)) (Some (sf_inflows r))
    (Some (sf_net_flow r))
    (imbalance_pct_of (sf_net_flow r) (sf_total_docks r))
    (Some (station_type (sf_net_flow r))).

Definition combined_analysis_query (trips : list cycle_hire) (stations : list cycle_stations)
  (start_date end_date : Z) : list CombinedRow :=
  map peak_time_row (peak_times trips start_date end_date)
  ++ map station_flow_row
       (filter significant (station_flows trips stations start_date end_date)).

(** *** System imbalance (lines 645-794) *)

Definition is_station_flows (r : CombinedRow) : bool :=
  match data_type r with data_station_flows => true | data_peak_times => false end.

Definition is_peak_times (r : CombinedRow) : bool :=
  match data_type r with data_peak_times => true | data_station_flows => false end.

(** A comparison of a [NULL] cell is false in pandas. *)
Definition net_flow_is (test : Z -> bool) (r : CombinedRow) : bool :=
  match c_net_flow r with Some n => test n | None => false end.

(** [series.abs().sum()]: missing cells are skipped. *)
Definition abs_sum (cells : list (option Z)) : Z :=
  Zsum (map (fun c => match c with Some n => Z.abs n | None => 0 end) cells).

Definition cell_sum (cells : list (option Z)) : Z :=
  Zsum (map (fun c => match c with Some n => n | None => 0 end) cells).

(** [station_flows_df['net_flow'].abs().sum() / 2] *)
Definition total_imbalance (station_flows_df : list CombinedRow) : Q :=
  (inject_Z (abs_sum (map c_net_flow station_flows_df)) / 2)%Q.

Record ImbalanceMetrics : Type := mk_metrics {
  m_total_imbalance : Q;
  m_total_trips : Z;
  m_imbalance_pct : Q;
  m_bikes_rebalanced_per_interval : Q;
  m_generators : list CombinedRow;
  m_accumulators : list CombinedRow
}.

(** The script binds [intervals_in_period] only inside the non-empty branch
    of region 2; reading it anywhere else is a [NameError]. *)
Definition read_intervals_in_period (binding : option Z) : Py Z :=
  match binding with
  | Some n => Ret n
  | None => Raise (NameError "name 'intervals_in_period' is not defined")
  end.

(** The block under [if not station_flows_df.empty] (lines 716-764).
    [sort_values] is written as the stable [order_by]; pandas sorts with a
    quicksort that is not stable, so rows that tie on [net_flow] may come in
    another order than here.  Nothing below relies on the order of ties. *)
Definition imbalance_metrics (station_flows_df : list CombinedRow)
  (binding : option Z) : Py ImbalanceMetrics :=
  let generators_df :=
    order_by (fun a b => net_flow_is (fun x => net_flow_is (fun y => x <? y) b) a)
             (filter (net_flow_is (fun n => n <? 0)) station_flows_df) in
  let accumulators_df :=
    order_by (fun a b => net_flow_is (fun x => net_flow_is (fun y => y <? x) b) a)
             (filter (net_flow_is (fun n => 0 <? n)) station_flows_df) in
  let total := total_imbalance station_flows_df in
  let total_trips := cell_sum (map c_outflows station_flows_df) in
  pct <- (if 0 <? total_trips
          then q <- truediv total (inject_Z total_trips) ;; Ret (q * 100)%Q
          else Ret 0%Q) ;;
  intervals <- read_intervals_in_period binding ;;
  per <- truediv total (inject_Z intervals) ;;
  Ret (mk_metrics total total_trips pct per generators_df accumulators_df).

Record SystemInsights : Type := mk_system {
  sys_metrics : option ImbalanceMetrics;
  generator_station : option string;
  accumulator_station : option string
}.

Definition station_label (default : string) (ranked : list CombinedRow) : Py string :=
  match ranked with
  | [] => Ret default
  | _ :: _ =>
      row0 <- iloc ranked 0 ;;
      Ret (c_name row0)
  end.

(** The block under [if not combined_data.empty]; [None] is the [else]
    branch.  Insights are written only when both halves have rows. *)
Definition system_insights (combined_data : DataFrame CombinedRow)
  (binding : option Z) : Py (option SystemInsights) :=
  if negb (df_empty combined_data) then
    let peak_times_df := filter is_peak_times (records combined_data) in
    let station_flows_df := filter is_station_flows (records combined_data) in
    metrics <- (match station_flows_df with
                | [] => Ret None
                | _ :: _ => m <- imbalance_metrics station_flows_df binding ;; Ret (Some m)
                end) ;;
    match metrics, peak_times_df with
    | Some m, _ :: _ =>
        g <- station_label "generator stations" (m_generators m) ;;
        a <- station_label "accumulator stations" (m_accumulators m) ;;
        Ret (Some (mk_system metrics (Some g) (Some a)))
    | _, _ => Ret (Some (mk_system metrics None None))
    end
  else Ret None.

(** Column labels of the three result sets. *)
Definition full_stations_columns : list string :=
  ["station_name"; "total_docks"; "instances_near_capacity"; "instances_at_capacity";
   "avg_hourly_arrivals"; "avg_utilisation_pct"; "max_hourly_arrivals";
   "max_utilisation_pct"; "peak_hour"; "peak_day_of_week"; "peak_hour_occurrences";
   "peak_hour_avg_util"]%string.

Definition hourly_capacity_columns : list string :=
  ["hour"; "day_name"; "avg_arrivals"; "avg_utilisation_pct"; "max_utilisation_pct";
   "near_capacity_count"; "at_capacity_count"]%string.

Definition combined_columns : list string :=
  ["data_type"; "id"; "name"; "total_docks"; "outflows"; "inflows"; "net_flow";
   "imbalance_pct"; "station_type"]%string.

(** What region 2 leaves bound for the rest of the script run. *)
Definition intervals_binding (full_stations_df : DataFrame FullStationsRow)
  (start_date end_date : Z) (iv : Interval) : option Z :=
  if negb (df_empty full_stations_df)
  then Some (intervals_in_period start_date end_date iv)
  else None.

(** ** More of the page *)

(** [get_day_name] (lines 272-282): [days.get(day_num, "Unknown")] *)
Definition get_day_name (day_num : Z) : string :=
  match day_num with
  | 1 => "Sunday"
  | 2 => "Monday"
  | 3 => "Tuesday"
  | 4 => "Wednesday"
  | 5 => "Thursday"
  | 6 => "Friday"
  | 7 => "Saturday"
  | _ => "Unknown"
  end%string.

(** The column [peak_day_time] (lines 285-290): the day name and the hour
    range that the format string prints, or ["Unknown"] when one of the two
    peak cells is null. *)
Inductive DayTimeLabel : Type :=
| DayTime (day : string) (from_hour to_hour : Z)
| UnknownDayTime.

Definition peak_day_time (row : FullStationsRow) : DayTimeLabel :=
  match fs_peak_hour row, fs_peak_day_of_week row with
  | Some hour, Some day => DayTime (get_day_name day) hour (hour + 1)
  | _, _ => UnknownDayTime
  end.

(** A comparison with a missing cell is false. *)
Definition cell_lt (x y : option Z) : bool :=
  match x, y with
  | Some a, Some b => a <? b
  | _, _ => false
  end.

(** [peak_times_df[peak_times_df['name'] == day_type].sort_values('hour')]
    (lines 658-662); [hour] is [id] read as an integer. *)
Definition day_type_data (day_type : string) (peak_times_df : list CombinedRow)
  : list CombinedRow :=
  order_by (fun a b => c_id a <? c_id b)
           (filter (fun r => String.eqb (c_name r) day_type) peak_times_df).

(** [frame.nlargest(n, 'inflows')]: the first [n] rows by descending
    [inflows], rows with equal values in their order in the frame. *)
Definition nlargest (n : nat) (frame : list CombinedRow) : list CombinedRow :=
  firstn n (order_by (fun a b => cell_lt (c_inflows b) (c_inflows a)) frame).

(** [top_weekday_hours] and [top_weekend_hours] (lines 665-666) *)
Definition top_hours (day_type : string) (peak_times_df : list CombinedRow)
  : list CombinedRow :=
  nlargest 3 (day_type_data day_type peak_times_df).

(** Station [id] is in the station table with a positive dock count. *)
Definition has_docked_station (stations : list cycle_stations) (id : Z) : bool :=
  existsb (fun s => (id =? s_id s) && (0 <? s_docks_count s)) stations.

(** The frame the script calls [peak_times_df]. *)
Definition peak_times_df_of (trips : list cycle_hire) (stations : list cycle_stations)
  (start_date end_date : Z) : list CombinedRow :=
  filter is_peak_times (combined_analysis_query trips stations start_date end_date).

(** Row [a] is not placed after row [b] by the ranker's [ORDER BY]. *)
Definition ranked_no_later (a b : FullStationsRow) : Prop :=
  fs_instances_at_capacity b < fs_instances_at_capacity a
  \/ (fs_instances_at_capacity b = fs_instances_at_capacity a
      /\ fs_instances_near_capacity b <= fs_instances_near_capacity a).

(** The seven day names. *)
Definition day_names : list string :=
  ["Sunday"; "Monday"; "Tuesday"; "Wednesday"; "Thursday"; "Friday"; "Saturday"]%string.

(** ** Reference quantities, stated on the raw tables *)

(** A key equality test that decides equality. *)
Class SqlKeyOk (K : Type) `{SqlKey K} : Prop :=
  key_eqb_eq : forall x y : K, key_eqb x y = true <-> x = y.
Arguments SqlKeyOk K {_}.

(** Trips of the window of the utilisation calculator: those that end
    between the two midnights. *)
Definition ends_in_window (start_date end_date : Z) (h : cycle_hire) : bool :=
  BETWEEN (h_end_date h) (TIMESTAMP start_date) (TIMESTAMP end_date).

(** Trips of the window of the flow analyzer: those that start between the
    two midnights. *)
Definition starts_in_window (start_date end_date : Z) (h : cycle_hire) : bool :=
  BETWEEN (h_start_date h) (TIMESTAMP start_date) (TIMESTAMP end_date).

(** The window as the specification words it: [start_date] and [end_date]
    are inclusive bounds, so an instant is in the window when its day is one
    of the days from [start_date] to [end_date]. *)
Definition inclusive_window (start_date end_date ts : Z) : bool :=
  (start_date <=? EXTRACT_DATE ts) && (EXTRACT_DATE ts <=? end_date).

(** Number of window trips that end at station [id] on day [date] in hour
    [hour]. *)
Definition arrivals_at (trips : list cycle_hire) (start_date end_date : Z)
  (id date hour : Z) : Z :=
  COUNT (filter (fun h =>
           ends_in_window start_date end_date h
           && (h_end_station_id h =? id)
           && (EXTRACT_DATE (h_end_date h) =? date)
           && (EXTRACT_HOUR (h_end_date h) =? hour)) trips).

(** Number of window trips that start at station [id]. *)
Definition trips_from (trips : list cycle_hire) (start_date end_date : Z) (id : Z) : Z :=
  COUNT (filter (fun h => starts_in_window start_date end_date h
                          && (h_start_station_id h =? id)) trips).

(** Number of window trips that end at station [id]. *)
Definition trips_to (trips : list cycle_hire) (start_date end_date : Z) (id : Z) : Z :=
  COUNT (filter (fun h => starts_in_window start_date end_date h
                          && (h_end_station_id h =? id)) trips).

(** The row of [station_flows] that station [s] gets. *)
Definition flow_of (trips : list cycle_hire) (start_date end_date : Z)
  (s : cycle_stations) : StationFlow :=
  mk_flow (s_id s) (s_name s) (s_docks_count s)
    (trips_from trips start_date end_date (s_id s))
    (trips_to trips start_date end_date (s_id s))
    (trips_to trips start_date end_date (s_id s)
     - trips_from trips start_date end_date (s_id s)).

(** What identifies a slot: station, date, hour, day of week. *)
Definition slot_group (r : HourlyStationSlot) : Z * Z * Z * Z :=
  (hss_end_station_id r, hss_date r, hss_hour r, hss_day_of_week r).

(** The slots of station [name] in hour [hour] of day of week [dow] that
    reach 95%. *)
Definition peak_slots (hss : list HourlyStationSlot) (name : string) (hour dow : Z)
  : list HourlyStationSlot :=
  filter (fun r => peak_where r && key_eqb (peak_key r) (name, hour, dow)) hss.

(** Station [id] is in the station table. *)
Definition has_station (stations : list cycle_stations) (id : Z) : bool :=
  existsb (fun s => id =? s_id s) stations.

(** A closed system: every trip starts and ends at a station of the table,
    and every station of the table has docks. *)
Definition closed_system (trips : list cycle_hire) (stations : list cycle_stations) : Prop :=
  (forall h, In h trips ->
     In (h_start_station_id h) (map s_id stations)
     /\ In (h_end_station_id h) (map s_id stations))
  /\ (forall s, In s stations -> 0 < s_docks_count s).



(** The frame the script calls [station_flows_df]. *)
Definition station_flows_df_of (trips : list cycle_hire) (stations : list cycle_stations)
  (start_date end_date : Z) : list CombinedRow :=
  filter is_station_flows (combined_analysis_query trips stations start_date end_date).

(** ** Concrete tables used below *)

(** Days of the dataset's span, counted from the epoch: 2016-01-01 was a
    Friday, 2016-01-02 a Saturday, 2016-01-04 a Monday. *)
Definition day_2016_01_01 : Z := 16801.
Definition day_2016_01_02 : Z := 16802.
Definition day_2016_01_04 : Z := 16804.
Definition day_2016_01_05 : Z := 16805.
Definition day_2016_03_11 : Z := 16871.

(** [n] trips from station [from] to station [to], numbered from
    [first_id], that leave in the hour before [hour] of [day] and arrive
    one minute into that hour. *)
Definition arrivals_on (day hour : Z) (first_id : nat) (n : nat) (from to : Z)
  : list cycle_hire :=
  map (fun i => mk_hire (Z.of_nat i) from to
                        (day * usec_per_day + (hour - 1) * usec_per_hour)
                        (day * usec_per_day + hour * usec_per_hour + 60000000))
      (seq first_id n).

(** The scenario of two stations: S1 with 20 docks receives 20 arrivals in
    hour 8 of 2016-01-01, S2 with 10 docks receives 7. *)
Definition capacity_stations : list cycle_stations :=
  [mk_station 1 "S1" 20; mk_station 2 "S2" 10].

Definition capacity_trips : list cycle_hire :=
  arrivals_on day_2016_01_01 8 1 20 2 1 ++ arrivals_on day_2016_01_01 8 21 7 1 2.

Definition capacity_slots : list HourlyStationSlot :=
  match hourly_station_status capacity_trips capacity_stations
          day_2016_01_01 day_2016_01_02 with
  | Some slots => slots
  | None => []
  end.

(** The same with a third station that has no dock and receives one trip. *)
Definition dockless_stations : list cycle_stations :=
  capacity_stations ++ [mk_station 3 "S3" 0].

Definition dockless_trips : list cycle_hire :=
  capacity_trips ++ arrivals_on day_2016_01_01 8 28 1 1 3.

(** The scenario of three trips: S1 to S2 twice, S2 to S1 once. *)
Definition flow_trips : list cycle_hire :=
  arrivals_on day_2016_01_01 8 1 2 1 2 ++ arrivals_on day_2016_01_01 9 3 1 2 1.

(** The same with a trip that leaves S2 and comes back to it. *)
Definition loop_trips : list cycle_hire :=
  flow_trips ++ arrivals_on day_2016_01_01 10 4 1 2 2.

(** Thirty trips leave S1 on 2016-01-01, twenty-one of them for S2 and nine
    for S3. *)
Definition imbalance_trips : list cycle_hire :=
  arrivals_on day_2016_01_01 8 1 21 1 2 ++ arrivals_on day_2016_01_01 8 22 9 1 3.

Definition imbalance_stations : list cycle_stations :=
  [mk_station 1 "S1" 20; mk_station 2 "S2" 10; mk_station 3 "S3" 5].




(** The same window with a station that has no dock.  S2 receives eight
    bikes from S1 in hour 8 of the Friday and one in hour 8 of the Saturday;
    forty bikes leave the dockless S3 for S1 on the Friday, ten in each of
    the hours 9 to 12; thirty bikes leave S2 for S1 at 07:00 of the Monday,
    the last day of the window. *)
Definition departures_trips : list cycle_hire :=
  arrivals_on day_2016_01_01 8 1 8 1 2 ++ arrivals_on day_2016_01_02 8 9 1 1 2
  ++ arrivals_on day_2016_01_01 9 10 10 3 1 ++ arrivals_on day_2016_01_01 10 20 10 3 1
  ++ arrivals_on day_2016_01_01 11 30 10 3 1 ++ arrivals_on day_2016_01_01 12 40 10 3 1
  ++ arrivals_on day_2016_01_04 8 50 30 2 1.

Definition departures_ranked : list FullStationsRow :=
  match full_stations_query departures_trips dockless_stations
          day_2016_01_01 day_2016_01_04 with
  | Some rows => rows
  | None => []
  end.

(** Twenty arrivals at S1 in hour 8 of Saturday 2016-01-02; the window runs
    from that Saturday to the Monday after it. *)
Definition weekend_trips : list cycle_hire := arrivals_on day_2016_01_02 8 1 20 2 1.

(** The same arrivals on Monday 2016-01-04. *)
Definition weekday_trips : list cycle_hire := arrivals_on day_2016_01_04 8 1 20 2 1.

(** S1 has a single dock and receives one bike in hour 8 and one in hour 9
    of 2016-01-01. *)
Definition tie_stations : list cycle_stations :=
  [mk_station 1 "S1" 1; mk_station 2 "S2" 10].

Definition tie_trips : list cycle_hire :=
  arrivals_on day_2016_01_01 8 1 1 2 1 ++ arrivals_on day_2016_01_01 9 2 1 2 1.

Definition tie_slots : list HourlyStationSlot :=
  match hourly_station_status tie_trips tie_stations
          day_2016_01_01 day_2016_01_02 with
  | Some slots => slots
  | None => []
  end.

(** The same trip table with its rows stored in the opposite order. *)
Definition tie_slots_reordered : list HourlyStationSlot :=
  match hourly_station_status (rev tie_trips) tie_stations
          day_2016_01_01 day_2016_01_02 with
  | Some slots => slots
  | None => []
  end.

(** * Properties *)

(** ** Keys *)

#[export] Instance SqlKeyOk_Z : SqlKeyOk Z.
Proof. intros x y. apply Z.eqb_eq. Qed.

#[export] Instance SqlKeyOk_string : SqlKeyOk string.
Proof. intros x y. apply String.eqb_eq. Qed.

#[export] Instance SqlKeyOk_prod {A B : Type} `{SqlKeyOk A} `{SqlKeyOk B} : SqlKeyOk (A * B).
Proof.
  intros [a b] [a' b']. unfold key_eqb, SqlKey_prod. cbn [fst snd].
  rewrite andb_true_iff, !key_eqb_eq. split.
  - intros [-> ->]. reflexivity.
  - intros E. inversion E. auto.
Qed.

#[export] Instance SqlKeyOk_option {A : Type} `{SqlKeyOk A} : SqlKeyOk (option A).
Proof.
  intros [a|] [b|]; unfold key_eqb, SqlKey_option; try (split; congruence).
  rewrite key_eqb_eq. split; congruence.
Qed.

#[export] Instance SqlKeyOk_HourlyKey : SqlKeyOk HourlyKey.
Proof. unfold HourlyKey. exact _. Qed.

Section GroupByFacts.
Variables R K : Type.
Context `{SqlKeyOk K}.
Variable key : R -> K.

Lemma key_eqb_refl (k : K) : key_eqb k k = true.
Proof. apply key_eqb_eq. reflexivity. Qed.

Lemma key_eqb_neq (k k' : K) : k <> k' -> key_eqb k k' = false.
Proof.
  intros N. destruct (key_eqb k k') eqn:E; [|reflexivity].
  apply key_eqb_eq in E. contradiction.
Qed.

Lemma distinct_In (ks : list K) (k : K) : In k (distinct ks) <-> In k ks.
Proof.
  induction ks as [|k0 ks IH]; cbn [distinct]; [tauto|].
  cbn [In]. rewrite filter_In, IH, negb_true_iff. split.
  - intros [E | [I _]]; auto.
  - intros [E | I]; [auto|].
    destruct (key_eqb k0 k) eqn:E; [|auto].
    left. apply key_eqb_eq. exact E.
Qed.

Lemma distinct_NoDup (ks : list K) : NoDup (distinct ks).
Proof.
  induction ks as [|k0 ks IH]; cbn [distinct]; constructor.
  - rewrite filter_In, negb_true_iff, key_eqb_refl. intros [_ E]. discriminate.
  - apply NoDup_filter, IH.
Qed.

Lemma distinct_id (ks : list K) : NoDup ks -> distinct ks = ks.
Proof.
  induction 1 as [|k ks N ND IH]; cbn [distinct]; [reflexivity|].
  rewrite IH. f_equal.
  rewrite <- (filter_ext_in (fun _ => true)).
  - clear. induction ks; cbn; congruence.
  - intros k' I. symmetry. apply negb_true_iff, key_eqb_neq.
    intros ->. contradiction.
Qed.

Lemma group_by_In (rows : list R) (k : K) (g : list R) :
  In (k, g) (group_by key rows) <->
  In k (map key rows) /\ g = filter (fun r => key_eqb (key r) k) rows.
Proof.
  unfold group_by. rewrite in_map_iff. split.
  - intros (k' & E & I). inversion E; subst.
    split; [exact (proj1 (distinct_In _ _) I) | reflexivity].
  - intros [I ->]. exists k. split; [reflexivity|].
    apply distinct_In, I.
Qed.

Lemma group_by_keys (rows : list R) :
  map fst (group_by key rows) = distinct (map key rows).
Proof.
  unfold group_by. rewrite map_map. cbn [fst]. apply map_id.
Qed.

Lemma group_by_keys_NoDup (rows : list R) : NoDup (map fst (group_by key rows)).
Proof. rewrite group_by_keys. apply distinct_NoDup. Qed.

Lemma group_by_NoDup (rows : list R) : NoDup (group_by key rows).
Proof.
  apply (NoDup_map_inv fst), group_by_keys_NoDup.
Qed.

(** A group is never empty and holds rows of its key only. *)
Lemma group_by_rows (rows : list R) (k : K) (g : list R) :
  In (k, g) (group_by key rows) ->
  g <> [] /\ forall r, In r g <-> In r rows /\ key r = k.
Proof.
  intros I. apply group_by_In in I. destruct I as [I ->]. split.
  - apply in_map_iff in I. destruct I as (r & E & I).
    intros F. assert (In r (filter (fun r => key_eqb (key r) k) rows)) as X.
    { apply filter_In. split; [exact I|]. apply key_eqb_eq, E. }
    rewrite F in X. destruct X.
  - intros r. rewrite filter_In, key_eqb_eq. reflexivity.
Qed.

Lemma filter_true (A : Type) (f : A -> bool) (l : list A) :
  (forall x, In x l -> f x = true) -> filter f l = l.
Proof.
  induction l as [|x l IH]; intros Hf; [reflexivity|].
  cbn [filter]. rewrite (Hf x (or_introl eq_refl)). f_equal.
  apply IH. intros y I. apply Hf. right. exact I.
Qed.

Lemma filter_false (A : Type) (f : A -> bool) (l : list A) :
  (forall x, In x l -> f x = false) -> filter f l = [].
Proof.
  induction l as [|x l IH]; intros Hf; [reflexivity|].
  cbn [filter]. rewrite (Hf x (or_introl eq_refl)).
  apply IH. intros y I. apply Hf. right. exact I.
Qed.

Lemma filter_idem (A : Type) (f : A -> bool) (l : list A) :
  filter f (filter f l) = filter f l.
Proof.
  apply filter_true. intros x I. apply filter_In in I. apply I.
Qed.

Section Blocks.
Variable A : Type.
Variable block : A -> list R.
Variable block_key : A -> K.

Let keyed := keyed_by key block block_key.

Lemma keyed_tail (a : A) (l : list A) : keyed (a :: l) -> keyed l.
Proof. intros Hk b I. apply Hk. right. exact I. Qed.

Lemma filter_other_blocks (l : list A) (k : K) :
  keyed l -> ~ In k (map block_key l) ->
  filter (fun r => key_eqb (key r) k) (flat_map block l) = [].
Proof.
  intros Hk N. apply filter_false. intros r I.
  apply in_flat_map in I. destruct I as (a & Ia & Ir).
  apply key_eqb_neq. rewrite (Hk a Ia r Ir).
  intros <-. apply N, in_map, Ia.
Qed.

Lemma filter_own_block (l : list A) (a : A) :
  keyed l -> NoDup (map block_key l) -> In a l ->
  filter (fun r => key_eqb (key r) (block_key a)) (flat_map block l) = block a.
Proof.
  induction l as [|b l IH]; intros Hk ND I; [destruct I|].
  cbn [map] in ND. inversion ND as [|? ? N ND']; subst.
  cbn [flat_map]. rewrite filter_app. destruct I as [-> | I].
  - rewrite filter_other_blocks by (eauto using keyed_tail).
    rewrite app_nil_r. apply filter_true. intros r Ir.
    apply key_eqb_eq. apply (Hk a (or_introl eq_refl) r Ir).
  - rewrite IH by (eauto using keyed_tail).
    rewrite filter_false; [reflexivity|]. intros r Ir.
    apply key_eqb_neq. rewrite (Hk b (or_introl eq_refl) r Ir).
    intros E. apply N. rewrite E. apply in_map, I.
Qed.

Lemma distinct_skip_block (k : K) (rs : list R) (ks : list K) :
  (forall r, In r rs -> key r = k) ->
  filter (fun k' => negb (key_eqb k k')) (distinct (map key rs ++ ks))
  = filter (fun k' => negb (key_eqb k k')) (distinct ks).
Proof.
  induction rs as [|r rs IH]; intros Hk; [reflexivity|].
  cbn [map app distinct filter].
  rewrite (Hk r (or_introl eq_refl)), key_eqb_refl. cbn [negb].
  rewrite filter_idem. apply IH. intros r' I. apply Hk. right. exact I.
Qed.

Lemma distinct_blocks (l : list A) :
  keyed l -> NoDup (map block_key l) ->
  (forall a, In a l -> block a <> []) ->
  distinct (map key (flat_map block l)) = map block_key l.
Proof.
  induction l as [|a l IH]; intros Hk ND Hne; [reflexivity|].
  cbn [map] in ND. inversion ND as [|? ? N ND']; subst.
  cbn [flat_map map]. rewrite map_app.
  pose proof (Hk a (or_introl eq_refl)) as Ha.
  pose proof (Hne a (or_introl eq_refl)) as Hn.
  destruct (block a) as [|r rs]; [contradiction|].
  cbn [map app distinct]. rewrite (Ha r (or_introl eq_refl)).
  rewrite distinct_skip_block by (intros r' I; apply Ha; right; exact I).
  rewrite IH; [ | eauto using keyed_tail | assumption
              | intros b I; apply Hne; right; exact I ].
  f_equal. apply filter_true. intros k I.
  apply negb_true_iff, key_eqb_neq. intros <-. contradiction.
Qed.

(** Rows that arrive in blocks, one block per key: the groups are the
    blocks, in their order. *)
Lemma group_by_blocks (l : list A) :
  keyed l -> NoDup (map block_key l) ->
  (forall a, In a l -> block a <> []) ->
  group_by key (flat_map block l) = map (fun a => (block_key a, block a)) l.
Proof.
  intros Hk ND Hne. unfold group_by.
  rewrite distinct_blocks by assumption. rewrite map_map.
  apply map_ext_in. intros a I.
  rewrite filter_own_block by assumption. reflexivity.
Qed.
End Blocks.
End GroupByFacts.

(** ** Derived-insight arithmetic *)

Lemma interval_days_pos (iv : Interval) : 0 < interval_days iv.
Proof. destruct iv; reflexivity. Qed.

Lemma truediv_nonzero (a : Q) (n : Z) :
  n <> 0 -> truediv a (inject_Z n) = Ret (a / inject_Z n)%Q.
Proof.
  intros N. unfold truediv.
  destruct (Qeq_bool (inject_Z n) 0) eqn:E; [|reflexivity].
  apply Qeq_bool_iff in E. unfold Qeq, inject_Z in E. cbn in E. lia.
Qed.

Lemma intervals_in_period_pos (start_date end_date : Z) (iv : Interval) :
  1 <= intervals_in_period start_date end_date iv.
Proof. unfold intervals_in_period. lia. Qed.

(** C7. For a window with [end_date >= start_date] and each of the five
    interval lengths, [intervals_in_period] (and the sidebar's
    [num_intervals]) is [max(1, total_days // interval_days)] with floor
    division, is at least 1, is exactly 1 on a zero-day window, and every
    per-interval rate divides by it without a zero denominator. *)
Theorem intervals_in_period_floor_guard :
  forall (start_date end_date : Z) (iv : Interval),
    start_date <= end_date ->
    In (interval_days iv) [1; 7; 30; 90; 365]
    /\ intervals_in_period start_date end_date iv
       = Z.max 1 ((end_date - start_date) / interval_days iv)
    /\ num_intervals start_date end_date iv
       = intervals_in_period start_date end_date iv
    /\ 0 <= (end_date - start_date) / interval_days iv
    /\ 1 <= intervals_in_period start_date end_date iv
    /\ intervals_in_period start_date start_date iv = 1
    /\ forall raw_total : Q,
         per_interval raw_total start_date end_date iv
         = Ret (raw_total / inject_Z (intervals_in_period start_date end_date iv))%Q.
Proof.
  intros sd ed iv Hle. repeat split.
  - destruct iv; cbn; tauto.
  - apply Z.div_pos; [lia | apply interval_days_pos].
  - apply intervals_in_period_pos.
  - unfold intervals_in_period, days_in_period.
    rewrite Z.sub_diag, Z.div_0_l; [reflexivity|].
    pose proof (interval_days_pos iv). lia.
  - intros raw. unfold per_interval. apply truediv_nonzero.
    pose proof (intervals_in_period_pos sd ed iv). lia.
Qed.

Lemma intervals_in_period_floor_guard_witness :
  (day_2016_01_01 <= day_2016_03_11)
  /\ intervals_in_period day_2016_01_01 day_2016_03_11 Weekly = 10
  /\ per_interval 50 day_2016_01_01 day_2016_03_11 Weekly = Ret (50 / inject_Z 10)%Q.
Proof.
  assert (day_2016_01_01 <= day_2016_03_11) as Hle by (unfold day_2016_01_01, day_2016_03_11; lia).
  destruct (@intervals_in_period_floor_guard day_2016_01_01 day_2016_03_11 Weekly Hle)
    as (_ & _ & _ & _ & _ & _ & Hrate).
  split; [exact Hle|]. split; [reflexivity|]. exact (Hrate 50%Q).
Defined.

(** ** The query boundary *)

Section RunQueryFacts.
Variables Client QueryJob Row PyException : Type.
Variable str_of : PyException -> string.
Variable get_bigquery_client : Outcome PyException Client.
Variable client_query : Client -> string -> Outcome PyException QueryJob.
Variable to_dataframe : QueryJob -> Outcome PyException (DataFrame Row).

Let run := run_query str_of get_bigquery_client client_query to_dataframe.
Let body := try_body get_bigquery_client client_query to_dataframe.

Lemma run_query_raised (query : string) (e : PyException) :
  body query = Raised e ->
  run query = (pd_DataFrame, [st_error ("Error executing query: " ++ str_of e)]).
Proof. unfold run, body. intros E. unfold run_query. rewrite E. reflexivity. Qed.

Lemma run_query_returned (query : string) (df : DataFrame Row) :
  body query = Returned df -> run query = (df, []).
Proof. unfold run, body. intros E. unfold run_query. rewrite E. reflexivity. Qed.

(** Where the three calls of the [try] body can fail. *)
Lemma try_body_raised (query : string) (e : PyException) :
  body query = Raised e <->
  get_bigquery_client = Raised e
  \/ (exists client, get_bigquery_client = Returned client
        /\ client_query client query = Raised e)
  \/ (exists client job, get_bigquery_client = Returned client
        /\ client_query client query = Returned job
        /\ to_dataframe job = Raised e).
Proof.
  unfold body, try_body, outcome_bind.
  destruct get_bigquery_client as [client|e0].
  - destruct (client_query client query) as [job|e1] eqn:Eq.
    + split.
      * intros E. right. right. exists client, job. auto.
      * intros [F | [(c & Ec & F) | (c & j & Ec & Ej & F)]].
        -- discriminate.
        -- inversion Ec; subst. congruence.
        -- inversion Ec; subst. rewrite Eq in Ej. inversion Ej; subst. exact F.
    + split.
      * intros E. right. left. exists client. split; [reflexivity|].
        inversion E; subst. exact Eq.
      * intros [F | [(c & Ec & F) | (c & j & Ec & Ej & F)]].
        -- discriminate.
        -- inversion Ec; subst. congruence.
        -- inversion Ec; subst. congruence.
  - split.
    + intros E. left. inversion E; subst. reflexivity.
    + intros [F | [(c & Ec & F) | (c & j & Ec & Ej & F)]];
        [inversion F; subst; reflexivity | discriminate | discriminate].
Qed.
End RunQueryFacts.

(** C10. Whenever the execution of a query raises, in any of the three
    calls under the [try], [run_query] returns the empty frame
    [pd.DataFrame()] and reports the error on the page instead of raising;
    the frame is [empty] exactly like the frame of a query that returned no
    row, so the caller's test [not df.empty] cannot tell the two apart. *)
Theorem run_query_failure_is_empty :
  forall (Client QueryJob Row PyException : Type)
         (str_of : PyException -> string)
         (get_bigquery_client : Outcome PyException Client)
         (client_query : Client -> string -> Outcome PyException QueryJob)
         (to_dataframe : QueryJob -> Outcome PyException (DataFrame Row))
         (query : string) (e : PyException),
    try_body get_bigquery_client client_query to_dataframe query = Raised e ->
    run_query str_of get_bigquery_client client_query to_dataframe query
    = (pd_DataFrame, [st_error ("Error executing query: " ++ str_of e)])
    /\ df_empty (fst (run_query str_of get_bigquery_client client_query
                        to_dataframe query)) = true
    /\ forall (get_bigquery_client' : Outcome PyException Client)
              (client_query' : Client -> string -> Outcome PyException QueryJob)
              (to_dataframe' : QueryJob -> Outcome PyException (DataFrame Row))
              (query' : string) (cols : list string),
         try_body get_bigquery_client' client_query' to_dataframe' query'
         = Returned (mkDataFrame cols []) ->
         caller_sees_data str_of get_bigquery_client' client_query' to_dataframe' query'
         = caller_sees_data str_of get_bigquery_client client_query to_dataframe query.
Proof.
  intros Client QueryJob Row PyException str_of gc cq td query e E.
  pose proof (run_query_raised str_of gc cq td query E) as R.
  split; [exact R|]. split.
  - rewrite R. reflexivity.
  - intros gc' cq' td' query' cols E'.
    unfold caller_sees_data.
    rewrite R, (run_query_returned str_of gc' cq' td' query' E').
    cbn [fst]. unfold df_empty. cbn. destruct cols; reflexivity.
Qed.

Lemma run_query_failure_is_empty_witness :
  try_body (Returned tt) (fun (_ : unit) (_ : string) => Raised "quota exceeded"%string)
           (fun _ : unit => Returned (mkDataFrame (Row := Z) [] [])) "SELECT 1"
  = Raised "quota exceeded"%string
  /\ run_query (fun e : string => e) (Returned tt)
       (fun (_ : unit) (_ : string) => Raised "quota exceeded"%string)
       (fun _ : unit => Returned (mkDataFrame (Row := Z) [] [])) "SELECT 1"
     = (pd_DataFrame, [st_error "Error executing query: quota exceeded"]).
Proof.
  split; [reflexivity|].
  apply (@run_query_failure_is_empty unit unit Z string (fun e : string => e) (Returned tt)
           (fun (_ : unit) (_ : string) => Raised "quota exceeded"%string)
           (fun _ : unit => Returned (mkDataFrame (Row := Z) [] []))
           "SELECT 1"%string "quota exceeded"%string eq_refl).
Defined.

(** ** Tables with a unique key *)

Lemma NoDup_map_injective_on (A B : Type) (f : A -> B) (l : list A) (x y : A) :
  NoDup (map f l) -> In x l -> In y l -> f x = f y -> x = y.
Proof.
  induction l as [|a l IH]; intros ND Ix Iy E; [destruct Ix|].
  cbn [map] in ND. inversion ND as [|? ? N ND']; subst.
  destruct Ix as [-> | Ix], Iy as [-> | Iy].
  - reflexivity.
  - exfalso. apply N. rewrite E. apply in_map, Iy.
  - exfalso. apply N. rewrite <- E. apply in_map, Ix.
  - apply IH; assumption.
Qed.

(** ** The window of the queries *)

(** [BETWEEN TIMESTAMP(start) AND TIMESTAMP(end)] holds of the instants of
    the days from [start_date] to the day before [end_date], and of the
    first instant of [end_date]. *)
Lemma between_midnights (start_date end_date ts : Z) :
  BETWEEN ts (TIMESTAMP start_date) (TIMESTAMP end_date) = true <->
  start_date <= EXTRACT_DATE ts
  /\ (EXTRACT_DATE ts < end_date \/ ts = end_date * usec_per_day).
Proof.
  unfold BETWEEN, TIMESTAMP, EXTRACT_DATE. rewrite andb_true_iff, !Z.leb_le.
  assert (0 < usec_per_day) as P by reflexivity.
  pose proof (Z.div_mod ts usec_per_day ltac:(lia)) as DM.
  pose proof (Z.mod_pos_bound ts usec_per_day P) as MB.
  set (q := ts / usec_per_day) in *. set (r := ts mod usec_per_day) in *.
  split.
  - intros [Lo Hi]. split.
    + apply Z.div_le_lower_bound; [exact P | lia].
    + destruct (Z.eq_dec ts (end_date * usec_per_day)) as [E|N]; [right; exact E|left].
      apply Z.div_lt_upper_bound; [exact P | lia].
  - intros [Lo [Hi|Hi]].
    + assert (start_date * usec_per_day <= q * usec_per_day) as L1
        by (apply Z.mul_le_mono_nonneg_r; lia).
      assert ((q + 1) * usec_per_day <= end_date * usec_per_day) as L2
        by (apply Z.mul_le_mono_nonneg_r; lia).
      lia.
    + assert (q = end_date) as Eq.
      { unfold q. rewrite Hi. apply Z.div_mul. lia. }
      assert (start_date * usec_per_day <= end_date * usec_per_day) as L1
        by (apply Z.mul_le_mono_nonneg_r; lia).
      lia.
Qed.

(** ** The flow analyzer *)

Lemma filter_filter_andb (A : Type) (p q : A -> bool) (l : list A) :
  filter p (filter q l) = filter (fun x => q x && p x) l.
Proof.
  induction l as [|x l IH]; [reflexivity|].
  cbn [filter]. destruct (q x); cbn [andb filter].
  - destruct (p x); congruence.
  - exact IH.
Qed.

Lemma NoDup_map_filter (A B : Type) (keep : A -> bool) (f : A -> B) (rows : list A) :
  NoDup (map f rows) -> NoDup (map f (filter keep rows)).
Proof.
  induction rows as [|x l IH]; cbn [map filter]; intros ND; [constructor|].
  inversion ND as [|? ? N ND']; subst. destruct (keep x); [|auto].
  cbn [map]. constructor; [|auto].
  intros I. apply N. apply in_map_iff in I. destruct I as (y & E & I).
  apply filter_In in I. rewrite <- E. apply in_map, I.
Qed.

Lemma COUNT_cons (A : Type) (x : A) (l : list A) : COUNT (x :: l) = 1 + COUNT l.
Proof. unfold COUNT. cbn [List.length]. lia. Qed.

Lemma COUNT_nonneg (A : Type) (l : list A) : 0 <= COUNT l.
Proof. unfold COUNT. lia. Qed.

Lemma COUNT_map (A B : Type) (f : A -> B) (l : list A) : COUNT (map f l) = COUNT l.
Proof. unfold COUNT. rewrite length_map. reflexivity. Qed.

Section FlowFacts.
Variable trips : list cycle_hire.
Variables start_date end_date : Z.

(** The rows the join produces for one station. *)
Let flows_block (s : cycle_stations) : list (cycle_stations * option cycle_hire) :=
  match filter (flows_on start_date end_date s) trips with
  | [] => [(s, None)]
  | ms => map (fun h => (s, Some h)) ms
  end.

Let station_key (s : cycle_stations) : Z * string * Z :=
  (s_id s, s_name s, s_docks_count s).

Lemma flows_block_fst (s : cycle_stations) (sh : cycle_stations * option cycle_hire) :
  In sh (flows_block s) -> fst sh = s.
Proof.
  unfold flows_block.
  destruct (filter (flows_on start_date end_date s) trips) as [|h ms].
  - intros [<- | []]. reflexivity.
  - intros I. apply in_map_iff in I. destruct I as (h' & <- & _). reflexivity.
Qed.

Lemma flows_block_nonempty (s : cycle_stations) : flows_block s <> [].
Proof.
  unfold flows_block.
  destruct (filter (flows_on start_date end_date s) trips); discriminate.
Qed.

Lemma flows_where_join (stations : list cycle_stations) :
  filter flows_where (flows_join trips stations start_date end_date)
  = flat_map flows_block (filter (fun s => 0 <? s_docks_count s) stations).
Proof.
  unfold flows_join. fold flows_block.
  induction stations as [|s l IH]; [reflexivity|].
  cbn [flat_map filter]. rewrite filter_app, IH.
  destruct (0 <? s_docks_count s) eqn:D.
  - cbn [flat_map]. f_equal. apply filter_true.
    intros sh I. unfold flows_where. rewrite (flows_block_fst _ _ I). exact D.
  - rewrite filter_false; [reflexivity|].
    intros sh I. unfold flows_where. rewrite (flows_block_fst _ _ I). exact D.
Qed.

(** What the two conditional counts see in the block of a station. *)
Lemma flows_block_count (s : cycle_stations) (test : cycle_stations * option cycle_hire -> bool)
  (on_trip : cycle_hire -> bool) :
  test (s, None) = false ->
  (forall h, test (s, Some h) = on_trip h) ->
  COUNTIF test (flows_block s)
  = COUNT (filter (fun h => flows_on start_date end_date s h && on_trip h) trips).
Proof.
  intros Hnone Hsome. unfold COUNTIF, flows_block.
  rewrite <- filter_filter_andb.
  destruct (filter (flows_on start_date end_date s) trips) as [|h ms].
  - cbn [filter]. rewrite Hnone. reflexivity.
  - rewrite filter_map_swap, COUNT_map. f_equal.
    apply filter_ext. intros h'. apply Hsome.
Qed.

Lemma outflows_block (s : cycle_stations) :
  COUNTIF is_outflow (flows_block s) = trips_from trips start_date end_date (s_id s).
Proof.
  rewrite (flows_block_count s is_outflow (fun h => h_start_station_id h =? s_id s));
    [ | reflexivity | reflexivity ].
  unfold trips_from. f_equal. apply filter_ext. intros h.
  unfold flows_on, starts_in_window.
  rewrite (Z.eqb_sym (s_id s) (h_start_station_id h)).
  destruct (h_start_station_id h =? s_id s), (s_id s =? h_end_station_id h),
    (BETWEEN (h_start_date h) (TIMESTAMP start_date) (TIMESTAMP end_date));
    reflexivity.
Qed.

Lemma inflows_block (s : cycle_stations) :
  COUNTIF is_inflow (flows_block s) = trips_to trips start_date end_date (s_id s).
Proof.
  rewrite (flows_block_count s is_inflow (fun h => h_end_station_id h =? s_id s));
    [ | reflexivity | reflexivity ].
  unfold trips_to. f_equal. apply filter_ext. intros h.
  unfold flows_on, starts_in_window.
  rewrite (Z.eqb_sym (s_id s) (h_end_station_id h)).
  destruct (h_end_station_id h =? s_id s), (s_id s =? h_start_station_id h),
    (BETWEEN (h_start_date h) (TIMESTAMP start_date) (TIMESTAMP end_date));
    reflexivity.
Qed.

(** With unique station ids the CTE has exactly one row per station that
    has docks, in the order of the station table, holding the counts of
    the window trips that start and end there. *)
Lemma station_flows_rows (stations : list cycle_stations) :
  NoDup (map s_id stations) ->
  station_flows trips stations start_date end_date
  = map (flow_of trips start_date end_date)
        (filter (fun s => 0 <? s_docks_count s) stations).
Proof.
  intros ND. unfold station_flows. rewrite flows_where_join.
  rewrite (group_by_blocks (key := flows_key) (block := flows_block)
             (block_key := station_key)).
  - rewrite map_map. apply map_ext. intros s.
    unfold flows_select, station_key, flow_of.
    rewrite outflows_block, inflows_block. reflexivity.
  - intros s _ sh I. unfold flows_key, station_key.
    rewrite (flows_block_fst _ _ I). reflexivity.
  - apply (NoDup_map_inv (fun k : Z * string * Z => fst (fst k))).
    rewrite map_map. cbn [station_key fst]. apply NoDup_map_filter, ND.
  - intros s _. apply flows_block_nonempty.
Qed.
End FlowFacts.

Lemma station_flows_df_rows (trips : list cycle_hire) (stations : list cycle_stations)
  (start_date end_date : Z) :
  station_flows_df_of trips stations start_date end_date
  = map station_flow_row
        (filter significant (station_flows trips stations start_date end_date)).
Proof.
  unfold station_flows_df_of, combined_analysis_query.
  rewrite filter_app, filter_false, filter_true; [reflexivity | | ].
  - intros r I. apply in_map_iff in I. destruct I as (f & <- & _). reflexivity.
  - intros r I. apply in_map_iff in I. destruct I as (f & <- & _). reflexivity.
Qed.

Lemma station_type_cases (net_flow : Z) :
  (0 < net_flow -> station_type net_flow = Accumulator)
  /\ (net_flow < 0 -> station_type net_flow = Generator)
  /\ (net_flow = 0 -> station_type net_flow = Balanced).
Proof.
  unfold station_type.
  destruct (0 <? net_flow) eqn:P; destruct (net_flow <? 0) eqn:N;
    rewrite ?Z.ltb_lt, ?Z.ltb_ge in *; repeat split; intros; (reflexivity || lia).
Qed.

Lemma significant_iff (f : StationFlow) :
  significant f = true <->
  (0 < sf_outflows f \/ 0 < sf_inflows f) /\ 20 < Z.abs (sf_net_flow f).
Proof.
  unfold significant. rewrite andb_true_iff, orb_true_iff, !Z.ltb_lt. reflexivity.
Qed.

(** C5, as stated, fails on two counts.  On a long weekend on which the
    page has data in every region, forty bikes leave the dockless S3 within
    the window, yet the analyzer has no row for S3 and does not report it;
    and the thirty bikes that leave S2 on the last day of the window are
    not counted, so S2 has outflows 0 and is not reported, where the
    inclusive window of the specification gives it 30 outflows against 9
    inflows. *)
Lemma flow_analyzer_skips_dockless_and_last_day :
  map fs_station_name departures_ranked = ["S2"%string]
  /\ (exists rows v,
        hourly_capacity_df_of departures_trips dockless_stations
          day_2016_01_01 day_2016_01_04 "S2" = Some rows
        /\ station_insights (mkDataFrame hourly_capacity_columns rows)
             (intervals_in_period day_2016_01_01 day_2016_01_04 Weekly) = Ret (Some v))
  /\ (exists v,
        system_insights
          (mkDataFrame combined_columns
             (combined_analysis_query departures_trips dockless_stations
                day_2016_01_01 day_2016_01_04))
          (intervals_binding (mkDataFrame full_stations_columns departures_ranked)
             day_2016_01_01 day_2016_01_04 Weekly) = Ret (Some v))
  /\ In (mk_station 3 "S3" 0) dockless_stations
  /\ map (fun id =>
            (COUNT (filter (fun h => inclusive_window day_2016_01_01 day_2016_01_04
                                       (h_start_date h)
                                     && (h_start_station_id h =? id)) departures_trips),
             COUNT (filter (fun h => inclusive_window day_2016_01_01 day_2016_01_04
                                       (h_start_date h)
                                     && (h_end_station_id h =? id)) departures_trips)))
          [1; 2; 3]
     = [(9, 70); (30, 9); (40, 0)]
  /\ map (fun f => (sf_station_id f, sf_outflows f, sf_inflows f, sf_net_flow f))
         (station_flows departures_trips dockless_stations
            day_2016_01_01 day_2016_01_04)
     = [(1, 9, 40, 31); (2, 0, 9, 9)]
  /\ map c_name (station_flows_df_of departures_trips dockless_stations
                   day_2016_01_01 day_2016_01_04)
     = ["S1"%string].
Proof.
  split; [vm_compute; reflexivity|].
  split; [eexists; eexists; split; vm_compute; reflexivity|].
  split; [eexists; vm_compute; reflexivity|].
  split; [right; right; left; reflexivity|].
  repeat split; vm_compute; reflexivity.
Qed.

(** C5, amended. The window of the analyzer is the code's: a trip counts
    when it starts on a day from [start_date] to the day before [end_date],
    or at the first instant of [end_date].  With unique station ids, every
    station that has docks gets one row whose outflows count the window
    trips starting there, whose inflows count the window trips ending there
    and whose net flow is inflows minus outflows; every row belongs to a
    station that has docks, so a station without docks gets none; the label
    is Accumulator, Generator or Balanced by the sign of the net flow; and
    the reported rows are exactly the rows with (outflows > 0 or
    inflows > 0) and |net flow| > 20. *)
Theorem flow_analyzer_counts_and_filter :
  forall (trips : list cycle_hire) (stations : list cycle_stations)
         (start_date end_date : Z),
    NoDup (map s_id stations) ->
    (forall h, starts_in_window start_date end_date h = true <->
       start_date <= EXTRACT_DATE (h_start_date h)
       /\ (EXTRACT_DATE (h_start_date h) < end_date
           \/ h_start_date h = end_date * usec_per_day))
    /\ (forall s, In s stations -> 0 < s_docks_count s ->
          exists f, In f (station_flows trips stations start_date end_date)
            /\ sf_station_id f = s_id s
            /\ sf_outflows f
               = COUNT (filter (fun h => starts_in_window start_date end_date h
                                         && (h_start_station_id h =? s_id s)) trips)
            /\ sf_inflows f
               = COUNT (filter (fun h => starts_in_window start_date end_date h
                                         && (h_end_station_id h =? s_id s)) trips)
            /\ sf_net_flow f = sf_inflows f - sf_outflows f)
    /\ (forall f, In f (station_flows trips stations start_date end_date) ->
          exists s, In s stations /\ 0 < s_docks_count s
            /\ f = flow_of trips start_date end_date s)
    /\ (forall s f, In s stations -> s_docks_count s <= 0 ->
          In f (station_flows trips stations start_date end_date) ->
          sf_station_id f <> s_id s)
    /\ (forall net_flow,
          (0 < net_flow -> station_type net_flow = Accumulator)
          /\ (net_flow < 0 -> station_type net_flow = Generator)
          /\ (net_flow = 0 -> station_type net_flow = Balanced))
    /\ (forall r, In r (station_flows_df_of trips stations start_date end_date) <->
          exists f, In f (station_flows trips stations start_date end_date)
            /\ r = station_flow_row f
            /\ (0 < sf_outflows f \/ 0 < sf_inflows f)
            /\ 20 < Z.abs (sf_net_flow f))
    /\ (forall f, c_net_flow (station_flow_row f) = Some (sf_net_flow f)
          /\ c_station_type (station_flow_row f) = Some (station_type (sf_net_flow f))).
Proof.
  intros trips stations sd ed ND.
  pose proof (station_flows_rows trips sd ed stations ND) as Rows.
  assert (forall f, In f (station_flows trips stations sd ed) ->
            exists s, In s stations /\ 0 < s_docks_count s
              /\ f = flow_of trips sd ed s) as Origin.
  { intros f I. rewrite Rows in I. apply in_map_iff in I.
    destruct I as (s & <- & I). apply filter_In in I. destruct I as [I D].
    apply Z.ltb_lt in D. exists s. auto. }
  split; [|split; [|split; [|split; [|split; [|split]]]]].
  - intros h. unfold starts_in_window. apply between_midnights.
  - intros s I D. exists (flow_of trips sd ed s). split.
    + rewrite Rows. apply in_map, filter_In. split; [exact I|].
      apply Z.ltb_lt, D.
    + repeat split.
  - exact Origin.
  - intros s f Is D If E.
    destruct (Origin f If) as (s' & Is' & D' & ->). cbn [flow_of sf_station_id] in E.
    assert (s' = s) as ->.
    { apply (NoDup_map_injective_on s_id stations); assumption. }
    lia.
  - apply station_type_cases.
  - intros r. rewrite station_flows_df_rows, in_map_iff. split.
    + intros (f & <- & I). apply filter_In in I. destruct I as [I S].
      exists f. apply significant_iff in S. tauto.
    + intros (f & I & -> & S). exists f. split; [reflexivity|].
      apply filter_In. split; [exact I|]. apply significant_iff, S.
  - intros f. split; reflexivity.
Qed.

Lemma flow_analyzer_counts_and_filter_witness :
  NoDup (map s_id capacity_stations)
  /\ exists f,
       In f (station_flows flow_trips capacity_stations day_2016_01_01 day_2016_01_02)
       /\ sf_outflows f = 2 /\ sf_inflows f = 1 /\ sf_net_flow f = -1
       /\ station_type (sf_net_flow f) = Generator.
Proof.
  assert (NoDup (map s_id capacity_stations)) as ND.
  { cbn. repeat constructor; cbn; intuition discriminate. }
  split; [exact ND|].
  destruct (@flow_analyzer_counts_and_filter flow_trips capacity_stations
              day_2016_01_01 day_2016_01_02 ND)
    as (_ & Hrow & _).
  destruct (Hrow (mk_station 1 "S1" 20) (or_introl eq_refl) eq_refl)
    as (f & I & _ & Eo & Ei & En).
  exists f. split; [exact I|].
  rewrite En, Eo, Ei. repeat split.
Defined.

Lemma Zsum_map_sub (A : Type) (f g : A -> Z) (l : list A) :
  Zsum (map (fun x => f x - g x) l) = Zsum (map f l) - Zsum (map g l).
Proof.
  induction l as [|x l IH]; [reflexivity|].
  cbn [map Zsum fold_right] in *. unfold Zsum in *. lia.
Qed.

Lemma Zsum_map_add (A : Type) (f g : A -> Z) (l : list A) :
  Zsum (map (fun x => f x + g x) l) = Zsum (map f l) + Zsum (map g l).
Proof.
  induction l as [|x l IH]; [reflexivity|].
  cbn [map Zsum fold_right] in *. unfold Zsum in *. lia.
Qed.

Lemma Zsum_map_zero (A : Type) (f : A -> Z) (l : list A) :
  (forall x, In x l -> f x = 0) -> Zsum (map f l) = 0.
Proof.
  induction l as [|x l IH]; intros Hz; [reflexivity|].
  cbn [map Zsum fold_right]. rewrite (Hz x (or_introl eq_refl)).
  fold (Zsum (map f l)). rewrite IH; [reflexivity|].
  intros y I. apply Hz. right. exact I.
Qed.

Lemma has_station_In (stations : list cycle_stations) (id : Z) :
  has_station stations id = true <-> In id (map s_id stations).
Proof.
  unfold has_station. rewrite existsb_exists, in_map_iff. split.
  - intros (s & I & E). apply Z.eqb_eq in E. exists s. auto.
  - intros (s & E & I). exists s. split; [exact I|]. apply Z.eqb_eq. auto.
Qed.

(** One trip is counted by at most one station of a table with unique ids. *)
Lemma one_station_counts (stations : list cycle_stations) (id : Z) (w : bool) :
  NoDup (map s_id stations) ->
  Zsum (map (fun s => if w && (id =? s_id s) then 1 else 0) stations)
  = if w && has_station stations id then 1 else 0.
Proof.
  induction stations as [|s l IH]; intros ND.
  - cbn. rewrite andb_false_r. reflexivity.
  - cbn [map] in ND. inversion ND as [|? ? N ND']; subst.
    cbn [map Zsum fold_right]. fold (Zsum (map (fun s => if w && (id =? s_id s) then 1 else 0) l)).
    rewrite (IH ND'). unfold has_station. cbn [existsb]. fold (has_station l id).
    destruct (id =? s_id s) eqn:E.
    + apply Z.eqb_eq in E. subst id.
      destruct (has_station l (s_id s)) eqn:Hs.
      * apply has_station_In in Hs. contradiction.
      * destruct w; reflexivity.
    + destruct w, (has_station l id); reflexivity.
Qed.

Lemma count_over_stations (trips : list cycle_hire) (stations : list cycle_stations)
  (w : cycle_hire -> bool) (at_ : cycle_hire -> Z) :
  NoDup (map s_id stations) ->
  Zsum (map (fun s => COUNT (filter (fun h => w h && (at_ h =? s_id s)) trips)) stations)
  = COUNT (filter (fun h => w h && has_station stations (at_ h)) trips).
Proof.
  intros ND. induction trips as [|h t IH].
  - cbn [filter]. apply Zsum_map_zero. reflexivity.
  - rewrite (map_ext _ (fun s => (if w h && (at_ h =? s_id s) then 1 else 0)
                          + COUNT (filter (fun h => w h && (at_ h =? s_id s)) t))).
    + rewrite Zsum_map_add, IH, one_station_counts by exact ND.
      cbn [filter]. destruct (w h && has_station stations (at_ h)).
      * rewrite COUNT_cons. reflexivity.
      * reflexivity.
    + intros s. cbn [filter]. destruct (w h && (at_ h =? s_id s)).
      * apply COUNT_cons.
      * reflexivity.
Qed.

(** C8. In a closed system with unique station ids the net flows of the
    flow analyzer add up to zero; a trip that starts and ends at the same
    station adds one outflow and one inflow to that station. *)
Theorem net_flow_conservation :
  forall (trips : list cycle_hire) (stations : list cycle_stations)
         (start_date end_date : Z),
    NoDup (map s_id stations) ->
    closed_system trips stations ->
    Zsum (map sf_net_flow (station_flows trips stations start_date end_date)) = 0
    /\ forall (h : cycle_hire) (s : cycle_stations),
         h_start_station_id h = s_id s -> h_end_station_id h = s_id s ->
         starts_in_window start_date end_date h = true -> 0 < s_docks_count s ->
         station_flows [h] [s] start_date end_date
         = [mk_flow (s_id s) (s_name s) (s_docks_count s) 1 1 0].
Proof.
  intros trips stations sd ed ND [Hclosed Hdocks]. split.
  - rewrite (station_flows_rows trips sd ed stations ND).
    rewrite filter_true by (intros s I; apply Z.ltb_lt, Hdocks, I).
    rewrite map_map. cbn [flow_of sf_net_flow].
    rewrite Zsum_map_sub. unfold trips_to, trips_from.
    rewrite !count_over_stations by exact ND.
    rewrite (filter_ext_in _ (starts_in_window sd ed)).
    + rewrite (filter_ext_in
                 (fun h => starts_in_window sd ed h
                           && has_station stations (h_start_station_id h))
                 (starts_in_window sd ed)); [lia|].
      intros h I. destruct (Hclosed h I) as [Hs _].
      apply has_station_In in Hs. rewrite Hs. apply andb_true_r.
    + intros h I. destruct (Hclosed h I) as [_ He].
      apply has_station_In in He. rewrite He. apply andb_true_r.
  - intros h s Es Ee W D.
    rewrite (@station_flows_rows [h] sd ed [s]).
    + cbn [filter]. apply Z.ltb_lt in D. rewrite D. cbn [map].
      unfold flow_of, trips_from, trips_to. cbn [filter].
      rewrite W, Es, Ee, Z.eqb_refl. reflexivity.
    + cbn. constructor; [intros []|constructor].
Qed.

Lemma net_flow_conservation_witness :
  NoDup (map s_id capacity_stations)
  /\ closed_system loop_trips capacity_stations
  /\ Zsum (map sf_net_flow
             (station_flows loop_trips capacity_stations
                day_2016_01_01 day_2016_01_02)) = 0.
Proof.
  assert (NoDup (map s_id capacity_stations)) as ND.
  { cbn. repeat constructor; cbn; intuition discriminate. }
  assert (closed_system loop_trips capacity_stations) as Hc.
  { split.
    - intros h I. cbn in I. cbn [map s_id In capacity_stations].
      repeat (destruct I as [<- | I]; [cbn; tauto|]). destruct I.
    - intros s I. cbn in I.
      repeat (destruct I as [<- | I]; [reflexivity|]). destruct I. }
  split; [exact ND|]. split; [exact Hc|].
  apply (@net_flow_conservation _ _ day_2016_01_01 day_2016_01_02 ND Hc).
Defined.

(** ** System-wide imbalance *)


Lemma imbalance_metrics_fields (station_flows_df : list CombinedRow) (binding : option Z)
  (m : ImbalanceMetrics) :
  imbalance_metrics station_flows_df binding = Ret m ->
  m_total_imbalance m = total_imbalance station_flows_df
  /\ m_total_trips m = cell_sum (map c_outflows station_flows_df)
  /\ m_generators m
     = order_by (fun a b => net_flow_is (fun x => net_flow_is (fun y => x <? y) b) a)
                (filter (net_flow_is (fun n => n <? 0)) station_flows_df)
  /\ m_accumulators m
     = order_by (fun a b => net_flow_is (fun x => net_flow_is (fun y => y <? x) b) a)
                (filter (net_flow_is (fun n => 0 <? n)) station_flows_df).
Proof.
  unfold imbalance_metrics. intros E.
  destruct (if 0 <? cell_sum (map c_outflows station_flows_df)
            then q <- truediv (total_imbalance station_flows_df)
                        (inject_Z (cell_sum (map c_outflows station_flows_df))) ;;
                 Ret (q * 100)%Q
            else Ret 0%Q) as [pct|e]; [|discriminate].
  cbn [py_bind] in E.
  destruct (read_intervals_in_period binding) as [n|e]; [|discriminate].
  cbn [py_bind] in E.
  destruct (truediv (total_imbalance station_flows_df) (inject_Z n)) as [per|e];
    [|discriminate].
  cbn [py_bind] in E. inversion E. repeat split.
Qed.




(** ** The utilisation calculator *)

Lemma select_all_total (A B : Type) (f : A -> option B) (g : A -> B) (l : list A) :
  (forall a, In a l -> f a = Some (g a)) -> select_all f l = Some (map g l).
Proof.
  induction l as [|a l IH]; intros Hf; [reflexivity|].
  cbn [select_all map]. rewrite (Hf a (or_introl eq_refl)), IH; [reflexivity|].
  intros b I. apply Hf. right. exact I.
Qed.

Lemma bq_div_nonzero (a b : Z) :
  b <> 0 -> bq_div a b = Some (inject_Z a / inject_Z b)%Q.
Proof.
  intros N. unfold bq_div. destruct (b =? 0) eqn:E; [|reflexivity].
  apply Z.eqb_eq in E. contradiction.
Qed.

Lemma unique_station (stations : list cycle_stations) (s0 : cycle_stations) :
  NoDup (map s_id stations) -> In s0 stations ->
  filter (fun s => s_id s0 =? s_id s) stations = [s0].
Proof.
  induction stations as [|s l IH]; intros ND I; [destruct I|].
  cbn [map] in ND. inversion ND as [|? ? N ND']; subst.
  cbn [filter]. destruct I as [-> | I].
  - rewrite Z.eqb_refl. f_equal. apply filter_false.
    intros s I. apply Z.eqb_neq. intros E. apply N. rewrite E. apply in_map, I.
  - destruct (s_id s0 =? s_id s) eqn:E.
    + apply Z.eqb_eq in E. exfalso. apply N. rewrite <- E. apply in_map, I.
    + apply IH; assumption.
Qed.

Lemma hourly_join_In (trips : list cycle_hire) (stations : list cycle_stations)
  (h : cycle_hire) (s : cycle_stations) :
  In (h, s) (hourly_join trips stations) <->
  In h trips /\ In s stations /\ h_end_station_id h = s_id s.
Proof.
  unfold hourly_join. rewrite in_flat_map. split.
  - intros (h' & Ih & I). apply in_map_iff in I. destruct I as (s' & E & I).
    inversion E; subst. apply filter_In in I. destruct I as [Is Eid].
    apply Z.eqb_eq in Eid. auto.
  - intros (Ih & Is & E). exists h. split; [exact Ih|].
    apply in_map, filter_In. split; [exact Is|]. apply Z.eqb_eq, E.
Qed.

Lemma dayofweek_of_date (ts : Z) :
  EXTRACT_DAYOFWEEK ts = (EXTRACT_DATE ts + 4) mod 7 + 1.
Proof. reflexivity. Qed.

Lemma hourly_row_test (start_date end_date : Z) (h h0 : cycle_hire) (s0 : cycle_stations) :
  h_end_station_id h = s_id s0 -> h_end_station_id h0 = s_id s0 ->
  0 < s_docks_count s0 ->
  hourly_where start_date end_date (h, s0)
  && key_eqb (hourly_key (h, s0)) (hourly_key (h0, s0))
  = ends_in_window start_date end_date h
    && (h_end_station_id h =? s_id s0)
    && (EXTRACT_DATE (h_end_date h) =? EXTRACT_DATE (h_end_date h0))
    && (EXTRACT_HOUR (h_end_date h) =? EXTRACT_HOUR (h_end_date h0)).
Proof.
  intros E E0 D. apply eq_true_iff_eq.
  rewrite !andb_true_iff, key_eqb_eq, !Z.eqb_eq.
  unfold hourly_where, ends_in_window, hourly_key. cbn [fst snd].
  rewrite andb_true_iff, Z.ltb_lt, !dayofweek_of_date. split.
  - intros [[W _] K]. inversion K. auto.
  - intros [[[W _] Ed] Eh]. rewrite E, E0, Ed, Eh. auto.
Qed.

(** The rows of the group of a station, date and hour are the window trips
    that end there then. *)
Lemma group_count (trips : list cycle_hire) (stations : list cycle_stations)
  (start_date end_date : Z) (h0 : cycle_hire) (s0 : cycle_stations) :
  NoDup (map s_id stations) ->
  In s0 stations -> 0 < s_docks_count s0 -> h_end_station_id h0 = s_id s0 ->
  COUNT (filter (fun hs => key_eqb (hourly_key hs) (hourly_key (h0, s0)))
                (filter (hourly_where start_date end_date) (hourly_join trips stations)))
  = arrivals_at trips start_date end_date (s_id s0)
      (EXTRACT_DATE (h_end_date h0)) (EXTRACT_HOUR (h_end_date h0)).
Proof.
  intros ND Is D E0. unfold arrivals_at, hourly_join.
  rewrite filter_filter_andb.
  induction trips as [|h t IH]; [reflexivity|].
  cbn [flat_map]. rewrite filter_app.
  unfold COUNT in *. rewrite length_app, Nat2Z.inj_add, IH. clear IH.
  cbn [filter].
  destruct (Z.eq_dec (h_end_station_id h) (s_id s0)) as [E | N].
  - rewrite E, (@unique_station stations s0 ND Is). cbn [map filter].
    rewrite <- E at 1.
    rewrite (@hourly_row_test start_date end_date h h0 s0 E E0 D).
    destruct (ends_in_window start_date end_date h
              && (h_end_station_id h =? s_id s0)
              && (EXTRACT_DATE (h_end_date h) =? EXTRACT_DATE (h_end_date h0))
              && (EXTRACT_HOUR (h_end_date h) =? EXTRACT_HOUR (h_end_date h0)));
      cbn [List.length]; lia.
  - rewrite filter_false.
    + apply Z.eqb_neq in N. rewrite N, andb_false_r. reflexivity.
    + intros [h' s'] I. apply in_map_iff in I. destruct I as (s & Eq & I).
      inversion Eq; subst. apply andb_false_iff. right.
      apply (@key_eqb_neq HourlyKey _ _). unfold hourly_key. cbn [fst snd].
      intros K. inversion K. congruence.
Qed.

Section HourlyFacts.
Variable trips : list cycle_hire.
Variable stations : list cycle_stations.
Variables start_date end_date : Z.
Hypothesis unique_ids : NoDup (map s_id stations).

Let joined := filter (hourly_where start_date end_date) (hourly_join trips stations).
Let groups := group_by hourly_key joined.

Lemma joined_In (h : cycle_hire) (s : cycle_stations) :
  In (h, s) joined <->
  In h trips /\ In s stations /\ h_end_station_id h = s_id s
  /\ ends_in_window start_date end_date h = true /\ 0 < s_docks_count s.
Proof.
  unfold joined. rewrite filter_In, hourly_join_In.
  unfold hourly_where, ends_in_window. cbn [fst snd].
  rewrite andb_true_iff, Z.ltb_lt. tauto.
Qed.

(** Every group comes from a station that has docks. *)
Lemma group_station (k : HourlyKey) (rows : list (cycle_hire * cycle_stations)) :
  In (k, rows) groups ->
  exists h s, In (h, s) joined /\ k = hourly_key (h, s).
Proof.
  intros I.
  destruct (proj1 (@group_by_In _ _ _ _ hourly_key joined k rows) I) as [I' _].
  apply in_map_iff in I'. destruct I' as ([h s] & E & I').
  exists h, s. auto.
Qed.

Lemma hourly_select_total (g : HourlyKey * list (cycle_hire * cycle_stations)) :
  In g groups -> hourly_select g = Some (hourly_data_select g).
Proof.
  destruct g as [k rows]. intros I.
  destruct (group_station _ _ I) as (h & s & J & ->).
  apply joined_In in J. destruct J as (_ & _ & _ & _ & D).
  unfold hourly_select, hourly_data_select, hourly_key. cbn [fst snd].
  rewrite bq_div_nonzero by lia. reflexivity.
Qed.

Lemma hourly_station_status_rows :
  hourly_station_status trips stations start_date end_date
  = Some (map hourly_data_select groups).
Proof.
  unfold hourly_station_status. fold joined. fold groups.
  apply select_all_total. intros g I. apply hourly_select_total, I.
Qed.
End HourlyFacts.

Lemma COUNT_pos (A : Type) (l : list A) : l <> [] -> 0 < COUNT l.
Proof. destruct l; [contradiction|]. intros _. rewrite COUNT_cons. pose proof (COUNT_nonneg l). lia. Qed.

(** What one slot of the calculator is made of. *)
Lemma hourly_slot_origin (trips : list cycle_hire) (stations : list cycle_stations)
  (start_date end_date : Z) (g : HourlyKey * list (cycle_hire * cycle_stations)) :
  In g (group_by hourly_key
          (filter (hourly_where start_date end_date) (hourly_join trips stations))) ->
  exists h s,
    In h trips /\ In s stations /\ h_end_station_id h = s_id s
    /\ ends_in_window start_date end_date h = true /\ 0 < s_docks_count s
    /\ g = (hourly_key (h, s),
            filter (fun hs => key_eqb (hourly_key hs) (hourly_key (h, s)))
                   (filter (hourly_where start_date end_date)
                           (hourly_join trips stations))).
Proof.
  destruct g as [k rows]. intros I.
  destruct (@group_station trips stations start_date end_date k rows I)
    as (h & s & J & ->).
  apply joined_In in J. destruct J as (Ih & Is & E & W & D).
  exists h, s. repeat (split; [assumption|]).
  f_equal. apply (proj1 (@group_by_In _ _ _ _ hourly_key _ _ rows) I).
Qed.

(** C6, as stated, fails: the window [start_date, end_date] of the
    specification has inclusive bounds, and the calculator leaves out the
    last day.  Twenty bikes arrive at S1 (20 docks) in hour 8 of
    2016-01-02, the end date: the group has twenty trips and the calculator
    has no slot for it.  With start_date = end_date = 2016-01-01 the
    arrivals of that day get no slot either. *)
Lemma last_day_arrivals_get_no_slot :
  In (mk_station 1 "S1" 20) capacity_stations
  /\ COUNT (filter (fun h => inclusive_window day_2016_01_01 day_2016_01_02 (h_end_date h)
                             && (h_end_station_id h =? 1)
                             && (EXTRACT_DATE (h_end_date h) =? day_2016_01_02)
                             && (EXTRACT_HOUR (h_end_date h) =? 8)) weekend_trips)
     = 20
  /\ hourly_station_status weekend_trips capacity_stations
       day_2016_01_01 day_2016_01_02 = Some []
  /\ COUNT (filter (fun h => inclusive_window day_2016_01_01 day_2016_01_01 (h_end_date h)
                             && (h_end_station_id h =? 1)
                             && (EXTRACT_DATE (h_end_date h) =? day_2016_01_01)
                             && (EXTRACT_HOUR (h_end_date h) =? 8)) capacity_trips)
     = 20
  /\ hourly_station_status capacity_trips capacity_stations
       day_2016_01_01 day_2016_01_01 = Some [].
Proof.
  split; [left; reflexivity|].
  repeat split; vm_compute; reflexivity.
Qed.

(** C6, amended. The window of the calculator is the code's: a trip counts
    when it ends on a day from [start_date] to the day before [end_date],
    or at the first instant of [end_date].  With unique station ids the
    calculator never fails and returns exactly one slot per (station, date,
    hour, day of week) group of the window trips that end at a station with
    docks; the arrival count of the slot is the number of trips of the
    group and its utilisation is arrivals / docks x 100.  No slot belongs
    to a station without docks, so the division never meets a zero
    denominator. *)
Theorem hourly_station_status_groups :
  forall (trips : list cycle_hire) (stations : list cycle_stations)
         (start_date end_date : Z),
    NoDup (map s_id stations) ->
    (forall h, ends_in_window start_date end_date h = true <->
       start_date <= EXTRACT_DATE (h_end_date h)
       /\ (EXTRACT_DATE (h_end_date h) < end_date
           \/ h_end_date h = end_date * usec_per_day))
    /\ exists slots,
      hourly_station_status trips stations start_date end_date = Some slots
      /\ NoDup (map slot_group slots)
      /\ (forall r, In r slots ->
            exists s, In s stations
              /\ s_id s = hss_end_station_id r
              /\ s_name s = hss_station_name r
              /\ s_docks_count s = hss_total_docks r
              /\ 0 < hss_total_docks r
              /\ hss_day_of_week r = (hss_date r + 4) mod 7 + 1
              /\ 0 < hss_arrivals_in_hour r
              /\ hss_arrivals_in_hour r
                 = arrivals_at trips start_date end_date
                     (hss_end_station_id r) (hss_date r) (hss_hour r)
              /\ bq_div (hss_arrivals_in_hour r) (hss_total_docks r)
                 = Some (inject_Z (hss_arrivals_in_hour r)
                         / inject_Z (hss_total_docks r))%Q
              /\ hss_utilisation_pct r
                 = (inject_Z (hss_arrivals_in_hour r)
                    / inject_Z (hss_total_docks r) * 100)%Q)
      /\ (forall h s, In h trips -> In s stations ->
            h_end_station_id h = s_id s ->
            ends_in_window start_date end_date h = true ->
            0 < s_docks_count s ->
            exists r, In r slots
              /\ slot_group r = (s_id s, EXTRACT_DATE (h_end_date h),
                                 EXTRACT_HOUR (h_end_date h),
                                 EXTRACT_DAYOFWEEK (h_end_date h)))
      /\ (forall r s, In r slots -> In s stations -> s_docks_count s = 0 ->
            hss_end_station_id r <> s_id s).
Proof.
  intros trips stations sd ed ND.
  pose proof (hourly_station_status_rows trips stations sd ed) as Rows.
  set (W := filter (hourly_where sd ed) (hourly_join trips stations)) in *.
  set (G := group_by hourly_key W) in *.
  assert (forall r, In r (map hourly_data_select G) ->
            exists s, In s stations
              /\ s_id s = hss_end_station_id r
              /\ s_name s = hss_station_name r
              /\ s_docks_count s = hss_total_docks r
              /\ 0 < hss_total_docks r
              /\ hss_day_of_week r = (hss_date r + 4) mod 7 + 1
              /\ 0 < hss_arrivals_in_hour r
              /\ hss_arrivals_in_hour r
                 = arrivals_at trips sd ed
                     (hss_end_station_id r) (hss_date r) (hss_hour r)
              /\ bq_div (hss_arrivals_in_hour r) (hss_total_docks r)
                 = Some (inject_Z (hss_arrivals_in_hour r)
                         / inject_Z (hss_total_docks r))%Q
              /\ hss_utilisation_pct r
                 = (inject_Z (hss_arrivals_in_hour r)
                    / inject_Z (hss_total_docks r) * 100)%Q) as Slot.
  { intros r I. apply in_map_iff in I. destruct I as (g & <- & I).
    destruct g as [k rows].
    destruct (@group_by_rows _ _ _ _ hourly_key W k rows I) as [NE' _].
    destruct (hourly_slot_origin _ _ _ _ _ I) as (h & s & Ih & Is & E & Win & D & Eg).
    assert (k = hourly_key (h, s)) as Ek by (inversion Eg; reflexivity).
    assert (rows = filter (fun hs => key_eqb (hourly_key hs) (hourly_key (h, s))) W)
      as Er by (inversion Eg; reflexivity).
    clear Eg. subst k.
    exists s. unfold hourly_data_select, hourly_key. cbn [fst snd].
    cbn [hss_end_station_id hss_station_name hss_total_docks hss_date hss_hour
         hss_day_of_week hss_arrivals_in_hour hss_utilisation_pct].
    repeat split; try assumption.
    - symmetry. exact E.
    - apply COUNT_pos. exact NE'.
    - rewrite E, Er. exact (@group_count trips stations sd ed h s ND Is D E).
    - apply bq_div_nonzero. lia. }
  split; [intros h; unfold ends_in_window; apply between_midnights|].
  exists (map hourly_data_select G). split; [exact Rows|].
  split; [|split; [exact Slot|split]].
  - rewrite map_map. apply NoDup_map_NoDup_ForallPairs;
      [|exact (@group_by_NoDup _ _ _ _ hourly_key W)].
    intros g1 g2 I1 I2 Eg.
    destruct (hourly_slot_origin _ _ _ _ _ I1) as (h1 & s1 & _ & Is1 & E1 & _ & _ & ->).
    destruct (hourly_slot_origin _ _ _ _ _ I2) as (h2 & s2 & _ & Is2 & E2 & _ & _ & ->).
    unfold slot_group, hourly_data_select, hourly_key in Eg. cbn [fst snd] in Eg.
    cbn [hss_end_station_id hss_date hss_hour hss_day_of_week] in Eg.
    inversion Eg as [[Eid Edate Ehour Edow]].
    assert (s1 = s2) as ->.
    { apply (NoDup_map_injective_on s_id stations); try assumption. congruence. }
    assert (hourly_key (h1, s2) = hourly_key (h2, s2)) as Ek.
    { unfold hourly_key. cbn [fst snd]. congruence. }
    rewrite Ek. reflexivity.
  - intros h s Ih Is E Win D.
    assert (In (h, s) W) as J by (apply joined_In; auto).
    exists (hourly_data_select
              (hourly_key (h, s),
               filter (fun hs => key_eqb (hourly_key hs) (hourly_key (h, s))) W)).
    split.
    + apply in_map. apply (proj2 (@group_by_In _ _ _ _ hourly_key W _ _)).
      split; [|reflexivity].
      apply (in_map hourly_key) in J. exact J.
    + unfold slot_group, hourly_data_select, hourly_key. cbn [fst snd].
      cbn [hss_end_station_id hss_date hss_hour hss_day_of_week].
      rewrite E. reflexivity.
  - intros r s Ir Is Z0 Eid.
    destruct (Slot r Ir) as (s' & Is' & Eid' & _ & Ed & D & _).
    assert (s' = s) as ->.
    { apply (NoDup_map_injective_on s_id stations); try assumption. congruence. }
    lia.
Qed.

Lemma hourly_station_status_groups_witness :
  NoDup (map s_id dockless_stations)
  /\ exists slots,
       hourly_station_status dockless_trips dockless_stations
         day_2016_01_01 day_2016_01_02 = Some slots
       /\ NoDup (map slot_group slots)
       /\ map (fun r => (hss_station_name r, hss_arrivals_in_hour r)) slots
          = [("S1"%string, 20); ("S2"%string, 7)].
Proof.
  assert (NoDup (map s_id dockless_stations)) as ND.
  { cbn. repeat constructor; cbn; intuition discriminate. }
  split; [exact ND|].
  destruct (@hourly_station_status_groups dockless_trips dockless_stations
              day_2016_01_01 day_2016_01_02 ND) as (_ & slots & E & N & _).
  exists slots. split; [exact E|]. split; [exact N|].
  vm_compute in E. inversion E. reflexivity.
Defined.

(** ** ORDER BY *)

Section OrderByFacts.
Variable R : Type.
Variable before : R -> R -> bool.

Lemma insert_row_In (x y : R) (l : list R) :
  In y (insert_row before x l) <-> y = x \/ In y l.
Proof.
  induction l as [|z l IH]; cbn [insert_row In].
  - intuition congruence.
  - destruct (before z x); cbn [In]; [rewrite IH|]; intuition congruence.
Qed.

Lemma order_by_In (y : R) (l : list R) : In y (order_by before l) <-> In y l.
Proof.
  induction l as [|x l IH]; [reflexivity|].
  cbn [order_by fold_right]. fold (order_by before l).
  rewrite insert_row_In, IH. cbn [In]. intuition congruence.
Qed.

Lemma order_by_nil (l : list R) : order_by before l = [] -> l = [].
Proof.
  destruct l as [|x l]; [reflexivity|]. intros E.
  assert (In x (order_by before (x :: l))) as I
    by (apply order_by_In; left; reflexivity).
  rewrite E in I. destruct I.
Qed.

(** The sort keys form a strict weak order. *)
Hypothesis before_asym : forall a b, before a b = true -> before b a = false.
Hypothesis before_negtrans :
  forall a b c, before a b = false -> before b c = false -> before a c = false.

Lemma before_irrefl (a : R) : before a a = false.
Proof.
  destruct (before a a) eqn:E; [|reflexivity].
  pose proof (before_asym E) as F. rewrite E in F. discriminate.
Qed.

(** No row is strictly ahead of the first row of the sorted table. *)
Lemma order_by_head (l : list R) (h : R) (t : list R) :
  order_by before l = h :: t -> forall y, In y l -> before y h = false.
Proof.
  revert h t. induction l as [|x l IH]; intros h t E y I; [destruct I|].
  cbn [order_by fold_right] in E. fold (order_by before l) in E.
  assert (forall z, In z (h :: t) <-> z = x \/ In z l) as Hin.
  { intros z. rewrite <- E, insert_row_In, order_by_In. reflexivity. }
  destruct (order_by before l) as [|h' t'] eqn:El.
  - apply order_by_nil in El. subst l. cbn in E. inversion E; subst.
    destruct I as [<- | []]. apply before_irrefl.
  - cbn [insert_row] in E. destruct (before h' x) eqn:B.
    + inversion E; subst. destruct I as [<- | I].
      * apply before_asym, B.
      * apply (IH h t' eq_refl), I.
    + inversion E; subst. destruct I as [<- | I].
      * apply before_irrefl.
      * apply (@before_negtrans y h' h); [|exact B].
        apply (IH h' t' eq_refl), I.
Qed.

Lemma may_be_first_iff (rows : list R) (r : R) :
  may_be_first before rows r = true <-> forall r', In r' rows -> before r' r = false.
Proof.
  unfold may_be_first. rewrite forallb_forall. split.
  - intros Hf r' I. apply negb_true_iff, Hf, I.
  - intros Hf r' I. apply negb_true_iff, Hf, I.
Qed.
End OrderByFacts.

Lemma full_before_asym (a b : FullStationsRow) :
  full_before a b = true -> full_before b a = false.
Proof.
  unfold full_before.
  rewrite orb_true_iff, orb_false_iff, !andb_true_iff, !andb_false_iff,
    !Z.ltb_lt, !Z.ltb_ge, Z.eqb_eq, Z.eqb_neq. lia.
Qed.

Lemma full_before_false (a b : FullStationsRow) :
  full_before a b = false <->
  fs_instances_at_capacity a < fs_instances_at_capacity b
  \/ (fs_instances_at_capacity a = fs_instances_at_capacity b
      /\ fs_instances_near_capacity a <= fs_instances_near_capacity b).
Proof.
  unfold full_before.
  rewrite orb_false_iff, andb_false_iff, !Z.ltb_ge, Z.eqb_neq. lia.
Qed.

Lemma full_before_negtrans (a b c : FullStationsRow) :
  full_before a b = false -> full_before b c = false -> full_before a c = false.
Proof. rewrite !full_before_false. lia. Qed.

(** ** The problem-station ranker and the revenue estimate *)

Lemma left_join_peak_rows (peaks : list PeakRow) (s : StationSummary) (r : FullStationsRow) :
  In r (left_join_peak peaks s) ->
  fs_station_name r = ss_station_name s
  /\ fs_instances_at_capacity r = ss_instances_at_capacity s
  /\ fs_instances_near_capacity r = ss_instances_near_capacity s.
Proof.
  unfold left_join_peak.
  destruct (filter _ peaks) as [|p ms].
  - intros [<- | []]. repeat split.
  - intros I. apply in_map_iff in I. destruct I as (p' & <- & _). repeat split.
Qed.



(** The insights block never raises. *)
Lemma capacity_insights_total (df : DataFrame FullStationsRow)
  (start_date end_date : Z) (iv : Interval) :
  exists v, capacity_insights df start_date end_date iv = Ret v.
Proof.
  unfold capacity_insights. destruct (df_empty df) eqn:Em; cbn [negb].
  - eexists. reflexivity.
  - unfold df_empty in Em. destruct (columns df); [discriminate|].
    destruct (records df) as [|row0 rest]; [discriminate|].
    unfold iloc. cbn [nth_error py_bind].
    pose proof (intervals_in_period_pos start_date end_date iv) as P.
    rewrite !truediv_nonzero by lia. cbn [py_bind]. eexists. reflexivity.
Qed.



(** ** Capacity buckets *)

Lemma count_split (A : Type) (p : A -> bool) (l : list A) :
  COUNT l = COUNT (filter (fun x => negb (p x)) l) + COUNT (filter p l).
Proof.
  induction l as [|x l IH]; [reflexivity|].
  cbn [filter]. destruct (p x); cbn [negb]; rewrite !COUNT_cons; lia.
Qed.

(** In the ranker the column [instances_near_capacity] is [COUNT( * )] over
    the slots at 80% or more: it is the number of slots in [80, 100) plus
    [instances_at_capacity]. *)
Lemma ranker_near_count_includes_at_capacity (rows : list HourlyStationSlot) :
  (forall r, In r rows -> summary_where r = true) ->
  COUNT rows = COUNTIF near_capacity rows + COUNTIF at_capacity rows.
Proof.
  intros Hw. unfold COUNTIF. rewrite (count_split at_capacity rows). f_equal. f_equal.
  apply filter_ext_in. intros r I. specialize (Hw r I).
  unfold summary_where in Hw. apply andb_true_iff in Hw. destruct Hw as [H80 _].
  unfold near_capacity, at_capacity, Qlt_bool. rewrite H80. reflexivity.
Qed.

(** In the per-station query the two buckets are disjoint. *)
Lemma hourly_buckets_disjoint (r : HourlyStationSlot) :
  near_capacity r = true -> at_capacity r = false.
Proof.
  unfold near_capacity, at_capacity, Qlt_bool. rewrite andb_true_iff, negb_true_iff. tauto.
Qed.

(** C1, on the code. S1 has 20 docks and receives 20 arrivals in one hour:
    the slot is at exactly 100%.  The ranker counts it once in
    [instances_at_capacity] and once more in [instances_near_capacity]; the
    per-station query of region 2.1 counts it at capacity only. *)
Theorem ranker_counts_full_slot_in_both_buckets :
  option_map (map (fun r => (fs_station_name r, fs_max_utilisation_pct r,
                             fs_instances_near_capacity r,
                             fs_instances_at_capacity r)))
             (full_stations_query capacity_trips capacity_stations day_2016_01_01 day_2016_01_02)
  = Some [("S1"%string, (1000 # 10)%Q, 1, 1)]
  /\ map (fun c => (hc_hour c, hc_near_capacity_count c, hc_at_capacity_count c))
         (hourly_capacity_query capacity_trips capacity_stations day_2016_01_01 day_2016_01_02 "S1")
     = [(8, 0, 1)].
Proof. split; vm_compute; reflexivity. Qed.

(** ** Selections of a top element *)

Lemma station_label_total (default : string) (ranked : list CombinedRow) :
  exists v, station_label default ranked = Ret v.
Proof. destruct ranked; eexists; reflexivity. Qed.

(** C3, on the code. The window runs from a Saturday to the following
    Monday, so the hourly table of S1 has weekend rows only: the maxima for
    the chart scale are guarded, but [idxmax] on the empty weekday frame
    raises [ValueError].  A table with weekday rows only fails the same way
    on the weekend frame. *)
Theorem peak_hour_of_one_sided_table_raises :
  option_map (map fs_station_name) (full_stations_query weekend_trips capacity_stations day_2016_01_02 day_2016_01_04)
  = Some ["S1"%string]
  /\ map hc_day_name (hourly_capacity_query weekend_trips capacity_stations day_2016_01_02 day_2016_01_04 "S1")
     = [Some "Saturday"%string]
  /\ station_insights
       (mkDataFrame hourly_capacity_columns
          (hourly_capacity_query weekend_trips capacity_stations day_2016_01_02 day_2016_01_04 "S1"))
       (intervals_in_period day_2016_01_02 day_2016_01_04 Weekly)
     = Raise (ValueError "attempt to get argmax of an empty sequence")
  /\ map hc_day_name (hourly_capacity_query weekday_trips capacity_stations day_2016_01_04 day_2016_01_05 "S1")
     = [Some "Monday"%string]
  /\ station_insights
       (mkDataFrame hourly_capacity_columns
          (hourly_capacity_query weekday_trips capacity_stations day_2016_01_04 day_2016_01_05 "S1"))
       (intervals_in_period day_2016_01_04 day_2016_01_05 Weekly)
     = Raise (ValueError "attempt to get argmax of an empty sequence").
Proof. repeat split; vm_compute; reflexivity. Qed.

(** With an empty ranked table region 2 binds nothing, and region 3 stops
    at its per-interval rate before it reaches the guarded selection of the
    top generator and accumulator. *)
Lemma rebalancing_rate_without_ranked_table_raises :
  intervals_binding (pd_DataFrame (Row := FullStationsRow)) day_2016_01_01 day_2016_01_02 Weekly = None
  /\ system_insights
       (mkDataFrame combined_columns
          (combined_analysis_query imbalance_trips imbalance_stations day_2016_01_01 day_2016_01_02))
       (intervals_binding (pd_DataFrame (Row := FullStationsRow)) day_2016_01_01 day_2016_01_02 Weekly)
     = Raise (NameError "name 'intervals_in_period' is not defined").
Proof. split; vm_compute; reflexivity. Qed.

(** ** The peak detector *)

Lemma peak_before_false (a b : PeakRow) :
  peak_before a b = false <->
  p_num_occurrences a < p_num_occurrences b
  \/ (p_num_occurrences a = p_num_occurrences b
      /\ (p_avg_util_at_hour a <= p_avg_util_at_hour b)%Q).
Proof.
  unfold peak_before, Qlt_bool.
  rewrite orb_false_iff, andb_false_iff, Z.ltb_ge, Z.eqb_neq, negb_false_iff,
    Qle_bool_iff.
  destruct (Z.eq_dec (p_num_occurrences a) (p_num_occurrences b)); intuition lia.
Qed.

Lemma peak_before_asym (a b : PeakRow) :
  peak_before a b = true -> peak_before b a = false.
Proof.
  intros T. apply peak_before_false.
  destruct (peak_before b a) eqn:F.
  - unfold peak_before, Qlt_bool in T, F.
    rewrite orb_true_iff, andb_true_iff, Z.ltb_lt, Z.eqb_eq, negb_true_iff in T, F.
    destruct T as [T | [Tn Tq]], F as [F | [Fn Fq]]; try lia.
    exfalso.
    destruct (Qlt_le_dec (p_avg_util_at_hour a) (p_avg_util_at_hour b)) as [L | L].
    + apply Qlt_le_weak, Qle_bool_iff in L. congruence.
    + apply Qle_bool_iff in L. congruence.
  - apply peak_before_false in F. exact F.
Qed.

Lemma peak_before_negtrans (a b c : PeakRow) :
  peak_before a b = false -> peak_before b c = false -> peak_before a c = false.
Proof.
  rewrite !peak_before_false.
  intros [L1 | [E1 Q1]] [L2 | [E2 Q2]]; try (left; lia).
  right. split; [lia|]. eapply Qle_trans; eassumption.
Qed.

Lemma peak_partition_In (name : string) (groups : list PeakRow) (r : PeakRow) :
  In r (peak_partition name groups) <-> In r groups /\ p_station_name r = name.
Proof.
  unfold peak_partition. rewrite filter_In, String.eqb_eq. reflexivity.
Qed.

Lemma qualifies_iff (groups : list PeakRow) (r : PeakRow) :
  qualifies groups r <->
  In r groups
  /\ forall r', In r' groups -> p_station_name r' = p_station_name r ->
       peak_before r' r = false.
Proof.
  unfold qualifies, row_number_1. rewrite may_be_first_iff. split.
  - intros [I Hf]. split; [exact I|]. intros r' I' En.
    apply Hf, peak_partition_In. auto.
  - intros [I Hf]. split; [exact I|]. intros r' I'.
    apply peak_partition_In in I'. destruct I' as [I' En]. auto.
Qed.

Lemma peak_groups_In (hss : list HourlyStationSlot) (r : PeakRow) :
  In r (peak_groups hss) <->
  exists slot, In slot hss /\ peak_where slot = true
    /\ r = mk_peak (hss_station_name slot) (hss_hour slot) (hss_day_of_week slot)
             (COUNT (peak_slots hss (hss_station_name slot) (hss_hour slot)
                                (hss_day_of_week slot)))
             (AVG (map hss_utilisation_pct
                       (peak_slots hss (hss_station_name slot) (hss_hour slot)
                                   (hss_day_of_week slot)))).
Proof.
  unfold peak_groups, peak_slots. rewrite in_map_iff. split.
  - intros ([k rows] & <- & I).
    destruct (proj1 (@group_by_In _ _ _ _ peak_key _ k rows) I) as [Ik ->].
    apply in_map_iff in Ik. destruct Ik as (slot & <- & Is).
    apply filter_In in Is. destruct Is as [Is W].
    exists slot. split; [exact Is|]. split; [exact W|].
    unfold peak_select, peak_key. rewrite filter_filter_andb. reflexivity.
  - intros (slot & Is & W & ->).
    exists (peak_key slot,
            filter (fun x => key_eqb (peak_key x) (peak_key slot)) (filter peak_where hss)).
    split.
    + unfold peak_select, peak_key. rewrite filter_filter_andb. reflexivity.
    + apply (proj2 (@group_by_In _ _ _ _ peak_key _ _ _)). split; [|reflexivity].
      apply in_map, filter_In. auto.
Qed.

(** One run keeps at most one row per station. *)
Lemma one_row_per_block (A : Type) (name_of : A -> string) (pick : string -> list A)
  (names : list string) :
  NoDup names ->
  (forall n r, In r (pick n) -> name_of r = n) ->
  (forall n, (List.length (pick n) <= 1)%nat) ->
  NoDup (map name_of (flat_map pick names)).
Proof.
  intros ND Hname Hlen. induction names as [|n l IH]; [constructor|].
  inversion ND as [|? ? N ND']; subst.
  cbn [flat_map]. rewrite map_app.
  specialize (IH ND').
  pose proof (Hlen n) as Ln. pose proof (Hname n) as Hn.
  destruct (pick n) as [|r [|r' rs]]; cbn [map app List.length] in *; [exact IH| |lia].
  constructor; [|exact IH].
  rewrite (Hn r (or_introl eq_refl)). intros I.
  apply in_map_iff in I. destruct I as (x & Ex & Ix).
  apply in_flat_map in Ix. destruct Ix as (m & Im & Ix).
  apply Hname in Ix. apply N. congruence.
Qed.

Lemma peak_hours_In (hss : list HourlyStationSlot) (r : PeakRow) :
  In r (peak_hours hss) ->
  exists t, order_by peak_before (peak_partition (p_station_name r) (peak_groups hss))
            = r :: t.
Proof.
  unfold peak_hours. intros I. apply in_flat_map in I. destruct I as (name & _ & I).
  destruct (order_by peak_before (peak_partition name (peak_groups hss)))
    as [|h t] eqn:Eo; [destruct I|].
  cbn [firstn] in I. destruct I as [<- | []].
  assert (In h (peak_partition name (peak_groups hss))) as Ih.
  { apply (order_by_In peak_before). rewrite Eo. left. reflexivity. }
  apply peak_partition_In in Ih. destruct Ih as [_ <-].
  exists t. exact Eo.
Qed.

Lemma peak_hours_qualify (hss : list HourlyStationSlot) (r : PeakRow) :
  In r (peak_hours hss) -> qualifies (peak_groups hss) r.
Proof.
  intros I. destruct (peak_hours_In hss r I) as (t & Eo).
  assert (In r (peak_partition (p_station_name r) (peak_groups hss))) as Ir.
  { apply (order_by_In peak_before). rewrite Eo. left. reflexivity. }
  apply peak_partition_In in Ir. destruct Ir as [Ir _].
  apply qualifies_iff. split; [exact Ir|]. intros r' I' En.
  apply (order_by_head peak_before peak_before_asym peak_before_negtrans _ Eo).
  apply peak_partition_In. auto.
Qed.

Lemma peak_hours_names (hss : list HourlyStationSlot) (name : string) :
  (exists r, In r (peak_hours hss) /\ p_station_name r = name)
  <-> In name (map p_station_name (peak_groups hss)).
Proof.
  split.
  - intros (r & I & <-). apply peak_hours_qualify in I. apply in_map, I.
  - intros I. apply in_map_iff in I. destruct I as (g & En & Ig).
    destruct (order_by peak_before (peak_partition name (peak_groups hss)))
      as [|h t] eqn:Eo.
    + apply order_by_nil in Eo.
      assert (In g (peak_partition name (peak_groups hss))) as Ip
        by (apply peak_partition_In; auto).
      rewrite Eo in Ip. destruct Ip.
    + assert (In h (peak_partition name (peak_groups hss))) as Ih.
      { apply (order_by_In peak_before). rewrite Eo. left. reflexivity. }
      apply peak_partition_In in Ih. destruct Ih as [_ Eh].
      exists h. split; [|exact Eh].
      unfold peak_hours. apply in_flat_map. exists name. split.
      * apply (proj2 (@distinct_In _ _ _ _ name)), in_map_iff. exists g. auto.
      * rewrite Eo. left. reflexivity.
Qed.

Lemma qualifies_best (groups : list PeakRow) (r r' : PeakRow) :
  qualifies groups r -> In r' groups -> p_station_name r' = p_station_name r ->
  p_num_occurrences r' <= p_num_occurrences r
  /\ (p_num_occurrences r' = p_num_occurrences r ->
      (p_avg_util_at_hour r' <= p_avg_util_at_hour r)%Q).
Proof.
  intros Q I En. apply qualifies_iff in Q. destruct Q as [_ Hf].
  pose proof (Hf r' I En) as B. apply peak_before_false in B.
  destruct B as [L | [E L]]; split; try lia; intros; (lia || exact L).
Qed.

Lemma left_join_peak_absent (peaks : list PeakRow) (s : StationSummary) :
  (forall p, In p peaks -> p_station_name p <> ss_station_name s) ->
  left_join_peak peaks s = [full_row s None].
Proof.
  intros Hn. unfold left_join_peak. rewrite filter_false; [reflexivity|].
  intros p I. apply String.eqb_neq. intros E. apply (Hn p I). symmetry. exact E.
Qed.

(** C4, as stated, fails. S1 has one dock and receives one bike in hour 8
    and one in hour 9 of the same day: both (hour, day) candidates have one
    occurrence at 100%.  The [ORDER BY] of the window has no third key, so
    the clause may keep either; the run modelled here keeps hour 8 and
    keeps hour 9 once the rows of the trip table are stored in the opposite
    order. *)
Lemma peak_tie_has_no_rule :
  ~ (forall r1 r2,
       qualifies (peak_groups tie_slots) r1 ->
       qualifies (peak_groups tie_slots) r2 ->
       p_station_name r1 = p_station_name r2 -> r1 = r2)
  /\ Permutation tie_trips (rev tie_trips)
  /\ map p_hour (peak_hours tie_slots) = [8]
  /\ map p_hour (peak_hours tie_slots_reordered) = [9].
Proof.
  split; [|split; [apply Permutation_rev | split; vm_compute; reflexivity]].
  intros Hdet.
  assert (qualifies (peak_groups tie_slots) (mk_peak "S1" 8 6 1 100)) as Q1.
  { split; [vm_compute; auto | vm_compute; reflexivity]. }
  assert (qualifies (peak_groups tie_slots) (mk_peak "S1" 9 6 1 100)) as Q2.
  { split; [vm_compute; auto | vm_compute; reflexivity]. }
  specialize (Hdet _ _ Q1 Q2 eq_refl). discriminate Hdet.
Qed.

(** C4, amended. For every station the peak detector keeps at most one
    (hour, day-of-week) slot, taken from the hourly slots at 95% or more:
    one with the highest occurrence count and, among those, with the highest
    average utilisation.  Candidates that tie on both keys are not ordered
    by the query: any of them may be kept, and two outcomes for one station
    agree on the count and on the average.  A station with no slot at 95%
    has no peak row, the left join then yields a null peak, and the
    insights block never raises. *)
Theorem peak_detector_selection :
  forall hss : list HourlyStationSlot,
    (forall r, qualifies (peak_groups hss) r ->
       (exists slot, In slot hss
          /\ (95 <= hss_utilisation_pct slot)%Q
          /\ peak_key slot = (p_station_name r, p_hour r, p_day_of_week r))
       /\ p_num_occurrences r
          = COUNT (peak_slots hss (p_station_name r) (p_hour r) (p_day_of_week r))
       /\ p_avg_util_at_hour r
          = AVG (map hss_utilisation_pct
                     (peak_slots hss (p_station_name r) (p_hour r) (p_day_of_week r)))
       /\ forall r', In r' (peak_groups hss) ->
            p_station_name r' = p_station_name r ->
            p_num_occurrences r' <= p_num_occurrences r
            /\ (p_num_occurrences r' = p_num_occurrences r ->
                (p_avg_util_at_hour r' <= p_avg_util_at_hour r)%Q))
    /\ (forall r1 r2,
          qualifies (peak_groups hss) r1 -> qualifies (peak_groups hss) r2 ->
          p_station_name r1 = p_station_name r2 ->
          p_num_occurrences r1 = p_num_occurrences r2
          /\ (p_avg_util_at_hour r1 == p_avg_util_at_hour r2)%Q)
    /\ NoDup (map p_station_name (peak_hours hss))
    /\ (forall r, In r (peak_hours hss) -> qualifies (peak_groups hss) r)
    /\ (forall name,
          (exists slot, In slot hss /\ (95 <= hss_utilisation_pct slot)%Q
             /\ hss_station_name slot = name)
          <-> exists r, In r (peak_hours hss) /\ p_station_name r = name)
    /\ (forall (peaks : list PeakRow) (s : StationSummary),
          (forall p, In p peaks -> p_station_name p <> ss_station_name s) ->
          left_join_peak peaks s = [full_row s None]
          /\ fs_peak_hour (full_row s None) = None
          /\ fs_peak_day_of_week (full_row s None) = None)
    /\ (forall (df : DataFrame FullStationsRow) (start_date end_date : Z) (iv : Interval),
          exists v, capacity_insights df start_date end_date iv = Ret v).
Proof.
  intros hss. split; [|split; [|split; [|split; [|split; [|split]]]]].
  - intros r Q. pose proof Q as [I _].
    apply peak_groups_In in I. destruct I as (slot & Is & W & ->).
    cbn [p_station_name p_hour p_day_of_week p_num_occurrences p_avg_util_at_hour].
    split; [|split; [reflexivity|split; [reflexivity|]]].
    + exists slot. split; [exact Is|]. split; [|reflexivity].
      apply Qle_bool_iff, W.
    + intros r' I' En. apply (@qualifies_best _ _ _ Q I' En).
  - intros r1 r2 Q1 Q2 En.
    pose proof Q1 as [I1 _]. pose proof Q2 as [I2 _].
    destruct (@qualifies_best _ _ _ Q1 I2 (eq_sym En)) as [L21 A21].
    destruct (@qualifies_best _ _ _ Q2 I1 En) as [L12 A12].
    assert (p_num_occurrences r1 = p_num_occurrences r2) as E by lia.
    split; [exact E|]. apply Qle_antisym; auto.
  - unfold peak_hours. apply one_row_per_block.
    + apply (@distinct_NoDup _ _ _).
    + intros n r I.
      destruct (order_by peak_before (peak_partition n (peak_groups hss)))
        as [|h t] eqn:Eo; [destruct I|].
      cbn [firstn] in I. destruct I as [<- | []].
      assert (In h (peak_partition n (peak_groups hss))) as Ih.
      { apply (order_by_In peak_before). rewrite Eo. left. reflexivity. }
      apply peak_partition_In in Ih. apply Ih.
    + intros n. destruct (order_by peak_before (peak_partition n (peak_groups hss)));
        cbn; lia.
  - apply peak_hours_qualify.
  - intros name. rewrite peak_hours_names, in_map_iff. split.
    + intros (slot & Is & W & En).
      eexists. split; [|apply peak_groups_In; exists slot; split; [exact Is|split;
        [apply Qle_bool_iff, W | reflexivity]]].
      exact En.
    + intros (g & En & Ig). apply peak_groups_In in Ig.
      destruct Ig as (slot & Is & W & ->). exists slot.
      split; [exact Is|]. split; [apply Qle_bool_iff, W | exact En].
  - intros peaks s Hn. split; [apply left_join_peak_absent, Hn|]. split; reflexivity.
  - apply capacity_insights_total.
Qed.


(** * Further properties of the page *)

(** ** Timestamps *)

Lemma usec_per_day_pos : 0 < usec_per_day.
Proof. reflexivity. Qed.

Lemma EXTRACT_HOUR_range (ts : Z) : 0 <= EXTRACT_HOUR ts <= 23.
Proof.
  unfold EXTRACT_HOUR.
  pose proof (Z.mod_pos_bound ts usec_per_day usec_per_day_pos) as B.
  split.
  - apply Z.div_pos; [lia | reflexivity].
  - apply Z.lt_succ_r. apply Z.div_lt_upper_bound; [reflexivity|].
    change (usec_per_hour * Z.succ 23) with usec_per_day. lia.
Qed.

Lemma EXTRACT_DAYOFWEEK_range (ts : Z) : 1 <= EXTRACT_DAYOFWEEK ts <= 7.
Proof.
  unfold EXTRACT_DAYOFWEEK.
  pose proof (Z.mod_pos_bound (EXTRACT_DATE ts + 4) 7 eq_refl). lia.
Qed.

Lemma window_dates (start_date end_date ts : Z) :
  BETWEEN ts (TIMESTAMP start_date) (TIMESTAMP end_date) = true ->
  start_date <= EXTRACT_DATE ts <= end_date
  /\ (EXTRACT_DATE ts = end_date -> ts = TIMESTAMP end_date /\ EXTRACT_HOUR ts = 0).
Proof.
  unfold BETWEEN, TIMESTAMP, EXTRACT_DATE. rewrite andb_true_iff, !Z.leb_le.
  intros [Lo Hi].
  pose proof usec_per_day_pos as P.
  pose proof (Z.div_mod ts usec_per_day ltac:(lia)) as DM.
  pose proof (Z.mod_pos_bound ts usec_per_day P) as MB.
  assert (start_date <= ts / usec_per_day) as L1.
  { apply Z.div_le_lower_bound; [exact P | lia]. }
  assert (ts / usec_per_day <= end_date) as L2.
  { apply Z.lt_succ_r. apply Z.div_lt_upper_bound; [exact P | lia]. }
  split; [lia|]. intros E.
  assert (ts = end_date * usec_per_day) as Ets by nia.
  split; [exact Ets|].
  unfold EXTRACT_HOUR. rewrite Ets, Z.mod_mul by lia. reflexivity.
Qed.

(** ** Slots of the utilisation calculator *)

(** Every slot is the select list applied to the group of some joined row. *)
Lemma hourly_slot_fields (trips : list cycle_hire) (stations : list cycle_stations)
  (start_date end_date : Z) (slots : list HourlyStationSlot) (r : HourlyStationSlot) :
  hourly_station_status trips stations start_date end_date = Some slots ->
  In r slots ->
  exists h s (rows : list (cycle_hire * cycle_stations)),
    In h trips /\ In s stations /\ h_end_station_id h = s_id s
    /\ ends_in_window start_date end_date h = true /\ 0 < s_docks_count s
    /\ rows <> []
    /\ r = mk_slot (h_end_station_id h) (s_name s) (s_docks_count s)
             (EXTRACT_DATE (h_end_date h)) (EXTRACT_HOUR (h_end_date h))
             (EXTRACT_DAYOFWEEK (h_end_date h)) (COUNT rows)
             (inject_Z (COUNT rows) / inject_Z (s_docks_count s) * 100)%Q.
Proof.
  intros E I. rewrite hourly_station_status_rows in E. inversion E; subst slots.
  apply in_map_iff in I. destruct I as ([k rows] & <- & I).
  destruct (@group_by_rows _ _ _ _ hourly_key _ k rows I) as [NE _].
  destruct (hourly_slot_origin _ _ _ _ _ I) as (h & s & Ih & Is & Eid & W & D & Eg).
  exists h, s, rows. repeat (split; [assumption|]).
  assert (k = hourly_key (h, s)) as -> by (inversion Eg; reflexivity).
  reflexivity.
Qed.

(** X1. The slots lie in the window: their date is between [start_date] and
    [end_date], their hour between 0 and 23, their day of week between 1
    and 7.  Because the upper bound of the window is the midnight that
    opens [end_date], a slot dated [end_date] can only be hour 0, and a
    window trip that ends on [end_date] ends at that midnight exactly. *)
Theorem hourly_slots_in_window :
  forall (trips : list cycle_hire) (stations : list cycle_stations)
         (start_date end_date : Z) (slots : list HourlyStationSlot),
    hourly_station_status trips stations start_date end_date = Some slots ->
    (forall r, In r slots ->
       start_date <= hss_date r <= end_date
       /\ 0 <= hss_hour r <= 23
       /\ 1 <= hss_day_of_week r <= 7
       /\ (hss_date r = end_date -> hss_hour r = 0))
    /\ (forall h, ends_in_window start_date end_date h = true ->
          EXTRACT_DATE (h_end_date h) = end_date ->
          h_end_date h = TIMESTAMP end_date).
Proof.
  intros trips stations sd ed slots E. split.
  - intros r I.
    destruct (@hourly_slot_fields _ _ _ _ _ _ E I)
      as (h & s & rows & _ & _ & _ & W & _ & _ & ->).
    cbn [hss_date hss_hour hss_day_of_week].
    destruct (@window_dates sd ed (h_end_date h) W) as [Hd He].
    split; [exact Hd|]. split; [apply EXTRACT_HOUR_range|].
    split; [apply EXTRACT_DAYOFWEEK_range|].
    intros Ed. apply He, Ed.
  - intros h W Ed. apply (@window_dates sd ed (h_end_date h) W), Ed.
Qed.

Lemma hourly_slots_in_window_witness :
  hourly_station_status capacity_trips capacity_stations
    day_2016_01_01 day_2016_01_02 = Some capacity_slots
  /\ forall r, In r capacity_slots ->
       day_2016_01_01 <= hss_date r <= day_2016_01_02 /\ 0 <= hss_hour r <= 23.
Proof.
  assert (hourly_station_status capacity_trips capacity_stations
            day_2016_01_01 day_2016_01_02 = Some capacity_slots) as E
    by (vm_compute; reflexivity).
  split; [exact E|]. intros r I.
  destruct (@hourly_slots_in_window _ _ _ _ _ E) as [H _].
  destruct (H r I) as (Hd & Hh & _). split; assumption.
Defined.

Lemma Qle_scaled_ratio (k a : Z) (d : positive) :
  (inject_Z k <= inject_Z a / inject_Z (Zpos d) * 100)%Q <-> k * Zpos d <= 100 * a.
Proof.
  unfold Qle, Qdiv, Qmult, Qinv, inject_Z. cbn [Qnum Qden].
  rewrite !Pos.mul_1_l, !Pos.mul_1_r, !Z.mul_1_r. lia.
Qed.

(** X2. In exact arithmetic the thresholds on [utilisation_pct] are
    thresholds on the arrival count of the slot: at capacity when arrivals
    reach the dock count, in the ranker when 5 x arrivals reach 4 x docks
    (80%), a peak candidate when 20 x arrivals reach 19 x docks (95%), and
    near capacity in the per-station query between the 80% bound and the
    dock count.  Utilisation is always positive. *)
Theorem capacity_thresholds_on_counts :
  forall (trips : list cycle_hire) (stations : list cycle_stations)
         (start_date end_date : Z) (slots : list HourlyStationSlot),
    hourly_station_status trips stations start_date end_date = Some slots ->
    forall r, In r slots ->
      (0 < hss_utilisation_pct r)%Q
      /\ (at_capacity r = true <-> hss_total_docks r <= hss_arrivals_in_hour r)
      /\ (summary_where r = true <-> 4 * hss_total_docks r <= 5 * hss_arrivals_in_hour r)
      /\ (peak_where r = true <-> 19 * hss_total_docks r <= 20 * hss_arrivals_in_hour r)
      /\ (near_capacity r = true <->
          4 * hss_total_docks r <= 5 * hss_arrivals_in_hour r
          /\ hss_arrivals_in_hour r < hss_total_docks r).
Proof.
  intros trips stations sd ed slots E r I.
  destruct (@hourly_slot_fields _ _ _ _ _ _ E I)
    as (h & s & rows & _ & _ & _ & _ & D & NE & ->).
  pose proof (COUNT_pos NE) as Cp.
  unfold at_capacity, summary_where, peak_where, near_capacity, Qlt_bool.
  cbn [hss_utilisation_pct hss_total_docks hss_arrivals_in_hour].
  destruct (s_docks_count s) as [|d|d] eqn:Ed; try lia.
  rewrite !andb_true_iff, negb_true_iff, <- not_true_iff_false, Z.ltb_lt.
  rewrite !Qle_bool_iff.
  change 100%Q with (inject_Z 100). change 80%Q with (inject_Z 80).
  change 95%Q with (inject_Z 95).
  rewrite !Qle_scaled_ratio.
  split.
  - unfold Qlt, Qdiv, Qmult, Qinv, inject_Z. cbn [Qnum Qden]. lia.
  - repeat split; intros; lia.
Qed.

Lemma capacity_thresholds_on_counts_witness :
  hourly_station_status capacity_trips capacity_stations
    day_2016_01_01 day_2016_01_02 = Some capacity_slots
  /\ forall r, In r capacity_slots ->
       (at_capacity r = true <-> hss_total_docks r <= hss_arrivals_in_hour r).
Proof.
  assert (hourly_station_status capacity_trips capacity_stations
            day_2016_01_01 day_2016_01_02 = Some capacity_slots) as E
    by (vm_compute; reflexivity).
  split; [exact E|]. intros r I.
  apply (@capacity_thresholds_on_counts _ _ _ _ _ E r I).
Defined.


(** ** Sorted tables *)

Section OrderBySorted.
Variable R : Type.
Variable before : R -> R -> bool.

(** The rows on which the sort keys are defined. *)
Variable keyed_row : R -> Prop.
Hypothesis asym_on :
  forall a b, keyed_row a -> keyed_row b -> before a b = true -> before b a = false.
Hypothesis negtrans_on :
  forall a b c, keyed_row a -> keyed_row b -> keyed_row c ->
    before a b = false -> before b c = false -> before a c = false.

Let no_later (a b : R) : Prop := before b a = false.

Lemma insert_row_Forall (x : R) (l : list R) :
  keyed_row x -> Forall keyed_row l -> Forall keyed_row (insert_row before x l).
Proof.
  intros Px Pl. apply Forall_forall. intros y I.
  apply insert_row_In in I. destruct I as [-> | I]; [exact Px|].
  apply (proj1 (Forall_forall _ _) Pl), I.
Qed.

Lemma order_by_Forall (l : list R) :
  Forall keyed_row l -> Forall keyed_row (order_by before l).
Proof.
  intros Pl. apply Forall_forall. intros y I. apply order_by_In in I.
  apply (proj1 (Forall_forall _ _) Pl), I.
Qed.

Lemma insert_row_sorted (x : R) (l : list R) :
  keyed_row x -> Forall keyed_row l ->
  StronglySorted no_later l -> StronglySorted no_later (insert_row before x l).
Proof.
  intros Px. induction l as [|y l IH]; intros Pl Sl.
  - cbn. constructor; constructor.
  - inversion Pl as [|? ? Py Pl']; subst. inversion Sl as [|? ? Sl' Hy]; subst.
    cbn [insert_row]. destruct (before y x) eqn:B.
    + constructor; [apply IH; assumption|].
      apply Forall_forall. intros z I. apply insert_row_In in I.
      destruct I as [-> | I].
      * unfold no_later. apply asym_on; assumption.
      * apply (proj1 (Forall_forall _ _) Hy), I.
    + constructor; [exact Sl|]. constructor; [exact B|].
      apply Forall_forall. intros z I. unfold no_later.
      apply (@negtrans_on z y x); try assumption.
      * apply (proj1 (Forall_forall _ _) Pl'), I.
      * apply (proj1 (Forall_forall _ _) Hy), I.
Qed.

(** [ORDER BY] returns its rows with no row strictly ahead of an earlier one. *)
Lemma order_by_sorted (l : list R) :
  Forall keyed_row l -> StronglySorted no_later (order_by before l).
Proof.
  induction l as [|x l IH]; intros Pl; [constructor|].
  inversion Pl as [|? ? Px Pl']; subst.
  cbn [order_by fold_right]. fold (order_by before l).
  apply insert_row_sorted; [exact Px | apply order_by_Forall, Pl' | apply IH, Pl'].
Qed.
End OrderBySorted.

Lemma insert_row_length (R : Type) (before : R -> R -> bool) (x : R) (l : list R) :
  List.length (insert_row before x l) = S (List.length l).
Proof.
  induction l as [|y l IH]; [reflexivity|].
  cbn [insert_row]. destruct (before y x); cbn [List.length]; congruence.
Qed.

Lemma order_by_length (R : Type) (before : R -> R -> bool) (l : list R) :
  List.length (order_by before l) = List.length l.
Proof.
  induction l as [|x l IH]; [reflexivity|].
  cbn [order_by fold_right]. fold (order_by before l).
  rewrite insert_row_length, IH. reflexivity.
Qed.

Lemma insert_row_Permutation (R : Type) (before : R -> R -> bool) (x : R) (l : list R) :
  Permutation (x :: l) (insert_row before x l).
Proof.
  induction l as [|y l IH]; [apply Permutation_refl|].
  cbn [insert_row]. destruct (before y x); [|apply Permutation_refl].
  eapply Permutation_trans; [apply perm_swap|]. apply perm_skip, IH.
Qed.

Lemma order_by_Permutation (R : Type) (before : R -> R -> bool) (l : list R) :
  Permutation l (order_by before l).
Proof.
  induction l as [|x l IH]; [apply Permutation_refl|].
  cbn [order_by fold_right]. fold (order_by before l).
  eapply Permutation_trans; [apply perm_skip, IH|]. apply insert_row_Permutation.
Qed.

Lemma StronglySorted_weaken (A : Type) (le le' : A -> A -> Prop) (l : list A) :
  (forall a b, In a l -> In b l -> le a b -> le' a b) ->
  StronglySorted le l -> StronglySorted le' l.
Proof.
  intros Himp Sl. induction Sl as [|a l Sl IH Ha]; [constructor|].
  constructor.
  - apply IH. intros x y Ix Iy. apply Himp; right; assumption.
  - apply Forall_forall. intros b I.
    apply Himp; [left; reflexivity | right; exact I|].
    apply (proj1 (Forall_forall _ _) Ha), I.
Qed.

Lemma StronglySorted_firstn (A : Type) (le : A -> A -> Prop) (n : nat) (l : list A) :
  StronglySorted le l -> StronglySorted le (firstn n l).
Proof.
  intros Sl. revert n. induction Sl as [|a l Sl IH Ha]; intros n.
  - rewrite firstn_nil. constructor.
  - destruct n; cbn [firstn]; constructor; [apply IH|].
    apply Forall_forall. intros b I.
    apply (proj1 (Forall_forall _ _) Ha). revert I. clear.
    revert n. induction l as [|c l IHl]; intros n I.
    + rewrite firstn_nil in I. destruct I.
    + destruct n; cbn [firstn] in I; [destruct I|].
      destruct I as [-> | I]; [left; reflexivity | right; eapply IHl, I].
Qed.

(** What [head(n)] keeps is not later than what it drops. *)
Lemma StronglySorted_firstn_skipn (A : Type) (le : A -> A -> Prop) (n : nat) (l : list A)
  (a b : A) :
  StronglySorted le l -> In a (firstn n l) -> In b (skipn n l) -> le a b.
Proof.
  intros Sl. revert n. induction Sl as [|c l Sl IH Hc]; intros n Ia Ib.
  - rewrite firstn_nil in Ia. destruct Ia.
  - destruct n; cbn [firstn skipn] in Ia, Ib; [destruct Ia|].
    destruct Ia as [-> | Ia].
    + apply (proj1 (Forall_forall _ _) Hc).
      rewrite <- (firstn_skipn n l). apply in_or_app. right. exact Ib.
    + apply (IH n); assumption.
Qed.

Lemma firstn_In (A : Type) (n : nat) (l : list A) (x : A) :
  In x (firstn n l) -> In x l.
Proof.
  intros I. rewrite <- (firstn_skipn n l). apply in_or_app. left. exact I.
Qed.

(** ** Shape of the ranked table *)

Lemma COUNTIF_le_COUNT (A : Type) (p : A -> bool) (l : list A) :
  0 <= COUNTIF p l <= COUNT l.
Proof.
  unfold COUNTIF, COUNT. pose proof (filter_length_le p l). lia.
Qed.

Lemma station_summary_counts (hss : list HourlyStationSlot) (s : StationSummary) :
  In s (station_summaries hss) ->
  exists rows,
    rows <> []
    /\ (forall r, In r rows <->
          In r hss /\ summary_where r = true
          /\ hss_station_name r = ss_station_name s
          /\ hss_total_docks r = ss_total_docks s)
    /\ ss_instances_near_capacity s = COUNT rows
    /\ ss_instances_at_capacity s = COUNTIF at_capacity rows.
Proof.
  unfold station_summaries. intros I. apply in_map_iff in I.
  destruct I as ([[name docks] rows] & <- & I).
  destruct (@group_by_rows _ _ _ _ summary_key _ (name, docks) rows I) as [NE Hr].
  exists rows. split; [exact NE|]. split; [|split; reflexivity].
  intros r. rewrite Hr, filter_In. cbn [summary_select ss_station_name ss_total_docks].
  unfold summary_key. split.
  - intros [[Ih W] E]. inversion E. auto.
  - intros (Ih & W & <- & <-). auto.
Qed.

Lemma ranked_row_origin (hss : list HourlyStationSlot) (peaks : list PeakRow)
  (row : FullStationsRow) :
  In row (ranked_stations hss peaks) ->
  exists s, In s (station_summaries hss) /\ In row (left_join_peak peaks s).
Proof.
  unfold ranked_stations, LIMIT. intros I. apply firstn_In in I.
  apply order_by_In in I. apply in_flat_map in I. exact I.
Qed.

(** X3. The ranked table has at most ten rows and is sorted: a row never
    has fewer at-capacity instances than a later row, nor - at equal
    at-capacity counts - fewer near-capacity instances.  In every row the
    near-capacity count is at least 1 and the at-capacity count lies
    between 0 and the near-capacity count. *)
Theorem ranked_table_shape :
  forall (hss : list HourlyStationSlot) (peaks : list PeakRow),
    (List.length (ranked_stations hss peaks) <= 10)%nat
    /\ StronglySorted ranked_no_later (ranked_stations hss peaks)
    /\ forall row, In row (ranked_stations hss peaks) ->
         1 <= fs_instances_near_capacity row
         /\ 0 <= fs_instances_at_capacity row <= fs_instances_near_capacity row.
Proof.
  intros hss peaks. split; [|split].
  - unfold ranked_stations, LIMIT. apply firstn_le_length.
  - unfold ranked_stations, LIMIT. apply StronglySorted_firstn.
    eapply StronglySorted_weaken;
      [|apply (@order_by_sorted _ full_before (fun _ => True))].
    + intros a b _ _ B. apply full_before_false in B. exact B.
    + intros a b _ _. apply full_before_asym.
    + intros a b c _ _ _. apply full_before_negtrans.
    + apply Forall_forall. intros; exact I.
  - intros row I. destruct (ranked_row_origin _ _ _ I) as (s & Is & Ir).
    apply left_join_peak_rows in Ir. destruct Ir as (_ & -> & ->).
    destruct (station_summary_counts _ _ Is) as (rows & NE & _ & -> & ->).
    pose proof (COUNT_pos NE). pose proof (COUNTIF_le_COUNT at_capacity rows). lia.
Qed.

(** ** Peak labels of the ranked table *)

Lemma peak_row_exists_iff (hss : list HourlyStationSlot) (name : string) :
  (exists p, In p (peak_hours hss) /\ p_station_name p = name)
  <-> exists slot, In slot hss /\ peak_where slot = true /\ hss_station_name slot = name.
Proof.
  rewrite peak_hours_names, in_map_iff. split.
  - intros (g & En & Ig). apply peak_groups_In in Ig.
    destruct Ig as (slot & Is & W & ->). exists slot. auto.
  - intros (slot & Is & W & En). eexists. split; [|apply peak_groups_In; eauto].
    exact En.
Qed.

Lemma left_join_peak_cases (peaks : list PeakRow) (s : StationSummary)
  (row : FullStationsRow) :
  In row (left_join_peak peaks s) ->
  (row = full_row s None /\ forall p, In p peaks -> p_station_name p <> ss_station_name s)
  \/ (exists p, In p peaks /\ p_station_name p = ss_station_name s
        /\ row = full_row s (Some p)).
Proof.
  unfold left_join_peak.
  destruct (filter (fun p => String.eqb (ss_station_name s) (p_station_name p)) peaks)
    as [|p0 ms] eqn:Ef.
  - intros [<- | []]. left. split; [reflexivity|].
    intros p I E.
    assert (In p (filter (fun p => String.eqb (ss_station_name s) (p_station_name p)) peaks))
      as X by (apply filter_In; split; [exact I | apply String.eqb_eq; auto]).
    rewrite Ef in X. destruct X.
  - intros I. right. apply in_map_iff in I. destruct I as (p & <- & I).
    rewrite <- Ef in I. apply filter_In in I. destruct I as [I E].
    apply String.eqb_eq in E. exists p. auto.
Qed.

Lemma COUNTIF_pos_exists (A : Type) (p : A -> bool) (l : list A) :
  0 < COUNTIF p l -> exists x, In x l /\ p x = true.
Proof.
  unfold COUNTIF. intros P. destruct (filter p l) as [|x t] eqn:Ef.
  - cbn in P. lia.
  - exists x. apply filter_In. rewrite Ef. left. reflexivity.
Qed.

Lemma get_day_name_of_weekday (day : Z) :
  1 <= day <= 7 -> In (get_day_name day) day_names /\ day_name_of day = Some (get_day_name day).
Proof.
  intros Hd.
  assert (day = 1 \/ day = 2 \/ day = 3 \/ day = 4 \/ day = 5 \/ day = 6 \/ day = 7)
    as C by lia.
  unfold day_names.
  repeat (destruct C as [-> | C]; [cbn; split; [tauto | reflexivity]|]).
  subst. cbn. split; [tauto | reflexivity].
Qed.

(** X4. For every row of the ranked table the column [peak_day_time] shows
    "Unknown" exactly when the station has no hourly slot at 95% or more;
    otherwise it shows one of the seven day names (never the fallback
    "Unknown" of [get_day_name]) and an hour range [h, h+1] with h between
    0 and 23.  A station with at least one at-capacity instance always has
    a peak. *)
Theorem peak_day_time_of_ranked_rows :
  forall (trips : list cycle_hire) (stations : list cycle_stations)
         (start_date end_date : Z) (hss : list HourlyStationSlot),
    hourly_station_status trips stations start_date end_date = Some hss ->
    forall row, In row (ranked_stations hss (peak_hours hss)) ->
      (peak_day_time row = UnknownDayTime <->
       forall slot, In slot hss -> hss_station_name slot = fs_station_name row ->
         peak_where slot = false)
      /\ (forall day h t, peak_day_time row = DayTime day h t ->
            In day day_names /\ 0 <= h <= 23 /\ t = h + 1)
      /\ (0 < fs_instances_at_capacity row -> peak_day_time row <> UnknownDayTime).
Proof.
  intros trips stations sd ed hss E row I.
  destruct (ranked_row_origin _ _ _ I) as (s & Is & Ir).
  assert (forall p, In p (peak_hours hss) ->
            0 <= p_hour p <= 23 /\ 1 <= p_day_of_week p <= 7) as Hrange.
  { intros p Ip. apply peak_hours_qualify in Ip. destruct Ip as [Ip _].
    apply peak_groups_In in Ip. destruct Ip as (slot & Islot & _ & ->).
    cbn [p_hour p_day_of_week].
    destruct (@hourly_slot_fields _ _ _ _ _ _ E Islot)
      as (h & st & rows & _ & _ & _ & _ & _ & _ & ->).
    cbn [hss_hour hss_day_of_week].
    split; [apply EXTRACT_HOUR_range | apply EXTRACT_DAYOFWEEK_range]. }
  assert ((peak_day_time row = UnknownDayTime <->
           forall slot, In slot hss -> hss_station_name slot = fs_station_name row ->
             peak_where slot = false)
          /\ (forall day h t, peak_day_time row = DayTime day h t ->
                In day day_names /\ 0 <= h <= 23 /\ t = h + 1)) as [H1 H2].
  { destruct (left_join_peak_cases _ _ _ Ir) as [[-> Hn] | (p & Ip & En & ->)].
    - split.
      + split; [|reflexivity]. intros _ slot Islot Ename.
        destruct (peak_where slot) eqn:W; [|reflexivity]. exfalso.
        destruct (proj2 (peak_row_exists_iff hss (ss_station_name s))) as (p & Ip & Ep).
        { exists slot. auto. }
        apply (Hn p Ip Ep).
      + intros day h t F. discriminate F.
    - unfold peak_day_time. cbn [full_row fs_peak_hour fs_peak_day_of_week option_map
                                  fs_station_name].
      split.
      + split; [discriminate|]. intros Hno. exfalso.
        destruct (proj1 (peak_row_exists_iff hss (ss_station_name s)))
          as (slot & Islot & W & Ename).
        { exists p. auto. }
        rewrite (Hno slot Islot Ename) in W. discriminate.
      + intros day h t F. inversion F; subst.
        destruct (Hrange p Ip) as [Hh Hd].
        split; [apply get_day_name_of_weekday, Hd|]. split; [exact Hh | reflexivity]. }
  split; [exact H1|]. split; [exact H2|].
  intros Pat U0. pose proof (proj1 H1 U0) as U.
  pose proof (left_join_peak_rows _ _ _ Ir) as (En & Eat & _).
  destruct (station_summary_counts _ _ Is) as (rows & _ & Hr & _ & Ec).
  rewrite Eat, Ec in Pat. apply COUNTIF_pos_exists in Pat.
  destruct Pat as (slot & Islot & A).
  apply Hr in Islot. destruct Islot as (Ih & _ & Ename & _).
  assert (peak_where slot = true) as W.
  { unfold peak_where. unfold at_capacity in A. apply Qle_bool_iff.
    apply Qle_bool_iff in A. eapply Qle_trans; [|exact A]. discriminate. }
  rewrite (U slot Ih) in W; [discriminate|]. congruence.
Qed.

Lemma peak_day_time_of_ranked_rows_witness :
  hourly_station_status capacity_trips capacity_stations
    day_2016_01_01 day_2016_01_02 = Some capacity_slots
  /\ map peak_day_time (ranked_stations capacity_slots (peak_hours capacity_slots))
     = [DayTime "Friday" 8 9]
  /\ forall row, In row (ranked_stations capacity_slots (peak_hours capacity_slots)) ->
       0 < fs_instances_at_capacity row -> peak_day_time row <> UnknownDayTime.
Proof.
  assert (hourly_station_status capacity_trips capacity_stations
            day_2016_01_01 day_2016_01_02 = Some capacity_slots) as E
    by (vm_compute; reflexivity).
  split; [exact E|]. split; [vm_compute; reflexivity|].
  intros row I. apply (@peak_day_time_of_ranked_rows _ _ _ _ _ E row I).
Defined.

(** ** Rows of the flow analyzer *)

(** X5. Every row of the CTE [station_flows] belongs to a station with
    docks, has non-negative counts and net flow = inflows - outflows.  The
    first half of the significance filter is therefore implied by the
    second: a row passes exactly when |net flow| > 20.  A reported row is
    never labelled Balanced and its [imbalance_pct] is never null. *)
Theorem significance_filter_is_the_threshold :
  forall (trips : list cycle_hire) (stations : list cycle_stations)
         (start_date end_date : Z) (f : StationFlow),
    In f (station_flows trips stations start_date end_date) ->
    0 < sf_total_docks f
    /\ 0 <= sf_outflows f /\ 0 <= sf_inflows f
    /\ sf_net_flow f = sf_inflows f - sf_outflows f
    /\ significant f = (20 <? Z.abs (sf_net_flow f))
    /\ (significant f = true ->
        c_station_type (station_flow_row f) <> Some Balanced
        /\ c_imbalance_pct (station_flow_row f)
           = Some (inject_Z (sf_net_flow f) / inject_Z (sf_total_docks f) * 100)%Q).
Proof.
  intros trips stations sd ed f I. unfold station_flows in I.
  apply in_map_iff in I. destruct I as ([[[id name] docks] rows] & <- & I).
  destruct (@group_by_rows _ _ _ _ flows_key _ (id, name, docks) rows I) as [NE Hr].
  assert (0 < docks) as D.
  { destruct rows as [|r rows]; [contradiction|].
    destruct (proj1 (Hr r) (or_introl eq_refl)) as [Ir Ek].
    apply filter_In in Ir. destruct Ir as [_ W].
    unfold flows_where in W. apply Z.ltb_lt in W.
    unfold flows_key in Ek. inversion Ek; subst. exact W. }
  pose proof (COUNTIF_le_COUNT is_outflow rows) as Ho.
  pose proof (COUNTIF_le_COUNT is_inflow rows) as Hi.
  change (flows_select (id, name, docks, rows))
    with (mk_flow id name docks (COUNTIF is_outflow rows) (COUNTIF is_inflow rows)
            (COUNTIF is_inflow rows - COUNTIF is_outflow rows)).
  destruct Ho as [Ho _]. destruct Hi as [Hi _].
  generalize dependent (COUNTIF is_outflow rows). intros o Ho.
  generalize dependent (COUNTIF is_inflow rows). intros i Hi.
  unfold significant, station_flow_row, station_type, imbalance_pct_of.
  cbn [sf_total_docks sf_outflows sf_inflows sf_net_flow c_station_type c_imbalance_pct].
  split; [exact D|]. split; [exact Ho|]. split; [exact Hi|]. split; [reflexivity|].
  assert (((0 <? o) || (0 <? i)) && (20 <? Z.abs (i - o)) = (20 <? Z.abs (i - o))) as Es.
  { destruct (20 <? Z.abs (i - o)) eqn:T.
    - rewrite andb_true_r. apply Z.ltb_lt in T.
      apply orb_true_iff. rewrite !Z.ltb_lt. lia.
    - apply andb_false_r. }
  split; [exact Es|]. rewrite Es. intros T. apply Z.ltb_lt in T.
  split.
  - destruct (0 <? i - o) eqn:P; [discriminate|].
    destruct (i - o <? 0) eqn:N; [discriminate|].
    apply Z.ltb_ge in P, N. lia.
  - destruct (docks =? 0) eqn:Z0; [|reflexivity].
    apply Z.eqb_eq in Z0. lia.
Qed.

Lemma significance_filter_is_the_threshold_witness :
  In (mk_flow 1 "S1" 20 30 0 (-30))
     (station_flows imbalance_trips imbalance_stations day_2016_01_01 day_2016_01_02)
  /\ significant (mk_flow 1 "S1" 20 30 0 (-30)) = true.
Proof.
  assert (In (mk_flow 1 "S1" 20 30 0 (-30))
             (station_flows imbalance_trips imbalance_stations
                day_2016_01_01 day_2016_01_02)) as I
    by (vm_compute; auto).
  split; [exact I|].
  destruct (@significance_filter_is_the_threshold _ _ _ _ _ I) as (_ & _ & _ & _ & Es & _).
  rewrite Es. reflexivity.
Defined.

(** ** Region 3 and the binding of region 2 *)

Lemma imbalance_metrics_bound (station_flows_df : list CombinedRow) (n : Z) :
  n <> 0 -> exists m, imbalance_metrics station_flows_df (Some n) = Ret m.
Proof.
  intros N. unfold imbalance_metrics.
  destruct (0 <? cell_sum (map c_outflows station_flows_df)) eqn:T.
  - apply Z.ltb_lt in T. rewrite truediv_nonzero by lia.
    cbn [py_bind read_intervals_in_period]. rewrite truediv_nonzero by exact N.
    cbn [py_bind]. eexists. reflexivity.
  - cbn [py_bind read_intervals_in_period]. rewrite truediv_nonzero by exact N.
    cbn [py_bind]. eexists. reflexivity.
Qed.

Lemma imbalance_metrics_unbound (station_flows_df : list CombinedRow) :
  imbalance_metrics station_flows_df None
  = Raise (NameError "name 'intervals_in_period' is not defined").
Proof.
  unfold imbalance_metrics.
  destruct (0 <? cell_sum (map c_outflows station_flows_df)) eqn:T.
  - apply Z.ltb_lt in T. rewrite truediv_nonzero by lia. reflexivity.
  - reflexivity.
Qed.

(** X6. Region 3 reads [intervals_in_period], which only the non-empty
    branch of region 2 binds.  It raises [NameError] exactly when the ranked
    table is empty while the combined result has a station-flow row; in
    every other case it completes. *)
Theorem region3_name_error_iff :
  forall (full_stations_df : DataFrame FullStationsRow)
         (combined_data : DataFrame CombinedRow)
         (start_date end_date : Z) (iv : Interval),
    (system_insights combined_data
       (intervals_binding full_stations_df start_date end_date iv)
     = Raise (NameError "name 'intervals_in_period' is not defined")
     <-> df_empty full_stations_df = true
         /\ df_empty combined_data = false
         /\ filter is_station_flows (records combined_data) <> [])
    /\ (~ (df_empty full_stations_df = true
           /\ df_empty combined_data = false
           /\ filter is_station_flows (records combined_data) <> []) ->
        exists v, system_insights combined_data
                    (intervals_binding full_stations_df start_date end_date iv)
                  = Ret v).
Proof.
  intros full combined sd ed iv.
  unfold system_insights, intervals_binding.
  destruct (df_empty combined) eqn:Ec; cbn [negb].
  - split.
    + split; [discriminate|]. intros (_ & F & _). discriminate.
    + intros _. eexists. reflexivity.
  - destruct (filter is_station_flows (records combined)) as [|r rs] eqn:Ef.
    + cbn [py_bind]. split.
      * split; [discriminate|]. intros (_ & _ & F). contradiction.
      * intros _. eexists. reflexivity.
    + destruct (df_empty full) eqn:Em; cbn [negb].
      * rewrite imbalance_metrics_unbound. cbn [py_bind]. split.
        -- split; [|reflexivity]. intros _. repeat split. discriminate.
        -- intros N. exfalso. apply N. repeat split. discriminate.
      * pose proof (intervals_in_period_pos sd ed iv) as P.
        destruct (@imbalance_metrics_bound (r :: rs) (intervals_in_period sd ed iv))
          as (m & Em'); [lia|].
        rewrite Em'. cbn [py_bind]. split.
        -- split.
           ++ destruct (filter is_peak_times (records combined)) as [|q qs].
              ** discriminate.
              ** destruct (station_label_total "generator stations" (m_generators m))
                   as (g & ->).
                 destruct (station_label_total "accumulator stations" (m_accumulators m))
                   as (a & ->).
                 discriminate.
           ++ intros (F & _). discriminate.
        -- intros _.
           destruct (filter is_peak_times (records combined)) as [|q qs].
           ++ eexists. reflexivity.
           ++ destruct (station_label_total "generator stations" (m_generators m))
                as (g & ->).
              destruct (station_label_total "accumulator stations" (m_accumulators m))
                as (a & ->).
              eexists. reflexivity.
Qed.

(** ** The stations named in the insights *)

Lemma StronglySorted_head (A : Type) (le : A -> A -> Prop) (a : A) (l : list A) :
  (forall x, le x x) -> StronglySorted le (a :: l) -> forall b, In b (a :: l) -> le a b.
Proof.
  intros Hrefl Sl b [<- | I]; [apply Hrefl|].
  inversion Sl as [|? ? _ Ha]; subst. apply (proj1 (Forall_forall _ _) Ha), I.
Qed.

Lemma order_by_cells_head (cmp : Z -> Z -> bool) (rows : list CombinedRow) :
  (forall x y, cmp x y = true -> cmp y x = false) ->
  (forall x y z, cmp x y = false -> cmp y z = false -> cmp x z = false) ->
  Forall (fun r => exists v, c_net_flow r = Some v) rows ->
  forall g rest,
    order_by (fun a b => net_flow_is (fun x => net_flow_is (fun y => cmp x y) b) a) rows
    = g :: rest ->
    In g rows
    /\ forall r vg vr, In r rows -> c_net_flow g = Some vg -> c_net_flow r = Some vr ->
         cmp vr vg = false.
Proof.
  intros Hasym Hneg Hcells g rest Eo.
  set (before := fun a b => net_flow_is (fun x => net_flow_is (fun y => cmp x y) b) a) in *.
  assert (In g rows) as Ig.
  { apply (order_by_In before). rewrite Eo. left. reflexivity. }
  split; [exact Ig|]. intros r vg vr Ir Eg Er.
  assert (StronglySorted (fun a b => before b a = false) (order_by before rows)) as Sl.
  { apply (@order_by_sorted _ before (fun r => exists v, c_net_flow r = Some v));
      [ | | exact Hcells].
    - intros a b [va Ea] [vb Eb]. unfold before, net_flow_is. rewrite Ea, Eb.
      apply Hasym.
    - intros a b c [va Ea] [vb Eb] [vc Ec]. unfold before, net_flow_is.
      rewrite Ea, Eb, Ec. apply Hneg. }
  rewrite Eo in Sl.
  assert (before r g = false) as B.
  { pose proof (proj2 (order_by_In before r rows) Ir) as I'. rewrite Eo in I'.
    destruct I' as [<- | I'].
    - unfold before, net_flow_is. rewrite Er.
      destruct (cmp vr vr) eqn:C; [|reflexivity].
      rewrite (Hasym _ _ C) in C. discriminate.
    - inversion Sl as [|? ? _ Ha]; subst.
      apply (proj1 (Forall_forall _ _) Ha), I'. }
  unfold before, net_flow_is in B. rewrite Er, Eg in B. exact B.
Qed.

(** X7. The station named as the one that "needs bikes" is a reported
    station whose net flow is negative and is the lowest of all reported
    rows; the one named as having "excess bikes" has the highest, positive
    net flow.  The placeholder text is used exactly when no reported row
    has a negative (respectively positive) net flow. *)
Theorem named_stations_are_extremes :
  forall (station_flows_df : list CombinedRow) (binding : option Z) (m : ImbalanceMetrics),
    imbalance_metrics station_flows_df binding = Ret m ->
    (forall g rest, m_generators m = g :: rest ->
       station_label "generator stations" (m_generators m) = Ret (c_name g)
       /\ In g station_flows_df
       /\ exists low, c_net_flow g = Some low /\ low < 0
            /\ forall r v, In r station_flows_df -> c_net_flow r = Some v -> low <= v)
    /\ (m_generators m = [] <->
        forall r v, In r station_flows_df -> c_net_flow r = Some v -> 0 <= v)
    /\ (forall a rest, m_accumulators m = a :: rest ->
          station_label "accumulator stations" (m_accumulators m) = Ret (c_name a)
          /\ In a station_flows_df
          /\ exists high, c_net_flow a = Some high /\ 0 < high
               /\ forall r v, In r station_flows_df -> c_net_flow r = Some v -> v <= high)
    /\ (m_accumulators m = [] <->
        forall r v, In r station_flows_df -> c_net_flow r = Some v -> v <= 0).
Proof.
  intros df binding m E.
  destruct (imbalance_metrics_fields _ _ E) as (_ & _ & Eg & Ea).
  assert (forall test : Z -> bool,
            Forall (fun r => exists v, c_net_flow r = Some v)
                   (filter (net_flow_is test) df)) as Hcells.
  { intros test. apply Forall_forall. intros r I. apply filter_In in I.
    destruct I as [_ T]. unfold net_flow_is in T.
    destruct (c_net_flow r) as [v|]; [eauto | discriminate]. }
  assert (forall (test : Z -> bool) r,
            In r (filter (net_flow_is test) df) <->
            In r df /\ exists v, c_net_flow r = Some v /\ test v = true) as Hin.
  { intros test r. rewrite filter_In. unfold net_flow_is. split.
    - intros [I T]. split; [exact I|].
      destruct (c_net_flow r) as [v|]; [eauto | discriminate].
    - intros [I (v & Ev & T)]. rewrite Ev. auto. }
  split; [|split; [|split]].
  - intros g rest Em. rewrite Em. split; [reflexivity|].
    rewrite Eg in Em.
    destruct (@order_by_cells_head Z.ltb _
                ltac:(intros x y; rewrite Z.ltb_lt, Z.ltb_ge; lia)
                ltac:(intros x y z; rewrite !Z.ltb_ge; lia)
                (Hcells _) g rest Em) as [Ig Hmin].
    apply Hin in Ig. destruct Ig as [Ig (low & El & Tl)]. apply Z.ltb_lt in Tl.
    split; [exact Ig|]. exists low. split; [exact El|]. split; [exact Tl|].
    intros r v Ir Ev. destruct (Z.lt_ge_cases v 0) as [Neg | Pos]; [|lia].
    assert (In r (filter (net_flow_is (fun n => n <? 0)) df)) as Ir'.
    { apply Hin. split; [exact Ir|]. exists v. split; [exact Ev|]. apply Z.ltb_lt, Neg. }
    pose proof (Hmin r low v Ir' El Ev) as B. apply Z.ltb_ge in B. exact B.
  - rewrite Eg. split.
    + intros En r v Ir Ev. apply order_by_nil in En.
      destruct (Z.lt_ge_cases v 0) as [Neg | Pos]; [|exact Pos]. exfalso.
      assert (In r (filter (net_flow_is (fun n => n <? 0)) df)) as Ir'.
      { apply Hin. split; [exact Ir|]. exists v. split; [exact Ev|]. apply Z.ltb_lt, Neg. }
      rewrite En in Ir'. destruct Ir'.
    + intros Hall.
      destruct (order_by _ (filter (net_flow_is (fun n => n <? 0)) df)) as [|g rest] eqn:Eo;
        [reflexivity|]. exfalso.
      assert (In g (filter (net_flow_is (fun n => n <? 0)) df)) as Ig.
      { eapply order_by_In. rewrite Eo. left. reflexivity. }
      apply Hin in Ig. destruct Ig as [Ig (v & Ev & T)]. apply Z.ltb_lt in T.
      pose proof (Hall g v Ig Ev). lia.
  - intros a rest Em. rewrite Em. split; [reflexivity|].
    rewrite Ea in Em.
    destruct (@order_by_cells_head (fun x y => y <? x) _
                ltac:(intros x y; rewrite Z.ltb_lt, Z.ltb_ge; lia)
                ltac:(intros x y z; rewrite !Z.ltb_ge; lia)
                (Hcells _) a rest Em) as [Ia Hmax].
    apply Hin in Ia. destruct Ia as [Ia (high & Eh & Th)]. apply Z.ltb_lt in Th.
    split; [exact Ia|]. exists high. split; [exact Eh|]. split; [exact Th|].
    intros r v Ir Ev. destruct (Z.lt_ge_cases 0 v) as [Pos | Neg]; [|lia].
    assert (In r (filter (net_flow_is (fun n => 0 <? n)) df)) as Ir'.
    { apply Hin. split; [exact Ir|]. exists v. split; [exact Ev|]. apply Z.ltb_lt, Pos. }
    pose proof (Hmax r high v Ir' Eh Ev) as B. cbv beta in B.
    apply Z.ltb_ge in B. exact B.
  - rewrite Ea. split.
    + intros En r v Ir Ev. apply order_by_nil in En.
      destruct (Z.lt_ge_cases 0 v) as [Pos | Neg]; [|exact Neg]. exfalso.
      assert (In r (filter (net_flow_is (fun n => 0 <? n)) df)) as Ir'.
      { apply Hin. split; [exact Ir|]. exists v. split; [exact Ev|]. apply Z.ltb_lt, Pos. }
      rewrite En in Ir'. destruct Ir'.
    + intros Hall.
      destruct (order_by _ (filter (net_flow_is (fun n => 0 <? n)) df)) as [|a rest] eqn:Eo;
        [reflexivity|]. exfalso.
      assert (In a (filter (net_flow_is (fun n => 0 <? n)) df)) as Ia.
      { eapply order_by_In. rewrite Eo. left. reflexivity. }
      apply Hin in Ia. destruct Ia as [Ia (v & Ev & T)]. apply Z.ltb_lt in T.
      pose proof (Hall a v Ia Ev). lia.
Qed.

Lemma named_stations_are_extremes_witness :
  exists m,
    imbalance_metrics
      (station_flows_df_of imbalance_trips imbalance_stations
         day_2016_01_01 day_2016_01_02) (Some 1) = Ret m
    /\ station_label "generator stations" (m_generators m) = Ret "S1"%string.
Proof.
  destruct (@imbalance_metrics_bound
              (station_flows_df_of imbalance_trips imbalance_stations
                 day_2016_01_01 day_2016_01_02) 1 ltac:(discriminate)) as (m & E).
  exists m. split; [exact E|].
  destruct (@named_stations_are_extremes _ _ _ E) as (Hg & _).
  destruct (imbalance_metrics_fields _ _ E) as (_ & _ & Eg & _).
  vm_compute in Eg. destruct (Hg _ _ Eg) as [L _]. exact L.
Defined.

(** ** The peak hours of one station *)

Lemma Qlt_bool_true (x y : Q) : Qlt_bool x y = true -> (x <= y)%Q.
Proof.
  unfold Qlt_bool. rewrite negb_true_iff. intros F.
  destruct (Qlt_le_dec x y) as [L | L]; [apply Qlt_le_weak, L|].
  apply Qle_bool_iff in L. congruence.
Qed.

Lemma Qlt_bool_false (x y : Q) : Qlt_bool x y = false -> (y <= x)%Q.
Proof.
  unfold Qlt_bool. rewrite negb_false_iff. apply Qle_bool_iff.
Qed.

(** The running maximum of [idxmax]. *)
Lemma argmax_fold (rest : list (nat * Q)) (best : nat * Q) :
  let step := fun (b c : nat * Q) => if Qlt_bool (snd b) (snd c) then c else b in
  (fold_left step rest best = best \/ In (fold_left step rest best) rest)
  /\ (snd best <= snd (fold_left step rest best))%Q
  /\ forall x, In x rest -> (snd x <= snd (fold_left step rest best))%Q.
Proof.
  cbv zeta. revert best. induction rest as [|c rest IH]; intros best.
  - cbn. split; [left; reflexivity|]. split; [apply Qle_refl|]. intros x [].
  - cbn [fold_left].
    destruct (IH (if Qlt_bool (snd best) (snd c) then c else best)) as (Hin & Hle & Hall).
    destruct (Qlt_bool (snd best) (snd c)) eqn:B.
    + apply Qlt_bool_true in B. split; [|split].
      * destruct Hin as [-> | Hin]; right; [left; reflexivity | right; exact Hin].
      * eapply Qle_trans; eassumption.
      * intros x [<- | I]; [exact Hle | apply Hall, I].
    + apply Qlt_bool_false in B. split; [|split].
      * destruct Hin as [-> | Hin]; [left; reflexivity | right; right; exact Hin].
      * exact Hle.
      * intros x [<- | I]; [eapply Qle_trans; eassumption | apply Hall, I].
Qed.

Lemma idxmax_nonempty (c : nat * Q) (rest : list (nat * Q)) :
  exists best, In best (c :: rest)
    /\ idxmax (c :: rest) = Ret (fst best)
    /\ forall x, In x (c :: rest) -> (snd x <= snd best)%Q.
Proof.
  destruct (argmax_fold rest c) as (Hin & Hle & Hall).
  eexists. split; [|split; [reflexivity|]].
  - destruct Hin as [-> | Hin]; [left; reflexivity | right; exact Hin].
  - intros x [<- | I]; [exact Hle | apply Hall, I].
Qed.

Lemma loc_unique_label (R : Type) (frame : list (nat * R)) (c : nat * R) :
  NoDup (map fst frame) -> In c frame -> loc frame (fst c) = Ret (snd c).
Proof.
  unfold loc. induction frame as [|d frame IH]; intros ND I; [destruct I|].
  cbn [map] in ND. inversion ND as [|? ? N ND']; subst.
  cbn [find]. destruct I as [-> | I].
  - rewrite Nat.eqb_refl. reflexivity.
  - destruct (Nat.eqb (fst d) (fst c)) eqn:E.
    + apply Nat.eqb_eq in E. exfalso. apply N. rewrite E. apply in_map, I.
    + apply IH; assumption.
Qed.

Lemma with_index_labels (R : Type) (rows : list R) :
  NoDup (map fst (with_index rows)).
Proof.
  unfold with_index.
  assert (forall start, map fst (combine (seq start (List.length rows)) rows)
                        = seq start (List.length rows)) as E.
  { induction rows as [|r rows IH]; intros start; [reflexivity|].
    cbn [List.length seq combine map fst]. rewrite IH. reflexivity. }
  rewrite E. apply seq_NoDup.
Qed.

Lemma with_index_rows (R : Type) (rows : list R) (r : R) :
  In r rows <-> exists i, In (i, r) (with_index rows).
Proof.
  unfold with_index. split.
  - generalize 0%nat as start. induction rows as [|x rows IH]; intros start I;
      [destruct I|].
    cbn [List.length seq combine]. destruct I as [-> | I].
    + exists start. left. reflexivity.
    + destruct (IH (S start) I) as (i & Ii). exists i. right. exact Ii.
  - intros (i & I). apply in_combine_r in I. exact I.
Qed.

(** The label [idxmax] returns on a frame cut out by a mask, and the row
    [loc] then fetches. *)
Lemma peak_of_frame (rows : list HourlyCapacityRow) (keep : HourlyCapacityRow -> bool)
  (c0 : nat * HourlyCapacityRow) (rest : list (nat * HourlyCapacityRow)) :
  filter (fun c => keep (snd c)) (with_index rows) = c0 :: rest ->
  exists best label,
    In best rows /\ keep best = true
    /\ (forall c, In c rows -> keep c = true ->
          (hc_avg_utilisation_pct c <= hc_avg_utilisation_pct best)%Q)
    /\ idxmax (map (fun c => (fst c, hc_avg_utilisation_pct (snd c))) (c0 :: rest))
       = Ret label
    /\ loc (c0 :: rest) label = Ret best.
Proof.
  intros Ef.
  destruct (idxmax_nonempty (fst c0, hc_avg_utilisation_pct (snd c0))
              (map (fun c => (fst c, hc_avg_utilisation_pct (snd c))) rest))
    as (b & Ib & Eb & Hmax).
  change ((fst c0, hc_avg_utilisation_pct (snd c0))
          :: map (fun c => (fst c, hc_avg_utilisation_pct (snd c))) rest)
    with (map (fun c => (fst c, hc_avg_utilisation_pct (snd c))) (c0 :: rest)) in *.
  apply in_map_iff in Ib. destruct Ib as (cb & <- & Icb).
  cbn [fst snd] in *.
  assert (forall c, In c (c0 :: rest) <-> In c (with_index rows) /\ keep (snd c) = true)
    as Hin.
  { intros c. rewrite <- Ef, filter_In. reflexivity. }
  exists (snd cb), (fst cb). split; [|split; [|split; [|split]]].
  - apply with_index_rows. exists (fst cb). rewrite <- surjective_pairing.
    apply Hin, Icb.
  - apply Hin, Icb.
  - intros c Ic Kc. apply with_index_rows in Ic. destruct Ic as (i & Ii).
    assert (In (i, c) (c0 :: rest)) as I' by (apply Hin; auto).
    apply (Hmax (i, hc_avg_utilisation_pct c)).
    apply (in_map (fun c => (fst c, hc_avg_utilisation_pct (snd c))) _ (i, c)), I'.
  - exact Eb.
  - apply loc_unique_label; [|exact Icb].
    rewrite <- Ef. apply NoDup_map_filter, with_index_labels.
Qed.

(** X8. With a non-empty hourly table the station insights complete exactly
    when the table has a weekday row and a weekend row; otherwise the only
    failure is the [ValueError] of [idxmax] on an empty frame.  When they
    complete, the weekday (weekend) peak hour is a weekday (weekend) row
    whose average utilisation no other weekday (weekend) row exceeds, and
    the two headline counts are the column sums. *)
Theorem station_insights_need_both_day_types :
  forall (hourly_capacity_df : DataFrame HourlyCapacityRow) (intervals : Z),
    intervals <> 0 ->
    df_empty hourly_capacity_df = false ->
    (station_insights hourly_capacity_df intervals
     = Raise (ValueError "attempt to get argmax of an empty sequence")
     <-> (forall c, In c (records hourly_capacity_df) ->
            is_weekend (hc_day_name c) = true)
         \/ (forall c, In c (records hourly_capacity_df) ->
               is_weekend (hc_day_name c) = false))
    /\ (forall e, station_insights hourly_capacity_df intervals = Raise e ->
          e = ValueError "attempt to get argmax of an empty sequence")
    /\ (forall v, station_insights hourly_capacity_df intervals = Ret v ->
          exists ins, v = Some ins
            /\ In (peak_hour_weekday ins) (records hourly_capacity_df)
            /\ is_weekend (hc_day_name (peak_hour_weekday ins)) = false
            /\ (forall c, In c (records hourly_capacity_df) ->
                  is_weekend (hc_day_name c) = false ->
                  (hc_avg_utilisation_pct c
                   <= hc_avg_utilisation_pct (peak_hour_weekday ins))%Q)
            /\ In (peak_hour_weekend ins) (records hourly_capacity_df)
            /\ is_weekend (hc_day_name (peak_hour_weekend ins)) = true
            /\ (forall c, In c (records hourly_capacity_df) ->
                  is_weekend (hc_day_name c) = true ->
                  (hc_avg_utilisation_pct c
                   <= hc_avg_utilisation_pct (peak_hour_weekend ins))%Q)
            /\ avg_near_capacity ins
               = Zsum (map hc_near_capacity_count (records hourly_capacity_df))
            /\ avg_at_capacity ins
               = Zsum (map hc_at_capacity_count (records hourly_capacity_df))).
Proof.
  intros df n N Em. unfold station_insights. rewrite Em. cbn [negb].
  rewrite !truediv_nonzero by exact N. cbn [py_bind].
  set (rows := records df).
  assert (forall (keep : HourlyCapacityRow -> bool),
            filter (fun c => keep (snd c)) (with_index rows) = [] ->
            forall c, In c rows -> keep c = false) as Hnone.
  { intros keep Ef c Ic. destruct (keep c) eqn:K; [|reflexivity]. exfalso.
    apply with_index_rows in Ic. destruct Ic as (i & Ii).
    assert (In (i, c) (filter (fun c => keep (snd c)) (with_index rows))) as X
      by (apply filter_In; auto).
    rewrite Ef in X. destruct X. }
  destruct (filter (fun c => negb (is_weekend (hc_day_name (snd c)))) (with_index rows))
    as [|cw wrest] eqn:Ewd.
  - cbn [map idxmax py_bind].
    pose proof (Hnone (fun c => negb (is_weekend (hc_day_name c))) Ewd) as Hall.
    split; [|split].
    + split; [|reflexivity]. intros _. left. intros c Ic.
      apply negb_false_iff, Hall, Ic.
    + intros e E. inversion E. reflexivity.
    + intros v E. discriminate E.
  - destruct (peak_of_frame rows (fun c => negb (is_weekend (hc_day_name c))) Ewd)
      as (bw & lw & Ibw & Kbw & Hbw & -> & Elw).
    cbn [py_bind]. rewrite Elw. cbn [py_bind]. apply negb_true_iff in Kbw.
    destruct (filter (fun c => is_weekend (hc_day_name (snd c))) (with_index rows))
      as [|ce erest] eqn:Ewe.
    + cbn [map idxmax py_bind].
      pose proof (Hnone (fun c => is_weekend (hc_day_name c)) Ewe) as Hall.
      split; [|split].
      * split; [|reflexivity]. intros _. right. exact Hall.
      * intros e E. inversion E. reflexivity.
      * intros v E. discriminate E.
    + destruct (peak_of_frame rows (fun c => is_weekend (hc_day_name c)) Ewe)
        as (be & le & Ibe & Kbe & Hbe & -> & Ele).
      cbn [py_bind]. rewrite Ele. cbn [py_bind]. split; [|split].
      * split; [discriminate|]. intros [Hall | Hall].
        -- rewrite (Hall bw Ibw) in Kbw. discriminate.
        -- rewrite (Hall be Ibe) in Kbe. discriminate.
      * intros e E. discriminate E.
      * intros v E. inversion E. eexists. split; [reflexivity|].
        cbn [peak_hour_weekday peak_hour_weekend avg_near_capacity avg_at_capacity].
        split; [exact Ibw|]. split; [exact Kbw|]. split.
        { intros c Ic Kc. apply Hbw; [exact Ic|]. rewrite Kc. reflexivity. }
        split; [exact Ibe|]. split; [exact Kbe|]. split; [exact Hbe|].
        split; reflexivity.
Qed.

Lemma station_insights_need_both_day_types_witness :
  intervals_in_period day_2016_01_02 day_2016_01_04 Weekly <> 0
  /\ df_empty (mkDataFrame hourly_capacity_columns
                 (hourly_capacity_query weekend_trips capacity_stations
                    day_2016_01_02 day_2016_01_04 "S1")) = false
  /\ forall e,
       station_insights
         (mkDataFrame hourly_capacity_columns
            (hourly_capacity_query weekend_trips capacity_stations
               day_2016_01_02 day_2016_01_04 "S1"))
         (intervals_in_period day_2016_01_02 day_2016_01_04 Weekly) = Raise e ->
       e = ValueError "attempt to get argmax of an empty sequence".
Proof.
  assert (intervals_in_period day_2016_01_02 day_2016_01_04 Weekly <> 0) as N
    by (vm_compute; discriminate).
  assert (df_empty (mkDataFrame hourly_capacity_columns
                      (hourly_capacity_query weekend_trips capacity_stations
                         day_2016_01_02 day_2016_01_04 "S1")) = false) as Em
    by (vm_compute; reflexivity).
  split; [exact N|]. split; [exact Em|].
  apply (@station_insights_need_both_day_types _ _ N Em).
Defined.

(** ** Groups partition their rows *)

Section GroupCount.
Variables R K : Type.
Context `{SqlKeyOk K}.
Variable key : R -> K.

Lemma one_key_counts (ks : list K) (x : K) :
  NoDup ks -> In x ks ->
  Zsum (map (fun k => if key_eqb x k then 1 else 0) ks) = 1.
Proof.
  induction ks as [|k ks IH]; intros ND I; [destruct I|].
  inversion ND as [|? ? N ND']; subst.
  cbn [map Zsum fold_right].
  fold (Zsum (map (fun k => if key_eqb x k then 1 else 0) ks)).
  destruct I as [-> | I].
  - assert (Zsum (map (fun k0 => if key_eqb x k0 then 1 else 0) ks) = 0) as ->.
    { apply Zsum_map_zero. intros k0 I.
      rewrite (@key_eqb_neq K _ _ x k0); [reflexivity|]. intros ->. contradiction. }
    rewrite (@key_eqb_refl K _ _ x). reflexivity.
  - rewrite IH by assumption.
    rewrite (@key_eqb_neq K _ _ x k); [reflexivity|]. intros ->. contradiction.
Qed.

Lemma count_over_keys (rows : list R) (ks : list K) (p : R -> bool) :
  NoDup ks -> (forall r, In r rows -> In (key r) ks) ->
  Zsum (map (fun k => COUNT (filter (fun r => key_eqb (key r) k && p r) rows)) ks)
  = COUNT (filter p rows).
Proof.
  intros ND. induction rows as [|r t IH]; intros Hk.
  - cbn [filter]. apply Zsum_map_zero. reflexivity.
  - rewrite (map_ext _ (fun k => (if p r then (if key_eqb (key r) k then 1 else 0) else 0)
                            + COUNT (filter (fun r => key_eqb (key r) k && p r) t))).
    + rewrite Zsum_map_add, IH by (intros r' I; apply Hk; right; exact I).
      cbn [filter]. destruct (p r).
      * rewrite one_key_counts, COUNT_cons; [reflexivity | exact ND|].
        apply Hk. left. reflexivity.
      * rewrite Zsum_map_zero by reflexivity. reflexivity.
    + intros k. cbn [filter]. destruct (key_eqb (key r) k), (p r); cbn [andb];
        rewrite ?COUNT_cons; reflexivity.
Qed.

(** The conditional counts of the groups add up to the conditional count of
    the grouped rows. *)
Lemma group_by_countif_sum (rows : list R) (p : R -> bool) :
  Zsum (map (fun g => COUNTIF p (snd g)) (group_by key rows)) = COUNTIF p rows.
Proof.
  unfold group_by, COUNTIF. rewrite map_map. cbn [snd].
  rewrite (map_ext _ (fun k => COUNT (filter (fun r => key_eqb (key r) k && p r) rows)))
    by (intros k; rewrite filter_filter_andb; reflexivity).
  apply count_over_keys.
  - exact (@distinct_NoDup K _ _ (map key rows)).
  - intros r I. apply (proj2 (@distinct_In K _ _ (map key rows) (key r))), in_map, I.
Qed.

Lemma group_by_count_sum (rows : list R) :
  Zsum (map (fun g => COUNT (snd g)) (group_by key rows)) = COUNT rows.
Proof.
  transitivity (Zsum (map (fun g => COUNTIF (fun _ => true) (snd g)) (group_by key rows))).
  - f_equal. apply map_ext. intros g. unfold COUNTIF.
    rewrite filter_true by reflexivity. reflexivity.
  - rewrite group_by_countif_sum. unfold COUNTIF.
    rewrite filter_true by reflexivity. reflexivity.
Qed.
End GroupCount.

(** ** Critical times *)

Lemma peak_times_df_rows (trips : list cycle_hire) (stations : list cycle_stations)
  (start_date end_date : Z) :
  peak_times_df_of trips stations start_date end_date
  = map peak_time_row (peak_times trips start_date end_date).
Proof.
  unfold peak_times_df_of, combined_analysis_query.
  rewrite filter_app, filter_true, filter_false; [apply app_nil_r | | ].
  - intros r I. apply in_map_iff in I. destruct I as (f & <- & _). reflexivity.
  - intros r I. apply in_map_iff in I. destruct I as (f & <- & _). reflexivity.
Qed.

Lemma hour_in_day (hour : Z) :
  0 <= hour <= 23 -> In hour (map Z.of_nat (seq 0 24)).
Proof.
  intros Hh. apply in_map_iff. exists (Z.to_nat hour). split; [lia|].
  apply in_seq. lia.
Qed.

(** X9. The hourly arrival profile partitions the trips that end in the
    window: the arrival counts of its rows add up to the number of those
    trips.  It has one row per (hour, day type), with the hour between 0
    and 23 and the day type 'Weekend' or 'Weekday', hence at most 48 rows,
    and no row has a zero count. *)
Theorem peak_times_partition :
  forall (trips : list cycle_hire) (start_date end_date : Z),
    Zsum (map pt_arrivals (peak_times trips start_date end_date))
    = COUNT (filter (ends_in_window start_date end_date) trips)
    /\ NoDup (map (fun r => (pt_hour_of_day r, pt_day_type r))
                  (peak_times trips start_date end_date))
    /\ (List.length (peak_times trips start_date end_date) <= 48)%nat
    /\ forall r, In r (peak_times trips start_date end_date) ->
         0 <= pt_hour_of_day r <= 23
         /\ (pt_day_type r = "Weekend"%string \/ pt_day_type r = "Weekday"%string)
         /\ 1 <= pt_arrivals r.
Proof.
  intros trips sd ed. unfold peak_times.
  set (rows := filter (fun h => BETWEEN (h_end_date h) (TIMESTAMP sd) (TIMESTAMP ed)) trips).
  set (sel := fun g : Z * string * list cycle_hire =>
                let '(hour, day_type, rs) := g in mk_peak_time hour day_type (COUNT rs)).
  assert (forall g, In g (group_by peak_time_key rows) ->
            0 <= fst (fst g) <= 23
            /\ (snd (fst g) = "Weekend"%string \/ snd (fst g) = "Weekday"%string)
            /\ snd g <> []) as Hg.
  { intros [[hour dt] rs] I.
    destruct (@group_by_rows _ _ _ _ peak_time_key _ (hour, dt) rs I) as [NE Hr].
    cbn [fst snd]. destruct rs as [|h rs]; [contradiction|].
    destruct (proj1 (Hr h) (or_introl eq_refl)) as [_ Ek].
    unfold peak_time_key in Ek. inversion Ek; subst.
    split; [apply EXTRACT_HOUR_range|]. split; [|discriminate].
    destruct ((EXTRACT_DAYOFWEEK (h_end_date h) =? 1)
              || (EXTRACT_DAYOFWEEK (h_end_date h) =? 7)); auto. }
  assert (map (fun r => (pt_hour_of_day r, pt_day_type r))
              (map sel (group_by peak_time_key rows))
          = map fst (group_by peak_time_key rows)) as Ekeys.
  { rewrite map_map. apply map_ext. intros [[hour dt] rs]. reflexivity. }
  split; [|split; [|split]].
  - rewrite map_map.
    rewrite (map_ext _ (fun g => COUNT (snd g))) by (intros [[hour dt] rs]; reflexivity).
    apply (@group_by_count_sum _ _ _ _ peak_time_key).
  - rewrite Ekeys. apply (@group_by_keys_NoDup _ _ _ _ peak_time_key).
  - rewrite <- (length_map (fun r => (pt_hour_of_day r, pt_day_type r))), Ekeys.
    change 48%nat
      with (List.length (list_prod (map Z.of_nat (seq 0 24))
                                   ["Weekend"%string; "Weekday"%string])).
    apply NoDup_incl_length; [apply (@group_by_keys_NoDup _ _ _ _ peak_time_key)|].
    intros k Ik. apply in_map_iff in Ik. destruct Ik as (g & <- & Ig).
    destruct (Hg g Ig) as (Hh & Hd & _). destruct (fst g) as [hour dt].
    cbn [fst snd] in *. apply in_prod; [apply hour_in_day, Hh|].
    destruct Hd as [-> | ->]; cbn; auto.
  - intros r I. apply in_map_iff in I. destruct I as (g & <- & Ig).
    destruct (Hg g Ig) as (Hh & Hd & NE). destruct g as [[hour dt] rs].
    cbn [fst snd sel pt_hour_of_day pt_day_type pt_arrivals] in *.
    split; [exact Hh|]. split; [exact Hd|]. pose proof (COUNT_pos NE). lia.
Qed.

Lemma peak_time_hour_range (trips : list cycle_hire) (start_date end_date : Z)
  (r : PeakTime) :
  In r (peak_times trips start_date end_date) -> 0 <= pt_hour_of_day r <= 23.
Proof.
  unfold peak_times. intros I. apply in_map_iff in I.
  destruct I as ([[hour dt] rs] & <- & I).
  destruct (proj1 (@group_by_In _ _ _ _ peak_time_key _ (hour, dt) rs) I) as [Ik _].
  apply in_map_iff in Ik. destruct Ik as (h & Ek & _).
  unfold peak_time_key in Ek. inversion Ek; subst.
  cbn [pt_hour_of_day]. apply EXTRACT_HOUR_range.
Qed.

(** X10. The "peaks" listed for a day type are at most three rows of the
    arrival profile of that day type (exactly three when it has that many),
    and they are the busiest: every profile row of the day type that is
    not listed has at most as many arrivals as each listed one. *)
Theorem top_hours_are_the_busiest :
  forall (trips : list cycle_hire) (stations : list cycle_stations)
         (start_date end_date : Z) (day_type : string),
    List.length (top_hours day_type (peak_times_df_of trips stations start_date end_date))
    = Nat.min 3 (List.length
                   (filter (fun r => String.eqb (c_name r) day_type)
                           (peak_times_df_of trips stations start_date end_date)))
    /\ (forall r,
          In r (top_hours day_type (peak_times_df_of trips stations start_date end_date)) ->
          In r (peak_times_df_of trips stations start_date end_date)
          /\ c_name r = day_type /\ 0 <= c_id r <= 23)
    /\ (forall r r',
          In r (top_hours day_type (peak_times_df_of trips stations start_date end_date)) ->
          In r' (peak_times_df_of trips stations start_date end_date) ->
          c_name r' = day_type ->
          ~ In r' (top_hours day_type (peak_times_df_of trips stations start_date end_date)) ->
          exists v v', c_inflows r = Some v /\ c_inflows r' = Some v' /\ v' <= v).
Proof.
  intros trips stations sd ed day_type.
  set (df := peak_times_df_of trips stations sd ed).
  unfold top_hours, nlargest, day_type_data.
  set (picked := filter (fun r => String.eqb (c_name r) day_type) df).
  set (by_hour := order_by (fun a b => c_id a <? c_id b) picked).
  set (before := fun a b : CombinedRow => cell_lt (c_inflows b) (c_inflows a)).
  set (ranked := order_by before by_hour).
  assert (forall r, In r df -> (exists v, c_inflows r = Some v) /\ 0 <= c_id r <= 23)
    as Hdf.
  { intros r I. unfold df in I. rewrite peak_times_df_rows in I.
    apply in_map_iff in I. destruct I as (t & <- & It).
    split; [eexists; reflexivity|].
    apply (peak_time_hour_range _ _ _ _ It). }
  assert (forall r, In r ranked <-> In r df /\ c_name r = day_type) as Hin.
  { intros r. unfold ranked, by_hour, picked.
    rewrite !order_by_In, filter_In, String.eqb_eq. reflexivity. }
  assert (StronglySorted (fun a b => before b a = false) ranked) as Sl.
  { apply (@order_by_sorted _ before (fun r => exists v, c_inflows r = Some v)).
    - intros a b [va Ea] [vb Eb]. unfold before, cell_lt. rewrite Ea, Eb.
      rewrite Z.ltb_lt, Z.ltb_ge. lia.
    - intros a b c [va Ea] [vb Eb] [vc Ec]. unfold before, cell_lt.
      rewrite Ea, Eb, Ec, !Z.ltb_ge. lia.
    - apply Forall_forall. intros r I. apply order_by_In in I.
      apply filter_In in I. apply Hdf, I. }
  split; [|split].
  - rewrite length_firstn. unfold ranked, by_hour. rewrite !order_by_length.
    reflexivity.
  - intros r I. apply firstn_In in I. apply Hin in I. destruct I as [I E].
    split; [exact I|]. split; [exact E|]. apply Hdf, I.
  - intros r r' I I' E' N.
    assert (In r' (skipn 3 ranked)) as Is.
    { assert (In r' ranked) as Ir by (apply Hin; auto).
      rewrite <- (firstn_skipn 3 ranked) in Ir. apply in_app_or in Ir.
      destruct Ir as [Ir | Ir]; [contradiction | exact Ir]. }
    pose proof (@StronglySorted_firstn_skipn _ _ 3 ranked r r' Sl I Is) as B.
    cbv beta in B.
    destruct (Hdf r) as [[v Ev] _]; [apply Hin, firstn_In with (n := 3%nat), I|].
    destruct (Hdf r' I') as [[v' Ev'] _].
    exists v, v'. split; [exact Ev|]. split; [exact Ev'|].
    unfold before, cell_lt in B. rewrite Ev, Ev' in B. apply Z.ltb_ge in B. exact B.
Qed.

(** ** Rates *)



(** ** The two queries of region 2 agree *)

Section GroupFilter.
Variables R K : Type.
Context `{SqlKeyOk K}.
Variable key : R -> K.
Variable q : K -> bool.

Lemma filter_comm (A : Type) (f g : A -> bool) (l : list A) :
  filter f (filter g l) = filter g (filter f l).
Proof.
  rewrite !filter_filter_andb. apply filter_ext. intros x. apply andb_comm.
Qed.

Lemma distinct_filter (ks : list K) :
  distinct (filter q ks) = filter q (distinct ks).
Proof.
  induction ks as [|k ks IH]; [reflexivity|].
  cbn [filter distinct]. destruct (q k) eqn:Qk.
  - cbn [distinct filter]. rewrite ?Qk, IH. f_equal. apply filter_comm.
  - rewrite IH, filter_comm, filter_filter_andb.
    apply filter_ext_in. intros x _.
    destruct (key_eqb k x) eqn:E; cbn [negb andb].
    + apply (@key_eqb_eq K _ _) in E. subst x. rewrite Qk. reflexivity.
    + symmetry. apply andb_true_r.
Qed.

(** Selecting rows on their key before grouping selects groups. *)
Lemma group_by_filter_key (rows : list R) :
  group_by key (filter (fun r => q (key r)) rows)
  = filter (fun g => q (fst g)) (group_by key rows).
Proof.
  unfold group_by.
  rewrite <- (filter_map_swap q key rows), distinct_filter.
  rewrite (filter_map_swap (fun g : K * list R => q (fst g))). cbn [fst].
  apply map_ext_in. intros k I. apply filter_In in I. destruct I as [_ Qk].
  f_equal. rewrite filter_filter_andb. apply filter_ext. intros r.
  destruct (key_eqb (key r) k) eqn:E; [|apply andb_false_r].
  apply (@key_eqb_eq K _ _) in E. rewrite E, Qk. reflexivity.
Qed.
End GroupFilter.

Lemma Zsum_Permutation (l l' : list Z) : Permutation l l' -> Zsum l = Zsum l'.
Proof.
  induction 1 as [| x l l' _ IH | x y l | l l' l'' _ IH1 _ IH2];
    cbn [Zsum fold_right] in *; unfold Zsum in *; lia.
Qed.

(** The CTE [hourly_data] is the selection of the selected station's slots
    among the slots of [hourly_station_status]. *)
Lemma hourly_data_is_selection (trips : list cycle_hire) (stations : list cycle_stations)
  (start_date end_date : Z) (hss : list HourlyStationSlot) (selected_station : string) :
  hourly_station_status trips stations start_date end_date = Some hss ->
  hourly_data trips stations start_date end_date selected_station
  = filter (fun r => String.eqb (hss_station_name r) selected_station) hss.
Proof.
  intros E. rewrite hourly_station_status_rows in E. inversion E; subst hss. clear E.
  unfold hourly_data.
  set (q := fun k : HourlyKey =>
              let '(_, name, _, _, _, _) := k in String.eqb name selected_station).
  rewrite (filter_ext (hourly_data_where start_date end_date selected_station)
             (fun hs => hourly_where start_date end_date hs && q (hourly_key hs))).
  - rewrite <- filter_filter_andb.
    rewrite (@group_by_filter_key _ _ _ _ hourly_key q).
    rewrite filter_map_swap. f_equal. apply filter_ext.
    intros [[[[[[id name] docks] date] hour] dow] rows]. reflexivity.
  - intros [h s]. unfold hourly_data_where, hourly_where, q, hourly_key. cbn [fst snd].
    destruct (BETWEEN (h_end_date h) (TIMESTAMP start_date) (TIMESTAMP end_date)),
      (String.eqb (s_name s) selected_station), (0 <? s_docks_count s); reflexivity.
Qed.

(** The column sums of [hourly_capacity_query] are conditional counts over
    the rows of [hourly_data]. *)
Lemma hourly_capacity_sums (trips : list cycle_hire) (stations : list cycle_stations)
  (start_date end_date : Z) (selected_station : string) :
  Zsum (map hc_at_capacity_count
            (hourly_capacity_query trips stations start_date end_date selected_station))
  = COUNTIF at_capacity (hourly_data trips stations start_date end_date selected_station)
  /\ Zsum (map hc_near_capacity_count
               (hourly_capacity_query trips stations start_date end_date selected_station))
     = COUNTIF near_capacity
         (hourly_data trips stations start_date end_date selected_station).
Proof.
  unfold hourly_capacity_query.
  set (hd := hourly_data trips stations start_date end_date selected_station).
  set (groups := group_by capacity_key hd).
  pose proof (order_by_Permutation capacity_before groups) as P.
  split.
  - rewrite map_map.
    rewrite (map_ext _ (fun g => COUNTIF at_capacity (snd g)))
      by (intros [[[hour dn] dow] rows]; reflexivity).
    rewrite <- (Zsum_Permutation (Permutation_map _ P)).
    apply (@group_by_countif_sum _ _ _ _ capacity_key).
  - rewrite map_map.
    rewrite (map_ext _ (fun g => COUNTIF near_capacity (snd g)))
      by (intros [[[hour dn] dow] rows]; reflexivity).
    rewrite <- (Zsum_Permutation (Permutation_map _ P)).
    apply (@group_by_countif_sum _ _ _ _ capacity_key).
Qed.

Lemma station_summary_group (hss : list HourlyStationSlot) (s : StationSummary) :
  In s (station_summaries hss) ->
  filter (fun r => key_eqb (summary_key r) (ss_station_name s, ss_total_docks s))
         (filter summary_where hss) <> []
  /\ ss_instances_near_capacity s
     = COUNT (filter (fun r => key_eqb (summary_key r) (ss_station_name s, ss_total_docks s))
                     (filter summary_where hss))
  /\ ss_instances_at_capacity s
     = COUNTIF at_capacity
         (filter (fun r => key_eqb (summary_key r) (ss_station_name s, ss_total_docks s))
                 (filter summary_where hss)).
Proof.
  unfold station_summaries. intros I. apply in_map_iff in I.
  destruct I as ([[name docks] rows] & <- & I).
  destruct (@group_by_rows _ _ _ _ summary_key _ (name, docks) rows I) as [NE _].
  destruct (proj1 (@group_by_In _ _ _ _ summary_key _ (name, docks) rows) I) as [_ Er].
  cbn [summary_select ss_station_name ss_total_docks ss_instances_near_capacity
       ss_instances_at_capacity].
  rewrite <- Er. repeat split. exact NE.
Qed.

(** With unique station names a slot's name determines its dock count. *)
Lemma slot_name_determines_docks (trips : list cycle_hire) (stations : list cycle_stations)
  (start_date end_date : Z) (hss : list HourlyStationSlot) (r r' : HourlyStationSlot) :
  NoDup (map s_name stations) ->
  hourly_station_status trips stations start_date end_date = Some hss ->
  In r hss -> In r' hss -> hss_station_name r = hss_station_name r' ->
  hss_total_docks r = hss_total_docks r' /\ 0 < hss_total_docks r.
Proof.
  intros ND E I I' En.
  destruct (@hourly_slot_fields _ _ _ _ _ _ E I)
    as (h & s & rows & _ & Is & _ & _ & D & _ & ->).
  destruct (@hourly_slot_fields _ _ _ _ _ _ E I')
    as (h' & s' & rows' & _ & Is' & _ & _ & _ & _ & ->).
  cbn [hss_station_name hss_total_docks] in *.
  rewrite (NoDup_map_injective_on s_name stations s s' ND Is Is' En).
  split; [reflexivity|]. rewrite <- (NoDup_map_injective_on s_name stations s s' ND Is Is' En).
  exact D.
Qed.

(** X12. With unique station names, and a selected name that the query
    text turns into a string literal (no quote, backslash or line break in
    it), the two queries of region 2 agree on the station picked in the
    dropdown: the "Times At Capacity" metric of the hourly table equals the
    station's at-capacity count in the ranked table, and the ranked table's
    near-capacity count is the sum of the two metrics of the hourly table
    (near capacity + at capacity).  Nothing is said of a name with one of
    those characters. *)
Theorem station_totals_agree :
  forall (trips : list cycle_hire) (stations : list cycle_stations)
         (start_date end_date : Z) (hss : list HourlyStationSlot)
         (peaks : list PeakRow) (selected_station : string)
         (hourly_capacity_df : list HourlyCapacityRow),
    NoDup (map s_name stations) ->
    hourly_station_status trips stations start_date end_date = Some hss ->
    hourly_capacity_df_of trips stations start_date end_date selected_station
    = Some hourly_capacity_df ->
    literal_text selected_station = true
    /\ forall row, In row (ranked_stations hss peaks) ->
         fs_station_name row = selected_station ->
         fs_instances_at_capacity row
         = Zsum (map hc_at_capacity_count hourly_capacity_df)
         /\ fs_instances_near_capacity row
            = Zsum (map hc_near_capacity_count hourly_capacity_df)
              + Zsum (map hc_at_capacity_count hourly_capacity_df).
Proof.
  intros trips stations sd ed hss peaks sel df ND E Edf.
  unfold hourly_capacity_df_of, station_literal in Edf.
  destruct (literal_text sel) eqn:Plain; [|discriminate Edf].
  injection Edf as <-. split; [reflexivity|].
  intros row I En.
  destruct (hourly_capacity_sums trips stations sd ed sel) as [-> ->].
  rewrite (hourly_data_is_selection _ _ _ _ sel E).
  destruct (ranked_row_origin _ _ _ I) as (s & Is & Ir).
  apply left_join_peak_rows in Ir. destruct Ir as (Ename & -> & ->).
  destruct (station_summary_group _ _ Is) as (NE & -> & ->).
  set (rows := filter (fun r => key_eqb (summary_key r)
                                        (ss_station_name s, ss_total_docks s))
                      (filter summary_where hss)) in *.
  assert (ss_station_name s = sel) as Es by congruence.
  assert (forall p : HourlyStationSlot -> bool,
            (forall r, In r hss -> 0 < hss_total_docks r -> p r = true ->
               Qle_bool 80 (hss_utilisation_pct r) = true) ->
            COUNTIF p rows
            = COUNTIF p (filter (fun r => String.eqb (hss_station_name r) sel) hss)) as Hp.
  { intros p Hsw. unfold COUNTIF, rows. rewrite !filter_filter_andb.
    f_equal. apply filter_ext_in. intros r Ir.
    destruct rows as [|r0 rest] eqn:Erows; [contradiction|].
    assert (In r0 hss /\ summary_key r0 = (ss_station_name s, ss_total_docks s)) as [I0 K0].
    { assert (In r0 rows) as X by (rewrite Erows; left; reflexivity).
      unfold rows in X. apply filter_In in X. destruct X as [X K].
      apply filter_In in X. apply (@key_eqb_eq (string * Z) _ _) in K. tauto. }
    unfold summary_key in K0. injection K0 as Kn Kd.
    destruct (String.eqb (hss_station_name r) sel) eqn:Nm; cbn [andb].
    - apply String.eqb_eq in Nm.
      destruct (@slot_name_determines_docks _ _ _ _ _ r r0 ND E Ir I0)
        as [Ed D]; [congruence|].
      destruct (p r) eqn:Pr; [|rewrite !andb_false_r; reflexivity].
      rewrite andb_true_r. apply andb_true_iff. split.
      + unfold summary_where. rewrite (Hsw r Ir D Pr). apply Z.ltb_lt, D.
      + apply (@key_eqb_eq (string * Z) _ _). unfold summary_key. congruence.
    - assert (key_eqb (summary_key r) (ss_station_name s, ss_total_docks s) = false) as ->.
      { apply (@key_eqb_neq (string * Z) _ _). unfold summary_key. intros K. inversion K.
        apply String.eqb_neq in Nm. congruence. }
      rewrite andb_false_r. reflexivity. }
  assert (COUNTIF at_capacity rows
          = COUNTIF at_capacity (filter (fun r => String.eqb (hss_station_name r) sel) hss))
    as Eat.
  { apply Hp. intros r _ _ A. unfold at_capacity in A.
    apply Qle_bool_iff. apply Qle_bool_iff in A.
    eapply Qle_trans; [|exact A]. discriminate. }
  assert (COUNTIF near_capacity rows
          = COUNTIF near_capacity
              (filter (fun r => String.eqb (hss_station_name r) sel) hss)) as Enear.
  { apply Hp. intros r _ _ A. unfold near_capacity in A.
    apply andb_true_iff in A. apply A. }
  split; [exact Eat|].
  rewrite <- Eat, <- Enear.
  apply ranker_near_count_includes_at_capacity.
  intros r Ir. unfold rows in Ir. apply filter_In in Ir. destruct Ir as [Ir _].
  apply filter_In in Ir. apply Ir.
Qed.

Lemma station_totals_agree_witness :
  NoDup (map s_name capacity_stations)
  /\ hourly_station_status capacity_trips capacity_stations
       day_2016_01_01 day_2016_01_02 = Some capacity_slots
  /\ hourly_capacity_df_of capacity_trips capacity_stations
       day_2016_01_01 day_2016_01_02 "S1"
     = Some (hourly_capacity_query capacity_trips capacity_stations
               day_2016_01_01 day_2016_01_02 "S1")
  /\ forall row,
       In row (ranked_stations capacity_slots (peak_hours capacity_slots)) ->
       fs_station_name row = "S1"%string ->
       fs_instances_at_capacity row
       = Zsum (map hc_at_capacity_count
                   (hourly_capacity_query capacity_trips capacity_stations
                      day_2016_01_01 day_2016_01_02 "S1")).
Proof.
  assert (NoDup (map s_name capacity_stations)) as ND.
  { cbn. repeat constructor; cbn; intuition discriminate. }
  assert (hourly_station_status capacity_trips capacity_stations
            day_2016_01_01 day_2016_01_02 = Some capacity_slots) as E
    by (vm_compute; reflexivity).
  assert (hourly_capacity_df_of capacity_trips capacity_stations
            day_2016_01_01 day_2016_01_02 "S1"
          = Some (hourly_capacity_query capacity_trips capacity_stations
                    day_2016_01_01 day_2016_01_02 "S1")) as Edf
    by reflexivity.
  split; [exact ND|]. split; [exact E|]. split; [exact Edf|].
  intros row I En.
  destruct (@station_totals_agree _ _ _ _ _ (peak_hours capacity_slots) "S1" _ ND E Edf)
    as [_ H].
  apply (H row I En).
Defined.

(** ** Shape of the hourly table *)

Lemma hourly_data_slot (trips : list cycle_hire) (stations : list cycle_stations)
  (start_date end_date : Z) (selected_station : string) (slot : HourlyStationSlot) :
  In slot (hourly_data trips stations start_date end_date selected_station) ->
  0 <= hss_hour slot <= 23 /\ 1 <= hss_day_of_week slot <= 7
  /\ hss_station_name slot = selected_station.
Proof.
  unfold hourly_data. intros I. apply in_map_iff in I.
  destruct I as ([k rows] & <- & I).
  destruct (proj1 (@group_by_In _ _ _ _ hourly_key _ k rows) I) as [Ik _].
  apply in_map_iff in Ik. destruct Ik as ([h s] & <- & Ihs).
  apply filter_In in Ihs. destruct Ihs as [_ W].
  unfold hourly_data_where in W. cbn [fst snd] in W.
  apply andb_true_iff in W. destruct W as [W _].
  apply andb_true_iff in W. destruct W as [_ W]. apply String.eqb_eq in W.
  unfold hourly_data_select, hourly_key. cbn [fst snd hss_hour hss_day_of_week
                                              hss_station_name].
  split; [apply EXTRACT_HOUR_range|]. split; [apply EXTRACT_DAYOFWEEK_range | exact W].
Qed.

Lemma day_name_of_injective (d d' : Z) :
  1 <= d <= 7 -> 1 <= d' <= 7 -> day_name_of d = day_name_of d' -> d = d'.
Proof.
  intros Hd Hd'.
  assert (d = 1 \/ d = 2 \/ d = 3 \/ d = 4 \/ d = 5 \/ d = 6 \/ d = 7) as C by lia.
  assert (d' = 1 \/ d' = 2 \/ d' = 3 \/ d' = 4 \/ d' = 5 \/ d' = 6 \/ d' = 7) as C' by lia.
  intuition (subst; cbn in *; congruence).
Qed.

(** X13. The hourly table has one row per (day name, hour): the day name is
    never null and is one of the seven names, the hour lies between 0 and
    23, the two capacity counts are not negative, and so the table has at
    most 168 rows. *)
Theorem hourly_capacity_table_shape :
  forall (trips : list cycle_hire) (stations : list cycle_stations)
         (start_date end_date : Z) (selected_station : string),
    (forall c,
       In c (hourly_capacity_query trips stations start_date end_date selected_station) ->
       (exists name, hc_day_name c = Some name /\ In name day_names)
       /\ 0 <= hc_hour c <= 23
       /\ 0 <= hc_near_capacity_count c /\ 0 <= hc_at_capacity_count c)
    /\ NoDup (map (fun c => (hc_hour c, hc_day_name c))
                  (hourly_capacity_query trips stations start_date end_date
                     selected_station))
    /\ (List.length (hourly_capacity_query trips stations start_date end_date
                       selected_station) <= 168)%nat.
Proof.
  intros trips stations sd ed sel. unfold hourly_capacity_query.
  set (hd := hourly_data trips stations sd ed sel).
  set (groups := group_by capacity_key hd).
  assert (forall g, In g groups ->
            0 <= fst (fst (fst g)) <= 23 /\ 1 <= snd (fst g) <= 7
            /\ snd (fst (fst g)) = day_name_of (snd (fst g))) as Hg.
  { intros [k rows] I. cbn [fst].
    destruct (proj1 (@group_by_In _ _ _ _ capacity_key _ k rows) I) as [Ik _].
    apply in_map_iff in Ik. destruct Ik as (slot & <- & Islot).
    destruct (hourly_data_slot _ _ _ _ _ _ Islot) as (Hh & Hd & _).
    unfold capacity_key. cbn [fst snd]. auto. }
  assert (map (fun c => (hc_hour c, hc_day_name c))
              (map capacity_select (order_by capacity_before groups))
          = map (fun g : Z * option string * Z * list HourlyStationSlot =>
                   fst (fst g)) (order_by capacity_before groups)) as Ekeys.
  { rewrite map_map. apply map_ext. intros [[[hour dn] dow] rows]. reflexivity. }
  assert (NoDup (map (fun g : Z * option string * Z * list HourlyStationSlot =>
                        fst (fst g)) (order_by capacity_before groups))) as ND.
  { apply (Permutation_NoDup
             (Permutation_map _ (order_by_Permutation capacity_before groups))).
    apply NoDup_map_NoDup_ForallPairs;
      [|exact (@group_by_NoDup _ _ _ _ capacity_key hd)].
    intros g1 g2 I1 I2 Ek.
    destruct (Hg g1 I1) as (_ & Hd1 & En1). destruct (Hg g2 I2) as (_ & Hd2 & En2).
    destruct g1 as [[[hour1 dn1] dow1] rows1]. destruct g2 as [[[hour2 dn2] dow2] rows2].
    cbn [fst snd] in *. inversion Ek; subst hour2 dn2.
    assert (dow1 = dow2) as -> by (apply day_name_of_injective; congruence).
    destruct (proj1 (@group_by_In _ _ _ _ capacity_key _ _ _) I1) as [_ ->].
    destruct (proj1 (@group_by_In _ _ _ _ capacity_key _ _ _) I2) as [_ ->].
    rewrite En1. reflexivity. }
  split; [|split].
  - intros c I. apply in_map_iff in I. destruct I as (g & <- & Ig).
    apply order_by_In in Ig. destruct (Hg g Ig) as (Hh & Hd & En).
    destruct g as [[[hour dn] dow] rows]. cbn [fst snd] in *.
    cbn [capacity_select hc_day_name hc_hour hc_near_capacity_count hc_at_capacity_count].
    split; [|split; [exact Hh|]].
    + exists (get_day_name dow). rewrite En.
      destruct (get_day_name_of_weekday Hd) as [In_ Eq_]. auto.
    + split; [apply COUNTIF_le_COUNT | apply COUNTIF_le_COUNT].
  - rewrite Ekeys. exact ND.
  - rewrite <- (length_map (fun c => (hc_hour c, hc_day_name c))), Ekeys.
    change 168%nat
      with (List.length (list_prod (map Z.of_nat (seq 0 24)) (map Some day_names))).
    apply NoDup_incl_length; [exact ND|].
    intros k Ik. apply in_map_iff in Ik. destruct Ik as (g & <- & Ig).
    apply order_by_In in Ig. destruct (Hg g Ig) as (Hh & Hd & En).
    destruct g as [[[hour dn] dow] rows]. cbn [fst snd] in *.
    apply in_prod; [apply hour_in_day, Hh|].
    rewrite En. destruct (get_day_name_of_weekday Hd) as [In_ ->].
    apply in_map, In_.
Qed.

(** ** A failed first query and the rest of the page *)

(** X14. When the query of region 2 fails, [run_query] hands back the empty
    frame: region 2 only prints its warning and binds nothing, and region 3
    then raises [NameError] as soon as its own query returns a station-flow
    row. *)
Theorem failed_capacity_query_breaks_region3 :
  forall (Client QueryJob PyException : Type)
         (str_of : PyException -> string)
         (get_bigquery_client : Outcome PyException Client)
         (client_query : Client -> string -> Outcome PyException QueryJob)
         (to_dataframe : QueryJob -> Outcome PyException (DataFrame FullStationsRow))
         (query : string) (e : PyException)
         (combined_data : DataFrame CombinedRow)
         (start_date end_date : Z) (iv : Interval),
    try_body get_bigquery_client client_query to_dataframe query = Raised e ->
    capacity_insights
      (fst (run_query str_of get_bigquery_client client_query to_dataframe query))
      start_date end_date iv = Ret None
    /\ intervals_binding
         (fst (run_query str_of get_bigquery_client client_query to_dataframe query))
         start_date end_date iv = None
    /\ (df_empty combined_data = false ->
        filter is_station_flows (records combined_data) <> [] ->
        system_insights combined_data
          (intervals_binding
             (fst (run_query str_of get_bigquery_client client_query to_dataframe query))
             start_date end_date iv)
        = Raise (NameError "name 'intervals_in_period' is not defined")).
Proof.
  intros Client QueryJob PyException str_of gc cq td query e combined sd ed iv E.
  rewrite (run_query_raised str_of gc cq td query E). cbn [fst].
  split; [reflexivity|]. split; [reflexivity|].
  intros Ec NE. unfold system_insights, intervals_binding. rewrite Ec. cbn [negb].
  destruct (filter is_station_flows (records combined)) as [|r rs]; [contradiction|].
  cbn [df_empty pd_DataFrame columns negb].
  rewrite imbalance_metrics_unbound. reflexivity.
Qed.

Lemma failed_capacity_query_breaks_region3_witness :
  try_body (Returned tt) (fun (_ : unit) (_ : string) => Raised "quota exceeded"%string)
           (fun _ : unit => Returned (mkDataFrame (Row := FullStationsRow) [] []))
           "SELECT 1" = Raised "quota exceeded"%string
  /\ intervals_binding
       (fst (run_query (fun e : string => e) (Returned tt)
               (fun (_ : unit) (_ : string) => Raised "quota exceeded"%string)
               (fun _ : unit => Returned (mkDataFrame (Row := FullStationsRow) [] []))
               "SELECT 1"))
       day_2016_01_01 day_2016_01_02 Weekly = None.
Proof.
  split; [reflexivity|].
  apply (@failed_capacity_query_breaks_region3 unit unit string (fun e : string => e)
           (Returned tt) (fun (_ : unit) (_ : string) => Raised "quota exceeded"%string)
           (fun _ : unit => Returned (mkDataFrame (Row := FullStationsRow) [] []))
           "SELECT 1"%string "quota exceeded"%string
           (mkDataFrame combined_columns [])
           day_2016_01_01 day_2016_01_02 Weekly eq_refl).
Defined.

(** ** Bounds on the headline numbers of region 3 *)

Lemma COUNT_filter_andb_le (A : Type) (p q : A -> bool) (l : list A) :
  COUNT (filter (fun x => p x && q x) l) <= COUNT (filter p l).
Proof.
  rewrite <- filter_filter_andb. unfold COUNT.
  pose proof (filter_length_le q (filter p l)). lia.
Qed.

Lemma Zsum_map_le (A : Type) (f g : A -> Z) (l : list A) :
  (forall x, In x l -> f x <= g x) -> Zsum (map f l) <= Zsum (map g l).
Proof.
  induction l as [|x l IH]; intros Hle; [reflexivity|].
  cbn [map Zsum fold_right]. fold (Zsum (map f l)). fold (Zsum (map g l)).
  pose proof (Hle x (or_introl eq_refl)).
  assert (Zsum (map f l) <= Zsum (map g l)) by (apply IH; intros y I; apply Hle; right; exact I).
  lia.
Qed.

(** X15. With unique station ids, the "total trips" that region 3 divides
    by - the outflows of the reported stations - and the number of "bikes
    needing rebalancing" are both bounded by the number of trips that start
    in the window, and neither is negative. *)
Theorem imbalance_numbers_bounded :
  forall (trips : list cycle_hire) (stations : list cycle_stations)
         (start_date end_date : Z) (binding : option Z) (m : ImbalanceMetrics),
    NoDup (map s_id stations) ->
    imbalance_metrics (station_flows_df_of trips stations start_date end_date) binding
    = Ret m ->
    0 <= m_total_trips m <= COUNT (filter (starts_in_window start_date end_date) trips)
    /\ (0 <= m_total_imbalance m)%Q
    /\ (m_total_imbalance m
        <= inject_Z (COUNT (filter (starts_in_window start_date end_date) trips)))%Q.
Proof.
  intros trips stations sd ed binding m ND E.
  destruct (imbalance_metrics_fields _ _ E) as (Ei & Et & _ & _).
  rewrite Ei, Et. clear Ei Et E.
  unfold total_imbalance, abs_sum, cell_sum.
  rewrite station_flows_df_rows, (station_flows_rows trips sd ed stations ND).
  rewrite filter_map_swap, !map_map.
  set (kept := filter (fun s => significant (flow_of trips sd ed s))
                      (filter (fun s => 0 <? s_docks_count s) stations)).
  cbn [station_flow_row c_outflows c_net_flow flow_of sf_outflows sf_net_flow].
  assert (NoDup (map s_id kept)) as NDk by (unfold kept; do 2 apply NoDup_map_filter; exact ND).
  set (N := COUNT (filter (starts_in_window sd ed) trips)).
  assert (Zsum (map (fun s => trips_from trips sd ed (s_id s)) kept) <= N) as Hout.
  { unfold trips_from. rewrite count_over_stations by exact NDk.
    apply COUNT_filter_andb_le. }
  assert (Zsum (map (fun s => trips_to trips sd ed (s_id s)) kept) <= N) as Hin.
  { unfold trips_to. rewrite count_over_stations by exact NDk.
    apply COUNT_filter_andb_le. }
  assert (0 <= Zsum (map (fun s => trips_from trips sd ed (s_id s)) kept)) as Hout0.
  { rewrite <- (Zsum_map_zero (fun _ => 0) kept) at 1 by reflexivity.
    apply Zsum_map_le. intros s _. apply COUNT_nonneg. }
  assert (0 <= Zsum (map (fun s => Z.abs (trips_to trips sd ed (s_id s)
                                          - trips_from trips sd ed (s_id s))) kept)
          <= 2 * N) as Habs.
  { split.
    - rewrite <- (Zsum_map_zero (fun _ => 0) kept) at 1 by reflexivity.
      apply Zsum_map_le. intros s _. lia.
    - transitivity (Zsum (map (fun s => trips_to trips sd ed (s_id s)
                                        + trips_from trips sd ed (s_id s)) kept)).
      + apply Zsum_map_le. intros s _.
        pose proof (COUNT_nonneg
                      (filter (fun h => starts_in_window sd ed h
                                        && (h_end_station_id h =? s_id s)) trips)).
        pose proof (COUNT_nonneg
                      (filter (fun h => starts_in_window sd ed h
                                        && (h_start_station_id h =? s_id s)) trips)).
        unfold trips_to, trips_from. lia.
      + rewrite Zsum_map_add. lia. }
  split; [lia|].
  generalize dependent (Zsum (map (fun s => Z.abs (trips_to trips sd ed (s_id s)
                                                   - trips_from trips sd ed (s_id s)))
                                  kept)).
  intros a Ha. unfold Qle, Qdiv, Qmult, Qinv, inject_Z. cbn [Qnum Qden]. lia.
Qed.

Lemma imbalance_numbers_bounded_witness :
  NoDup (map s_id imbalance_stations)
  /\ exists m,
       imbalance_metrics
         (station_flows_df_of imbalance_trips imbalance_stations
            day_2016_01_01 day_2016_01_02) (Some 1) = Ret m
       /\ m_total_trips m <= 30.
Proof.
  assert (NoDup (map s_id imbalance_stations)) as ND.
  { cbn. repeat constructor; cbn; intuition discriminate. }
  split; [exact ND|].
  destruct (@imbalance_metrics_bound
              (station_flows_df_of imbalance_trips imbalance_stations
                 day_2016_01_01 day_2016_01_02) 1 ltac:(discriminate)) as (m & E).
  exists m. split; [exact E|].
  destruct (@imbalance_numbers_bounded _ _ _ _ _ _ ND E) as [[_ L] _].
  exact L.
Defined.

(** ** The station dropdown *)

Lemma peak_hours_names_NoDup (hss : list HourlyStationSlot) :
  NoDup (map p_station_name (peak_hours hss)).
Proof.
  unfold peak_hours. apply one_row_per_block.
  - exact (@distinct_NoDup string _ _ (map p_station_name (peak_groups hss))).
  - intros n r I.
    destruct (order_by peak_before (peak_partition n (peak_groups hss)))
      as [|h t] eqn:Eo; [destruct I|].
    cbn [firstn] in I. destruct I as [<- | []].
    assert (In h (peak_partition n (peak_groups hss))) as Ih.
    { apply (order_by_In peak_before). rewrite Eo. left. reflexivity. }
    apply peak_partition_In in Ih. apply Ih.
  - intros n. destruct (order_by peak_before (peak_partition n (peak_groups hss)));
      cbn; lia.
Qed.

Lemma filter_unique_name (A : Type) (name_of : A -> string) (l : list A) (n : string) :
  NoDup (map name_of l) ->
  (List.length (filter (fun x => String.eqb n (name_of x)) l) <= 1)%nat.
Proof.
  induction l as [|x l IH]; intros ND; [cbn; lia|].
  cbn [map] in ND. inversion ND as [|? ? N ND']; subst.
  cbn [filter]. destruct (String.eqb n (name_of x)) eqn:E; [|apply IH, ND'].
  apply String.eqb_eq in E. subst n.
  rewrite filter_false; [cbn; lia|].
  intros y I. apply String.eqb_neq. intros Ey. apply N. rewrite Ey. apply in_map, I.
Qed.

Lemma left_join_peak_names (peaks : list PeakRow) (summaries : list StationSummary) :
  NoDup (map p_station_name peaks) ->
  map fs_station_name (flat_map (left_join_peak peaks) summaries)
  = map ss_station_name summaries.
Proof.
  intros ND. induction summaries as [|s l IH]; [reflexivity|].
  cbn [flat_map map]. rewrite map_app, IH. clear IH.
  unfold left_join_peak.
  pose proof (filter_unique_name p_station_name peaks (ss_station_name s) ND) as L.
  destruct (filter (fun p => String.eqb (ss_station_name s) (p_station_name p)) peaks)
    as [|p [|p' ps]]; cbn [List.length] in L; [reflexivity | reflexivity | lia].
Qed.

Lemma NoDup_firstn (A : Type) (n : nat) (l : list A) : NoDup l -> NoDup (firstn n l).
Proof.
  intros ND. rewrite <- (firstn_skipn n l) in ND.
  apply NoDup_app_remove_r in ND. exact ND.
Qed.

Lemma station_summaries_names_NoDup (trips : list cycle_hire)
  (stations : list cycle_stations) (start_date end_date : Z)
  (hss : list HourlyStationSlot) :
  NoDup (map s_name stations) ->
  hourly_station_status trips stations start_date end_date = Some hss ->
  NoDup (map ss_station_name (station_summaries hss)).
Proof.
  intros ND E. unfold station_summaries. rewrite map_map.
  apply NoDup_map_NoDup_ForallPairs;
    [|exact (@group_by_NoDup _ _ _ _ summary_key (filter summary_where hss))].
  intros [[n1 d1] rows1] [[n2 d2] rows2] I1 I2 En.
  cbn [summary_select ss_station_name] in En. subst n2.
  destruct (@group_by_rows _ _ _ _ summary_key _ _ _ I1) as [NE1 H1].
  destruct (@group_by_rows _ _ _ _ summary_key _ _ _ I2) as [NE2 H2].
  destruct rows1 as [|r1 t1]; [contradiction|].
  destruct rows2 as [|r2 t2]; [contradiction|].
  destruct (proj1 (H1 r1) (or_introl eq_refl)) as [Ir1 K1].
  destruct (proj1 (H2 r2) (or_introl eq_refl)) as [Ir2 K2].
  apply filter_In in Ir1, Ir2. unfold summary_key in K1, K2.
  injection K1 as Kn1 Kd1. injection K2 as Kn2 Kd2.
  destruct (@slot_name_determines_docks _ _ _ _ _ r1 r2 ND E (proj1 Ir1) (proj1 Ir2))
    as [Ed _]; [congruence|].
  assert (d1 = d2) as <- by congruence.
  destruct (proj1 (@group_by_In _ _ _ _ summary_key _ _ _) I1) as [_ ->].
  destruct (proj1 (@group_by_In _ _ _ _ summary_key _ _ _) I2) as [_ ->].
  reflexivity.
Qed.

(** X16. With unique station names, the options of the station dropdown are
    at most ten distinct names, each the name of a station of the table
    that has docks, and the option selected by default (index 0) is the
    station the insights call the most problematic one. *)
Theorem dropdown_options :
  forall (trips : list cycle_hire) (stations : list cycle_stations)
         (start_date end_date : Z) (hss : list HourlyStationSlot)
         (cols : list string) (iv : Interval) (ins : CapacityInsights),
    NoDup (map s_name stations) ->
    hourly_station_status trips stations start_date end_date = Some hss ->
    capacity_insights (mkDataFrame cols (ranked_stations hss (peak_hours hss)))
      start_date end_date iv = Ret (Some ins) ->
    NoDup (station_names ins)
    /\ (1 <= List.length (station_names ins) <= 10)%nat
    /\ hd_error (station_names ins) = Some (most_at_capacity ins)
    /\ forall name, In name (station_names ins) ->
         exists s, In s stations /\ s_name s = name /\ 0 < s_docks_count s.
Proof.
  intros trips stations sd ed hss cols iv ins ND E Ei.
  unfold capacity_insights in Ei.
  destruct (df_empty (mkDataFrame cols (ranked_stations hss (peak_hours hss)))) eqn:Em;
    cbn [negb] in Ei; [discriminate|].
  cbn [records] in Ei.
  destruct (ranked_stations hss (peak_hours hss)) as [|row0 rest] eqn:Er.
  { unfold df_empty in Em. cbn [columns records] in Em. destruct cols; discriminate. }
  unfold iloc in Ei. cbn [nth_error py_bind] in Ei.
  pose proof (intervals_in_period_pos sd ed iv) as P.
  rewrite !truediv_nonzero in Ei by lia. cbn [py_bind] in Ei.
  inversion Ei; subst ins. clear Ei.
  cbn [station_names most_at_capacity].
  assert (NoDup (map fs_station_name (ranked_stations hss (peak_hours hss)))) as NDn.
  { unfold ranked_stations, LIMIT. rewrite <- firstn_map. apply NoDup_firstn.
    apply (Permutation_NoDup
             (Permutation_map _ (order_by_Permutation full_before _))).
    rewrite left_join_peak_names by apply peak_hours_names_NoDup.
    apply (station_summaries_names_NoDup _ _ _ _ ND E). }
  assert (List.length (ranked_stations hss (peak_hours hss)) <= 10)%nat as Len
    by (unfold ranked_stations, LIMIT; apply firstn_le_length).
  rewrite Er in NDn, Len.
  split; [exact NDn|]. split.
  - cbn [map List.length] in *. rewrite ?length_map. lia.
  - split; [reflexivity|]. intros name I.
    change (In name (map fs_station_name (row0 :: rest))) in I.
    apply in_map_iff in I. destruct I as (row & <- & Irow).
    rewrite <- Er in Irow.
    destruct (ranked_row_origin _ _ _ Irow) as (s & Is & Ir).
    apply left_join_peak_rows in Ir. destruct Ir as (-> & _ & _).
    destruct (station_summary_counts _ _ Is) as (rows & NE & Hr & _ & _).
    destruct rows as [|r rows]; [contradiction|].
    destruct (proj1 (Hr r) (or_introl eq_refl)) as (Ih & _ & <- & _).
    destruct (@hourly_slot_fields _ _ _ _ _ _ E Ih)
      as (h & st & rws & _ & Ist & _ & _ & D & _ & ->).
    exists st. cbn [hss_station_name]. auto.
Qed.

Lemma dropdown_options_witness :
  NoDup (map s_name capacity_stations)
  /\ hourly_station_status capacity_trips capacity_stations
       day_2016_01_01 day_2016_01_02 = Some capacity_slots
  /\ exists ins,
       capacity_insights
         (mkDataFrame full_stations_columns
            (ranked_stations capacity_slots (peak_hours capacity_slots)))
         day_2016_01_01 day_2016_01_02 Weekly = Ret (Some ins)
       /\ NoDup (station_names ins).
Proof.
  assert (NoDup (map s_name capacity_stations)) as ND.
  { cbn. repeat constructor; cbn; intuition discriminate. }
  assert (hourly_station_status capacity_trips capacity_stations
            day_2016_01_01 day_2016_01_02 = Some capacity_slots) as E
    by (vm_compute; reflexivity).
  split; [exact ND|]. split; [exact E|].
  destruct (capacity_insights_total
              (mkDataFrame full_stations_columns
                 (ranked_stations capacity_slots (peak_hours capacity_slots)))
              day_2016_01_01 day_2016_01_02 Weekly) as ([ins|] & Ei).
  - exists ins. split; [exact Ei|].
    apply (@dropdown_options _ _ _ _ _ _ _ _ ND E Ei).
  - exfalso. vm_compute in Ei. discriminate Ei.
Defined.


(** ** The slots partition the counted trips *)

Lemma stations_of_id (stations : list cycle_stations) (id : Z) :
  NoDup (map s_id stations) ->
  filter (fun s => id =? s_id s) stations = []
  \/ exists s, filter (fun s => id =? s_id s) stations = [s]
       /\ In s stations /\ s_id s = id.
Proof.
  intros ND.
  destruct (filter (fun s => id =? s_id s) stations) as [|s rest] eqn:Ef; [left; reflexivity|].
  right. assert (In s stations /\ s_id s = id) as [Is Eid].
  { assert (In s (filter (fun s => id =? s_id s) stations)) as X
      by (rewrite Ef; left; reflexivity).
    apply filter_In in X. destruct X as [X E]. apply Z.eqb_eq in E. auto. }
  exists s. subst id. rewrite <- Ef, (unique_station stations s ND Is). auto.
Qed.

Lemma has_docked_station_unique (stations : list cycle_stations) (s : cycle_stations) :
  NoDup (map s_id stations) -> In s stations ->
  has_docked_station stations (s_id s) = (0 <? s_docks_count s).
Proof.
  intros ND Is. unfold has_docked_station.
  destruct (0 <? s_docks_count s) eqn:D.
  - apply existsb_exists. exists s. rewrite Z.eqb_refl, D. auto.
  - destruct (existsb _ stations) eqn:Ex; [|reflexivity].
    apply existsb_exists in Ex. destruct Ex as (s' & Is' & T).
    apply andb_true_iff in T. destruct T as [Eid D'].
    apply Z.eqb_eq in Eid.
    rewrite (NoDup_map_injective_on s_id stations s s' ND Is Is' Eid) in D. congruence.
Qed.

Lemma hourly_rows_count (trips : list cycle_hire) (stations : list cycle_stations)
  (start_date end_date : Z) :
  NoDup (map s_id stations) ->
  COUNT (filter (hourly_where start_date end_date) (hourly_join trips stations))
  = COUNT (filter (fun h => ends_in_window start_date end_date h
                            && has_docked_station stations (h_end_station_id h)) trips).
Proof.
  intros ND. unfold hourly_join.
  induction trips as [|h t IH]; [reflexivity|].
  cbn [flat_map]. rewrite filter_app. unfold COUNT in *.
  rewrite length_app, Nat2Z.inj_add, IH. clear IH. cbn [filter].
  destruct (stations_of_id stations (h_end_station_id h) ND)
    as [E0 | (s & E0 & Is & Eid)]; rewrite E0.
  - assert (has_docked_station stations (h_end_station_id h) = false) as ->.
    { unfold has_docked_station. destruct (existsb _ stations) eqn:Ex; [|reflexivity].
      apply existsb_exists in Ex. destruct Ex as (s' & Is' & T).
      apply andb_true_iff in T. destruct T as [Eid _].
      assert (In s' (filter (fun s => h_end_station_id h =? s_id s) stations)) as X
        by (apply filter_In; auto).
      rewrite E0 in X. destruct X. }
    rewrite andb_false_r. reflexivity.
  - cbn [map filter]. unfold hourly_where, ends_in_window. cbn [fst snd].
    rewrite <- Eid, (has_docked_station_unique stations s ND Is).
    destruct (BETWEEN (h_end_date h) (TIMESTAMP start_date) (TIMESTAMP end_date)
              && (0 <? s_docks_count s)); cbn [List.length]; lia.
Qed.

(** X17. With unique station ids the slots partition the counted trips: the
    arrival counts of all slots add up to the number of trips that end in
    the window at a station with docks - no such trip is lost or counted
    twice - and so to no more than the total of the hourly arrival profile
    of region 3, which counts every trip that ends in the window. *)
Theorem slots_partition_counted_trips :
  forall (trips : list cycle_hire) (stations : list cycle_stations)
         (start_date end_date : Z) (hss : list HourlyStationSlot),
    NoDup (map s_id stations) ->
    hourly_station_status trips stations start_date end_date = Some hss ->
    Zsum (map hss_arrivals_in_hour hss)
    = COUNT (filter (fun h => ends_in_window start_date end_date h
                              && has_docked_station stations (h_end_station_id h)) trips)
    /\ Zsum (map hss_arrivals_in_hour hss)
       <= Zsum (map pt_arrivals (peak_times trips start_date end_date)).
Proof.
  intros trips stations sd ed hss ND E.
  rewrite hourly_station_status_rows in E. inversion E; subst hss. clear E.
  assert (Zsum (map hss_arrivals_in_hour
                    (map hourly_data_select
                         (group_by hourly_key
                            (filter (hourly_where sd ed) (hourly_join trips stations)))))
          = COUNT (filter (fun h => ends_in_window sd ed h
                                    && has_docked_station stations (h_end_station_id h))
                          trips)) as Es.
  { rewrite map_map.
    rewrite (map_ext _ (fun g => COUNT (snd g)))
      by (intros [[[[[[id name] docks] date] hour] dow] rows]; reflexivity).
    rewrite (@group_by_count_sum _ _ _ _ hourly_key).
    apply hourly_rows_count, ND. }
  split; [exact Es|]. rewrite Es.
  unfold peak_times. rewrite map_map.
  rewrite (map_ext _ (fun g => COUNT (snd g))) by (intros [[hour dt] rs]; reflexivity).
  rewrite (@group_by_count_sum _ _ _ _ peak_time_key).
  apply COUNT_filter_andb_le.
Qed.

Lemma slots_partition_counted_trips_witness :
  NoDup (map s_id dockless_stations)
  /\ exists hss,
       hourly_station_status dockless_trips dockless_stations
         day_2016_01_01 day_2016_01_02 = Some hss
       /\ Zsum (map hss_arrivals_in_hour hss) = 27
       /\ Zsum (map pt_arrivals (peak_times dockless_trips day_2016_01_01 day_2016_01_02))
          = 28.
Proof.
  assert (NoDup (map s_id dockless_stations)) as ND.
  { cbn. repeat constructor; cbn; intuition discriminate. }
  split; [exact ND|].
  destruct (hourly_station_status dockless_trips dockless_stations
              day_2016_01_01 day_2016_01_02) as [hss|] eqn:E;
    [|vm_compute in E; discriminate E].
  exists hss. split; [reflexivity|].
  destruct (@slots_partition_counted_trips _ _ _ _ _ ND E) as [Es _].
  split; [rewrite Es; vm_compute; reflexivity | vm_compute; reflexivity].
Defined.

(** ** The number of intervals *)

(** X18. The number of intervals shown in the sidebar is the number of whole
    intervals in the window: a window shorter than one interval counts as
    one interval, and otherwise n intervals fit and n + 1 do not.  Moving
    the end date later never lowers the number. *)
Theorem intervals_are_whole_intervals :
  forall (start_date end_date : Z) (iv : Interval),
    (end_date - start_date < interval_days iv ->
     num_intervals start_date end_date iv = 1)
    /\ (interval_days iv <= end_date - start_date ->
        num_intervals start_date end_date iv * interval_days iv
        <= end_date - start_date
        < (num_intervals start_date end_date iv + 1) * interval_days iv)
    /\ (forall later : Z, end_date <= later ->
          num_intervals start_date end_date iv <= num_intervals start_date later iv).
Proof.
  intros sd ed iv. unfold num_intervals, total_days.
  pose proof (interval_days_pos iv) as P.
  set (d := interval_days iv) in *.
  split; [|split].
  - intros Hs. destruct (Z_lt_le_dec (ed - sd) 0) as [N|N].
    + pose proof (Z.div_lt_upper_bound (ed - sd) d 0 P ltac:(lia)). lia.
    + rewrite Z.div_small by lia. reflexivity.
  - intros Hl.
    assert (1 <= (ed - sd) / d) as H1 by (apply Z.div_le_lower_bound; lia).
    rewrite Z.max_r by exact H1.
    pose proof (Z.mul_div_le (ed - sd) d P).
    pose proof (Z.mul_succ_div_gt (ed - sd) d P). lia.
  - intros later Hle.
    pose proof (Z.div_le_mono (ed - sd) (later - sd) d P ltac:(lia)). lia.
Qed.

Lemma intervals_are_whole_intervals_witness :
  num_intervals day_2016_01_01 day_2016_03_11 Monthly * 30 <= 70
  < (num_intervals day_2016_01_01 day_2016_03_11 Monthly + 1) * 30.
Proof.
  destruct (@intervals_are_whole_intervals day_2016_01_01 day_2016_03_11 Monthly)
    as [_ [H _]]. apply H. vm_compute. discriminate.
Defined.

(** ** Flows of a closed system *)

(** X19. In a closed system with unique station ids every window trip is one
    outflow and one inflow: over all rows of [station_flows] the outflows
    and the inflows both add up to the number of trips that start in the
    window. *)
Theorem closed_system_totals :
  forall (trips : list cycle_hire) (stations : list cycle_stations)
         (start_date end_date : Z),
    NoDup (map s_id stations) ->
    closed_system trips stations ->
    Zsum (map sf_outflows (station_flows trips stations start_date end_date))
    = COUNT (filter (starts_in_window start_date end_date) trips)
    /\ Zsum (map sf_inflows (station_flows trips stations start_date end_date))
       = COUNT (filter (starts_in_window start_date end_date) trips).
Proof.
  intros trips stations sd ed ND [Hclosed Hdocks].
  rewrite (station_flows_rows trips sd ed stations ND).
  rewrite filter_true by (intros s I; apply Z.ltb_lt, Hdocks, I).
  rewrite !map_map. cbn [flow_of sf_outflows sf_inflows].
  unfold trips_from, trips_to. rewrite !count_over_stations by exact ND.
  split; f_equal; apply filter_ext_in; intros h I;
    destruct (Hclosed h I) as [Hs He];
    apply has_station_In in Hs; apply has_station_In in He;
    rewrite ?Hs, ?He; apply andb_true_r.
Qed.

Lemma closed_system_totals_witness :
  NoDup (map s_id capacity_stations)
  /\ closed_system loop_trips capacity_stations
  /\ Zsum (map sf_outflows
             (station_flows loop_trips capacity_stations day_2016_01_01 day_2016_01_02))
     = 4.
Proof.
  assert (NoDup (map s_id capacity_stations)) as ND.
  { cbn. repeat constructor; cbn; intuition discriminate. }
  assert (closed_system loop_trips capacity_stations) as Hc.
  { split.
    - intros h I. cbn in I. cbn [map s_id In capacity_stations].
      repeat (destruct I as [<- | I]; [cbn; tauto|]). destruct I.
    - intros s I. cbn in I.
      repeat (destruct I as [<- | I]; [reflexivity|]). destruct I. }
  split; [exact ND|]. split; [exact Hc|].
  destruct (@closed_system_totals _ _ day_2016_01_01 day_2016_01_02 ND Hc) as [Eo _].
  rewrite Eo. vm_compute. reflexivity.
Defined.
